(** * BYOD security: session lifecycle and access-rule evaluation

    A shallow embedding of [security/models.py], [security/session_utils.py]
    and [security/middleware.py], and the properties of the session engine
    proved over it. *)

From Stdlib Require Import ZArith String Ascii Bool Lia.
From stdpp Require Import base option list gmap strings.

Local Open Scope string_scope.
Local Open Scope Z_scope.

(** ** Time

    A [datetime] is the number of microseconds since 1970-01-01 00:00 in the
    reference time zone; a [timedelta] is a difference of two of them.
    [timezone.now()] is an argument [now] of every operation that reads the
    clock. *)

Definition datetime := Z.
Definition timedelta := Z.

Definition microsecond : timedelta := 1.
Definition second : timedelta := 1000000.
Definition minute : timedelta := 60 * second.
Definition hour : timedelta := 60 * minute.
Definition day : timedelta := 24 * hour.

(** [timedelta(minutes=m)] *)
Definition minutes (m : Z) : timedelta := m * minute.

(** [d.total_seconds() > s] for a whole number of seconds [s], taken on the
    microseconds of the duration. [total_seconds()] answers with a float,
    [total_seconds] below; for [0 <= s < 2^33] the comparison of that float
    with [s] is this one (lemma [total_seconds_gt_float]), which covers the
    thresholds the code compares with: 12 hours, 8 hours, and a timeout of
    less than 272 years. *)
Definition total_seconds_gt (d : timedelta) (s : Z) : bool := s * second <? d.

(** A float of Python is a binary64 number: a mantissa [m] of at most 53 bits
    and an exponent [e], standing for [m * 2^e]. *)
Record float := {
  mantissa : Z;
  exponent : Z;
}.

(** [a / (q * 2^e)] as a fraction of integers. *)
Definition scaled (a q e : Z) : Z * Z :=
  if 0 <=? e then (a, q * 2 ^ e) else (a * 2 ^ (- e), q).

(** [n / q] for two [int], [q > 0]: the float nearest to the quotient, a tie
    going to the even mantissa. The exponent is the one that gives the
    mantissa its 53 bits. The quotients of the engine are durations in
    seconds, far from the largest and the smallest float. *)
Definition true_divide (n q : Z) : float :=
  if n =? 0 then {| mantissa := 0; exponent := 0 |}
  else
    let a := Z.abs n in
    let e0 := Z.log2 a - Z.log2 q - 52 in
    let e := if (scaled a q e0).1 <? 2 ^ 52 * (scaled a q e0).2
             then e0 - 1 else e0 in
    let num := (scaled a q e).1 in
    let den := (scaled a q e).2 in
    let qt := num / den in
    let r := num mod den in
    let m := if 2 * r <? den then qt
             else if den <? 2 * r then qt + 1
             else if Z.even qt then qt else qt + 1 in
    {| mantissa := Z.sgn n * m; exponent := e |}.

(** [d.total_seconds()]: the microseconds of [d] divided by [10**6]. *)
Definition total_seconds (d : timedelta) : float := true_divide d 1000000.

(** [x > s] for a float [x] and an int [s]: Python compares the two numbers
    as they are. *)
Definition float_gt_int (x : float) (s : Z) : bool :=
  if 0 <=? exponent x then s <? mantissa x * 2 ^ exponent x
  else s * 2 ^ (- exponent x) <? mantissa x.

Inductive weekday :=
  Monday | Tuesday | Wednesday | Thursday | Friday | Saturday | Sunday.

(** 1970-01-01 was a Thursday. *)
Definition weekday_of (t : datetime) : weekday :=
  match (t / day + 3) mod 7 with
  | 0 => Monday | 1 => Tuesday | 2 => Wednesday | 3 => Thursday
  | 4 => Friday | 5 => Saturday | _ => Sunday
  end.

Definition hour_of (t : datetime) : Z := (t / hour) mod 24.
Definition minute_of (t : datetime) : Z := (t / minute) mod 60.

(** [t.strftime('%A')] *)
Definition strftime_A (t : datetime) : string :=
  match weekday_of t with
  | Monday => "Monday" | Tuesday => "Tuesday" | Wednesday => "Wednesday"
  | Thursday => "Thursday" | Friday => "Friday" | Saturday => "Saturday"
  | Sunday => "Sunday"
  end.

Definition digit (d : Z) : ascii := ascii_of_nat (48 + Z.to_nat d).

Definition two_digits (n : Z) : string :=
  String (digit (n / 10)) (String (digit (n mod 10)) EmptyString).

(** [t.strftime('%H:%M')] *)
Definition strftime_HM (t : datetime) : string :=
  two_digits (hour_of t) ++ ":" ++ two_digits (minute_of t).

(** ** Strings *)

(** [c.lower()] on one character: the ASCII capitals move to small letters. *)
Definition lower_ascii (c : ascii) : ascii :=
  let n := nat_of_ascii c in
  if ((65 <=? n) && (n <=? 90))%nat then ascii_of_nat (n + 32) else c.

(** [s.lower()] *)
Fixpoint lower (s : string) : string :=
  match s with
  | EmptyString => EmptyString
  | String c s' => String (lower_ascii c) (lower s')
  end.

(** [x in l] for a list of strings. *)
Definition str_in (x : string) (l : list string) : bool :=
  existsb (String.eqb x) l.

(** Python's [a <= b] on [str]: the order of the code points. *)
Definition str_le (a b : string) : bool := String.leb a b.

(** ** Text fields that hold JSON

    The content of such a [TextField] is the empty string, the [json.dumps] of
    a value of the expected shape, or text that [json.loads] rejects with
    [JSONDecodeError]. *)

Inductive json_text (A : Type) :=
| Blank
| Dumps (v : A)
| Malformed.
Arguments Blank {A}.
Arguments Dumps {A} v.
Arguments Malformed {A}.

(** [json.loads(t) if t else default], with [JSONDecodeError] caught and
    answered by [default]: the body of every [get_*] accessor of the models. *)
Definition loads_or {A} (default : A) (t : json_text A) : A :=
  match t with
  | Blank => default
  | Dumps v => v
  | Malformed => default
  end.

(** ** AccessControl *)

Module AccessControl.

(** The JSON object of [time_restrictions]: each of the three keys the
    evaluator reads is absent or present. *)
Record restrictions := {
  days : option (list string);
  start_time : option string;
  end_time : option string;
}.

(** The empty dict [{}]. *)
Definition no_restrictions : restrictions :=
  {| days := None; start_time := None; end_time := None |}.

(** [not restrictions]: the dict has no key. *)
Definition is_empty (r : restrictions) : bool :=
  match days r, start_time r, end_time r with
  | None, None, None => true
  | _, _, _ => false
  end.

Inductive role_choice := teacher | student | admin.

Record t := {
  role : role_choice;
  allowed_domains : json_text (list string);
  blocked_domains : json_text (list string);
  time_restrictions : json_text restrictions;
  is_active : bool;
}.

Definition get_allowed_domains (self : t) : list string :=
  loads_or [] (allowed_domains self).

Definition get_blocked_domains (self : t) : list string :=
  loads_or [] (blocked_domains self).

Definition get_time_restrictions (self : t) : restrictions :=
  loads_or no_restrictions (time_restrictions self).

Definition is_domain_allowed (self : t) (domain : string) : bool :=
  let allowed := get_allowed_domains self in
  let blocked := get_blocked_domains self in
  if str_in domain blocked then false
  else match allowed with
       | [] => true
       | _ => str_in domain allowed
       end.

Definition is_time_allowed (self : t) (current_time : datetime) : bool :=
  let restrictions := get_time_restrictions self in
  if is_empty restrictions then true
  else
    let day_ok :=
      match days restrictions with
      | Some ds =>
          let current_day := lower (strftime_A current_time) in
          str_in current_day (map lower ds)
      | None => true
      end in
    if negb day_ok then false
    else
      match start_time restrictions, end_time restrictions with
      | Some st, Some en =>
          let current_time_str := strftime_HM current_time in
          if negb (str_le st current_time_str && str_le current_time_str en)
          then false else true
      | _, _ => true
      end.

End AccessControl.

(** ** SessionTracker: the row and the in-memory object *)

Inductive status_choice := active | inactive | expired | terminated | violation.

Definition status_eqb (a b : status_choice) : bool :=
  match a, b with
  | active, active | inactive, inactive | expired, expired
  | terminated, terminated | violation, violation => true
  | _, _ => false
  end.

(** A value inside the [details] dict of a violation: a string, an integer
    or the [isoformat()] of an instant. *)
Inductive json_atom :=
| JStr (s : string)
| JInt (n : Z)
| JTime (t : datetime).

(** One entry of the violation log: [{'type', 'timestamp', 'details'}]. *)
Record violation_record := {
  v_type : string;
  v_timestamp : datetime;
  v_details : list (string * json_atom);
}.

(** [user] and [device] are the primary keys of the foreign rows. *)
Record SessionTracker := {
  pk : nat;
  user : nat;
  device : nat;
  session_key : string;
  login_time : datetime;
  logout_time : option datetime;
  last_activity : datetime;
  ip_address : string;
  user_agent : string;
  status : status_choice;
  violation_count : nat;
  violation_details : json_text (list violation_record);
}.

Definition set_last_activity (v : datetime) (s : SessionTracker) :=
  {| pk := pk s; user := user s; device := device s;
     session_key := session_key s; login_time := login_time s;
     logout_time := logout_time s; last_activity := v;
     ip_address := ip_address s; user_agent := user_agent s;
     status := status s; violation_count := violation_count s;
     violation_details := violation_details s |}.

Definition set_logout_status (t : option datetime) (st : status_choice)
    (s : SessionTracker) :=
  {| pk := pk s; user := user s; device := device s;
     session_key := session_key s; login_time := login_time s;
     logout_time := t; last_activity := last_activity s;
     ip_address := ip_address s; user_agent := user_agent s;
     status := st; violation_count := violation_count s;
     violation_details := violation_details s |}.

Definition set_violations (n : nat) (d : json_text (list violation_record))
    (s : SessionTracker) :=
  {| pk := pk s; user := user s; device := device s;
     session_key := session_key s; login_time := login_time s;
     logout_time := logout_time s; last_activity := last_activity s;
     ip_address := ip_address s; user_agent := user_agent s;
     status := status s; violation_count := n;
     violation_details := d |}.

(** The orderings the queries of the engine ask for. *)
Inductive ordering :=
| by_login_time         (* [order_by('login_time')] *)
| by_login_time_desc.   (* [Meta.ordering = ['-login_time']] *)

(** ** The world the engine runs in

    The tables, the cache, a schedule of database faults and the order in
    which the database lists rows that a query leaves tied.

    The cache is the one cache of the project: the session manager, the two
    middlewares and [cache.clear()] work on the same entries. An entry
    carries the instant at which it expires.

    Every call of the ORM takes the head of [db_faults]: [true] makes the
    call raise [DatabaseError]; the empty schedule is a database that always
    answers.

    An [ORDER BY] decides between rows that differ in the sort key and leaves
    the others to the database. [db_ties] is the choice of the database: for
    an ordering and the rows a query selects it gives every row a rank, and
    rows that tie on the sort key come by rank, those of one rank in the
    order of the table. Nothing is assumed of it. *)

Record Cache := {
  session_count : gmap nat (nat * datetime);
  session_notification : gmap nat (string * datetime);
  user_activity : gmap nat (string * datetime);
  access_rules : gmap nat (AccessControl.t * datetime);
}.

Record World := {
  session_trackers : list SessionTracker;  (* rows in primary-key order *)
  next_pk : nat;
  django_sessions : gmap string datetime;  (* session_key to expire_date *)
  cache : Cache;
  db_faults : list bool;
  db_ties : ordering → list SessionTracker → SessionTracker → nat;
}.

(** [cache.clear()] leaves this. *)
Definition empty_cache : Cache :=
  {| session_count := ∅; session_notification := ∅; user_activity := ∅;
     access_rules := ∅ |}.

(** A database that lists tied rows in the order of the table. *)
Definition table_order : ordering → list SessionTracker → SessionTracker → nat :=
  λ _ _ _, 0%nat.

Definition empty_world : World :=
  {| session_trackers := []; next_pk := 1%nat; django_sessions := ∅;
     cache := empty_cache; db_faults := []; db_ties := table_order |}.

Definition set_trackers (l : list SessionTracker) (w : World) : World :=
  {| session_trackers := l; next_pk := next_pk w;
     django_sessions := django_sessions w; cache := cache w;
     db_faults := db_faults w; db_ties := db_ties w |}.

Definition set_next_pk (n : nat) (w : World) : World :=
  {| session_trackers := session_trackers w; next_pk := n;
     django_sessions := django_sessions w; cache := cache w;
     db_faults := db_faults w; db_ties := db_ties w |}.

Definition set_django_sessions (m : gmap string datetime) (w : World) : World :=
  {| session_trackers := session_trackers w; next_pk := next_pk w;
     django_sessions := m; cache := cache w; db_faults := db_faults w;
     db_ties := db_ties w |}.

Definition set_cache (c : Cache) (w : World) : World :=
  {| session_trackers := session_trackers w; next_pk := next_pk w;
     django_sessions := django_sessions w; cache := c;
     db_faults := db_faults w; db_ties := db_ties w |}.

Definition set_db_faults (f : list bool) (w : World) : World :=
  {| session_trackers := session_trackers w; next_pk := next_pk w;
     django_sessions := django_sessions w; cache := cache w;
     db_faults := f; db_ties := db_ties w |}.

Definition set_db_ties
    (f : ordering → list SessionTracker → SessionTracker → nat) (w : World)
    : World :=
  {| session_trackers := session_trackers w; next_pk := next_pk w;
     django_sessions := django_sessions w; cache := cache w;
     db_faults := db_faults w; db_ties := f |}.

(** ** Exceptions and the monad of the engine *)

Inductive exn :=
| DoesNotExist
| MultipleObjectsReturned
| ValidationError
| DatabaseError.

Inductive result (A : Type) :=
| Ok (a : A)
| Raise (e : exn).
Arguments Ok {A} a.
Arguments Raise {A} e.

Definition M (A : Type) : Type := World → result A * World.

Definition ret {A} (a : A) : M A := λ w, (Ok a, w).

Definition bind {A B} (m : M A) (k : A → M B) : M B :=
  λ w, match m w with
       | (Ok a, w') => k a w'
       | (Raise e, w') => (Raise e, w')
       end.

Definition raise {A} (e : exn) : M A := λ w, (Raise e, w).

(** [try: body except Exception as e: handler(e)] *)
Definition try_except {A} (body : M A) (handler : exn → M A) : M A :=
  λ w, match body w with
       | (Ok a, w') => (Ok a, w')
       | (Raise e, w') => handler e w'
       end.

(** [try: body except C.DoesNotExist: handler], other exceptions pass. *)
Definition try_except_DoesNotExist {A} (body : M A) (handler : M A) : M A :=
  λ w, match body w with
       | (Raise DoesNotExist, w') => handler w'
       | r => r
       end.

Definition get_world : M World := λ w, (Ok w, w).
Definition modify (f : World → World) : M unit := λ w, (Ok tt, f w).

#[global] Instance M_ret : MRet M := @ret.
#[global] Instance M_bind : MBind M := λ A B k m, bind m k.

(** [for x in l: body(x)] *)
Fixpoint for_each {A} (l : list A) (body : A → M unit) : M unit :=
  match l with
  | [] => ret tt
  | x :: l' => body x ;; for_each l' body
  end.

(** [with transaction.atomic(): body]: an exception that leaves the block
    rolls the tables back and goes on to the caller. *)
Definition atomic {A} (body : M A) : M A :=
  λ w, match body w with
       | (Ok a, w') => (Ok a, w')
       | (Raise e, w') =>
           (Raise e, set_django_sessions (django_sessions w)
                       (set_next_pk (next_pk w)
                         (set_trackers (session_trackers w) w')))
       end.

(** One round trip to the database. *)
Definition db : M unit :=
  λ w, match db_faults w with
       | [] => (Ok tt, w)
       | false :: fs => (Ok tt, set_db_faults fs w)
       | true :: fs => (Raise DatabaseError, set_db_faults fs w)
       end.

(** ** The ORM calls the engine makes

    A query set is its filter, a predicate on rows; it reaches the database
    when it is evaluated. Every evaluation and every write is one round trip
    [db]. Validators of single fields that do not read the store (lengths, the
    syntax of an IP address) are taken to pass: requests carry well-formed
    values. *)

Definition queryset := SessionTracker → bool.

Fixpoint insert_by {A} (before : A → A → bool) (x : A) (l : list A) : list A :=
  match l with
  | [] => [x]
  | y :: l' => if before x y then x :: l else y :: insert_by before x l'
  end.

(** A stable sort: elements that compare equal keep the order of [l]. *)
Definition sort_by {A} (before : A → A → bool) (l : list A) : list A :=
  foldr (insert_by before) [] l.

(** [Meta.ordering = ['-login_time']] *)
Definition newest_first (x y : SessionTracker) : bool :=
  login_time y <=? login_time x.

(** [order_by('login_time')] *)
Definition oldest_first (x y : SessionTracker) : bool :=
  login_time x <=? login_time y.

Definition before (o : ordering) : SessionTracker → SessionTracker → bool :=
  match o with
  | by_login_time => oldest_first
  | by_login_time_desc => newest_first
  end.

Definition by_rank (rank : SessionTracker → nat) (x y : SessionTracker) : bool :=
  (rank x <=? rank y)%nat.

(** The rows a query selects, [rows] in the order of the table, as the
    database of [w] lists them under the ordering [o]: sorted on the key of
    [o], tied rows as [db_ties] has them. *)
Definition order_by (o : ordering) (rows : list SessionTracker) (w : World)
    : list SessionTracker :=
  sort_by (before o) (sort_by (by_rank (db_ties w o rows)) rows).

(** Iterating over a query set: the rows in the order of [Meta.ordering]. *)
Definition qs_list (q : queryset) : M (list SessionTracker) :=
  db ;; w ← get_world;
  mret (order_by by_login_time_desc (List.filter q (session_trackers w)) w).

(** [q.exists()] *)
Definition qs_exists (q : queryset) : M bool :=
  db ;; w ← get_world; mret (existsb q (session_trackers w)).

(** [q.count()] *)
Definition qs_count (q : queryset) : M nat :=
  db ;; w ← get_world; mret (length (List.filter q (session_trackers w))).

(** [q.order_by('login_time').first()]: no second sort key is given, which
    of the rows with the smallest login time comes first is up to the
    database. *)
Definition qs_oldest (q : queryset) : M (option SessionTracker) :=
  db ;; w ← get_world;
  mret (head (order_by by_login_time (List.filter q (session_trackers w)) w)).

(** [SessionTracker.objects.get(...)] *)
Definition objects_get (q : queryset) : M SessionTracker :=
  db ;; w ← get_world;
  match List.filter q (session_trackers w) with
  | [] => raise DoesNotExist
  | [x] => mret x
  | _ => raise MultipleObjectsReturned
  end.

(** [SessionTracker.clean]: [true] when it raises [ValidationError]. *)
Definition clean_rejects (self : SessionTracker) : bool :=
  match logout_time self with
  | Some t => t <? login_time self
  | None => false
  end
  || match violation_details self with
     | Malformed => true
     | _ => false
     end.

(** [validate_unique] of [full_clean]: another row holds the session key. *)
Definition unique_rejects (self_pk : option nat) (key : string)
    (rows : list SessionTracker) : bool :=
  existsb (λ r, String.eqb (session_key r) key
                && match self_pk with
                   | Some p => negb (Nat.eqb (pk r) p)
                   | None => true
                   end) rows.

Definition full_clean (self_pk : option nat) (self : SessionTracker) : M unit :=
  w ← get_world;
  if clean_rejects self
     || unique_rejects self_pk (session_key self) (session_trackers w)
  then raise ValidationError else mret tt.

(** [self.save(update_fields=...)]: [SessionTracker.save] runs [full_clean],
    then the fields named are written to the row of the object; [write self
    row] is that row with those fields taken from [self]. *)
Definition save (self : SessionTracker)
    (write : SessionTracker → SessionTracker → SessionTracker) : M unit :=
  db ;; full_clean (Some (pk self)) self ;;
  w ← get_world;
  if existsb (λ r, Nat.eqb (pk r) (pk self)) (session_trackers w)
  then modify (set_trackers
                 (map (λ r, if Nat.eqb (pk r) (pk self) then write self r else r)
                      (session_trackers w)))
  else raise DatabaseError.

Definition write_last_activity (self row : SessionTracker) :=
  set_last_activity (last_activity self) row.
Definition write_logout_status (self row : SessionTracker) :=
  set_logout_status (logout_time self) (status self) row.
Definition write_violations (self row : SessionTracker) :=
  set_violations (violation_count self) (violation_details self) row.

(** [SessionTracker.objects.create(user=, device=, session_key=, ip_address=,
    user_agent=, status='active')]: [login_time] is [auto_now_add],
    [last_activity] defaults to [timezone.now]. *)
Definition objects_create (u d : nat) (key ip ua : string) (now : datetime)
    : M SessionTracker :=
  db ;; w ← get_world;
  let self :=
    {| pk := next_pk w; user := u; device := d; session_key := key;
       login_time := now; logout_time := None; last_activity := now;
       ip_address := ip; user_agent := ua; status := active;
       violation_count := 0; violation_details := Blank |} in
  full_clean None self ;;
  modify (λ w, set_next_pk (S (next_pk w))
                 (set_trackers (session_trackers w ++ [self]) w)) ;;
  mret self.

(** ** SessionTracker: properties and methods

    A method that assigns to [self] and then saves comes in two parts:
    [m_set] is the object after the assignments, [m] the save of that object.
    The assignments stay on the object when the save raises. *)

Definition is_active (self : SessionTracker) : bool :=
  status_eqb (status self) active && bool_decide (logout_time self = None).

Definition time_since_last_activity (self : SessionTracker) (now : datetime)
    : timedelta :=
  now - last_activity self.

Definition update_activity_set (self : SessionTracker) (now : datetime) :=
  set_last_activity now self.

Definition update_activity (self : SessionTracker) (now : datetime) : M unit :=
  save (update_activity_set self now) write_last_activity.

Definition status_of_reason (reason : string) : status_choice :=
  if String.eqb reason "violation" then violation
  else if String.eqb reason "timeout" then expired
  else inactive.

Definition end_session_set (self : SessionTracker) (reason : string)
    (now : datetime) :=
  set_logout_status (Some now) (status_of_reason reason) self.

Definition end_session (self : SessionTracker) (reason : string)
    (now : datetime) : M unit :=
  save (end_session_set self reason now) write_logout_status.

Definition add_violation_set (self : SessionTracker) (violation_type : string)
    (details : option (list (string * json_atom))) (now : datetime) :=
  let current_violations := loads_or [] (violation_details self) in
  let violation_record :=
    {| v_type := violation_type; v_timestamp := now;
       v_details := default [] details |} in
  set_violations (violation_count self + 1)%nat
    (Dumps (current_violations ++ [violation_record])%list) self.

Definition add_violation (self : SessionTracker) (violation_type : string)
    (details : option (list (string * json_atom))) (now : datetime) : M unit :=
  save (add_violation_set self violation_type details now) write_violations.

Definition get_violations (self : SessionTracker) : list violation_record :=
  loads_or [] (violation_details self).

Definition is_session_expired (self : SessionTracker) (timeout_minutes : Z)
    (now : datetime) : bool :=
  if negb (status_eqb (status self) active) then true
  else
    let inactive_duration := time_since_last_activity self now in
    total_seconds_gt inactive_duration (timeout_minutes * 60).

Definition get_active_sessions : queryset :=
  λ s, status_eqb (status s) active && bool_decide (logout_time s = None).

Definition get_user_active_sessions (u : nat) : queryset :=
  λ s, get_active_sessions s && Nat.eqb (user s) u.

(** The loop evaluates the query set; [expired_sessions.count()] after it is
    answered from the rows the query set holds by then, without a query. *)
Definition cleanup_expired_sessions (timeout_minutes : Z) (now : datetime)
    : M nat :=
  let cutoff_time := now - minutes timeout_minutes in
  let expired_sessions : queryset :=
    λ s, status_eqb (status s) active
         && (last_activity s <? cutoff_time)
         && bool_decide (logout_time s = None) in
  sessions ← qs_list expired_sessions;
  for_each sessions (λ session, end_session session "timeout" now) ;;
  mret (length sessions).

(** ** Settings, users, the transport session table and the cache *)

Record Settings := {
  MAX_CONCURRENT_SESSIONS : Z;
  CONCURRENT_SESSION_POLICY : string;
  SESSION_TIMEOUT_MINUTES : Z;
}.

(** The values the code falls back on when a setting is absent. *)
Definition default_settings : Settings :=
  {| MAX_CONCURRENT_SESSIONS := 1; CONCURRENT_SESSION_POLICY := "deny";
     SESSION_TIMEOUT_MINUTES := 30 |}.

Record User := {
  user_id : nat;
  is_authenticated : bool;
}.

(** [Session.objects.get(session_key=key)] *)
Definition Session_get (key : string) : M string :=
  db ;; w ← get_world;
  match django_sessions w !! key with
  | Some _ => mret key
  | None => raise DoesNotExist
  end.

(** [django_session.delete()] *)
Definition Session_delete (key : string) : M unit :=
  db ;; modify (λ w, set_django_sessions (delete key (django_sessions w)) w).

(** [cache.get(key)] at instant [now]. *)
Definition cache_get {V} (m : gmap nat (V * datetime)) (k : nat)
    (now : datetime) : option V :=
  match m !! k with
  | Some (v, expires) => if now <? expires then Some v else None
  | None => None
  end.

(** [cache.set(key, v, timeout=seconds)] at instant [now]. *)
Definition cache_set {V} (m : gmap nat (V * datetime)) (k : nat) (v : V)
    (seconds : Z) (now : datetime) : gmap nat (V * datetime) :=
  <[k := (v, now + seconds * second)]> m.

Definition set_session_count (m : gmap nat (nat * datetime)) (c : Cache) :=
  {| session_count := m; session_notification := session_notification c;
     user_activity := user_activity c; access_rules := access_rules c |}.

Definition set_session_notification (m : gmap nat (string * datetime))
    (c : Cache) :=
  {| session_count := session_count c; session_notification := m;
     user_activity := user_activity c; access_rules := access_rules c |}.

Definition set_user_activity (m : gmap nat (string * datetime)) (c : Cache) :=
  {| session_count := session_count c;
     session_notification := session_notification c; user_activity := m;
     access_rules := access_rules c |}.

Definition set_access_rules (m : gmap nat (AccessControl.t * datetime))
    (c : Cache) :=
  {| session_count := session_count c;
     session_notification := session_notification c;
     user_activity := user_activity c; access_rules := m |}.

(** ** SessionManager *)

Module SessionManager.

Definition CACHE_TIMEOUT : Z := 300.

Inductive cleanup_result :=
| Stats (expired_session_trackers django_sessions_cleaned
         orphaned_sessions_cleaned total_cleaned : nat)
| Error (e : exn).

Section WithSettings.
Context (settings : Settings).

Definition get_active_sessions_for_user (u : User) : queryset :=
  λ s, Nat.eqb (user s) (user_id u)
       && status_eqb (status s) active
       && bool_decide (logout_time s = None).

Definition get_session_count_for_user (u : User) (now : datetime) : M nat :=
  w ← get_world;
  match cache_get (session_count (cache w)) (user_id u) now with
  | Some count => mret count
  | None =>
      count ← qs_count (get_active_sessions_for_user u);
      modify (λ w, set_cache
                     (set_session_count
                        (cache_set (session_count (cache w)) (user_id u) count
                                   CACHE_TIMEOUT now) (cache w)) w) ;;
      mret count
  end.

(** [user] is [None] for a missing user object. *)
Definition can_create_new_session (u : option User) (now : datetime) : M bool :=
  match u with
  | None => mret false
  | Some u =>
      if negb (is_authenticated u) then mret false
      else
        active_sessions ← get_session_count_for_user u now;
        mret (Z.of_nat active_sessions <? MAX_CONCURRENT_SESSIONS settings)
  end.

Definition _clear_user_session_cache (u : User) : M unit :=
  modify (λ w,
    set_cache
      (set_session_notification
         (delete (user_id u) (session_notification (cache w)))
         (set_session_count (delete (user_id u) (session_count (cache w)))
                            (cache w))) w).

(** [cache.clear()]: every entry of the cache goes, those of the session
    manager and those of the other users of the cache alike. *)
Definition _clear_all_session_caches : M unit :=
  modify (set_cache empty_cache).

Definition end_oldest_session_for_user (u : User) (reason : string)
    (now : datetime) : M bool :=
  try_except
    (oldest_session ← qs_oldest (get_active_sessions_for_user u);
     match oldest_session with
     | Some oldest_session =>
         end_session oldest_session reason now ;;
         try_except_DoesNotExist
           (django_session ← Session_get (session_key oldest_session);
            Session_delete django_session)
           (mret tt) ;;
         _clear_user_session_cache u ;;
         mret true
     | None => mret false
     end)
    (λ _, mret false).

(** The body of the loop of [end_all_sessions_for_user] with its counter. *)
Fixpoint end_all_loop (sessions : list SessionTracker) (reason : string)
    (ended_count : nat) (now : datetime) : M nat :=
  match sessions with
  | [] => mret ended_count
  | session_tracker :: rest =>
      end_session session_tracker reason now ;;
      try_except_DoesNotExist
        (django_session ← Session_get (session_key session_tracker);
         Session_delete django_session)
        (mret tt) ;;
      end_all_loop rest reason (S ended_count) now
  end.

(** The sessions [end_all_sessions_for_user] is after: [exclude_session] is
    [None] or a session key, and an empty key excludes nothing. *)
Definition sessions_to_end (u : User) (exclude_session : option string)
    : queryset :=
  match exclude_session with
  | Some key =>
      if String.eqb key EmptyString then get_active_sessions_for_user u
      else λ s, get_active_sessions_for_user u s
                && negb (String.eqb (session_key s) key)
  | None => get_active_sessions_for_user u
  end.

Definition end_all_sessions_for_user (u : User) (reason : string)
    (exclude_session : option string) (now : datetime) : M nat :=
  try_except
    (let active_sessions := sessions_to_end u exclude_session in
     ended_count ←
       atomic (sessions ← qs_list active_sessions;
               end_all_loop sessions reason 0 now);
     _clear_user_session_cache u ;;
     mret ended_count)
    (λ _, mret 0%nat).

Definition handle_concurrent_session_attempt (u : User)
    (current_session_key : string) (now : datetime) : M (bool * string) :=
  ok ← can_create_new_session (Some u) now;
  if ok : bool then mret (true, "Session allowed")
  else
    let concurrent_policy := CONCURRENT_SESSION_POLICY settings in
    if String.eqb concurrent_policy "allow"
    then mret (true, "Multiple sessions allowed")
    else if String.eqb concurrent_policy "replace_oldest"
    then
      ended ← end_oldest_session_for_user u "new_session_limit" now;
      if ended : bool
      then mret (true, "Oldest session terminated, new session allowed")
      else mret (false, "Failed to terminate oldest session")
    else
      mret (false, "Multiple sessions not allowed. Please log out from other devices first.").

Definition _get_notification_message (notification_type : string) : string :=
  if String.eqb notification_type "concurrent_session_denied"
  then "Login attempt denied. You already have an active session on another device."
  else if String.eqb notification_type "session_terminated"
  then "Your session was terminated due to a new login from another device."
  else if String.eqb notification_type "session_timeout"
  then "Your session expired due to inactivity."
  else if String.eqb notification_type "admin_logout"
  then "Your session was terminated by an administrator."
  else "Session notification".

(** The notification is kept in the cache for an hour; of its fields the
    message is modelled. *)
Definition create_session_notification (u : User)
    (session_tracker : SessionTracker) (notification_type : string)
    (now : datetime) : M unit :=
  modify (λ w,
    set_cache
      (set_session_notification
         (cache_set (session_notification (cache w)) (user_id u)
                    (_get_notification_message notification_type) 3600 now)
         (cache w)) w).

(** The body of the loop of [cleanup_expired_sessions] with its two counters. *)
Fixpoint cleanup_loop (sessions : list SessionTracker)
    (expired_count django_sessions_cleaned : nat) (now : datetime)
    : M (nat * nat) :=
  match sessions with
  | [] => mret (expired_count, django_sessions_cleaned)
  | session_tracker :: rest =>
      end_session session_tracker "timeout" now ;;
      deleted ←
        try_except_DoesNotExist
          (django_session ← Session_get (session_key session_tracker);
           Session_delete django_session ;; mret 1%nat)
          (mret 0%nat);
      cleanup_loop rest (S expired_count)
                   (django_sessions_cleaned + deleted)%nat now
  end.

Definition cleanup_expired_sessions (timeout_minutes : option Z)
    (now : datetime) : M cleanup_result :=
  let timeout_minutes :=
    default (SESSION_TIMEOUT_MINUTES settings) timeout_minutes in
  let cutoff_time := now - minutes timeout_minutes in
  try_except
    (let expired_sessions : queryset :=
       λ s, status_eqb (status s) active && (last_activity s <? cutoff_time) in
     '(expired_count, django_sessions_cleaned) ←
       atomic (sessions ← qs_list expired_sessions;
               cleanup_loop sessions 0 0 now);
     db ;;
     w ← get_world;
     let orphaned_count :=
       size (filter (λ kv, kv.2 < now) (django_sessions w)) in
     db ;;
     modify (λ w, set_django_sessions
                    (filter (λ kv, ¬ kv.2 < now) (django_sessions w)) w) ;;
     _clear_all_session_caches ;;
     mret (Stats expired_count django_sessions_cleaned orphaned_count
                 (expired_count + orphaned_count)))
    (λ e, mret (Error e)).

End WithSettings.
End SessionManager.

(** ** SessionSecurityMonitor *)

Module SessionSecurityMonitor.

(** [filter(...).values_list('ip_address', flat=True).distinct()], evaluated
    by [len]: the model has [Meta.ordering = ['-login_time']], a column the
    ordering names is selected along with the columns of [values_list], and
    [DISTINCT] is on the rows selected. An address comes back once for every
    login time it occurs with. *)
Definition distinct_ip_address (rows : list SessionTracker) : list string :=
  map fst (remove_dups (map (λ r, (ip_address r, login_time r)) rows)).

Definition _has_rapid_login_attempts (u : nat) (now : datetime) : M bool :=
  try_except
    (let ten_minutes_ago := now - minutes 10 in
     recent_sessions ←
       qs_count (λ s, Nat.eqb (user s) u
                      && (ten_minutes_ago <=? login_time s));
     mret (5 <? recent_sessions)%nat)
    (λ _, mret false).

Definition _has_unusual_ip_pattern (session_tracker : SessionTracker)
    (now : datetime) : M bool :=
  try_except
    (rows ← qs_list (λ s, Nat.eqb (user s) (user session_tracker)
                          && (now - 24 * hour <=? login_time s));
     let recent_ips := distinct_ip_address rows in
     mret (3 <? length recent_ips)%nat)
    (λ _, mret false).

Definition _has_unusual_session_duration (session_tracker : SessionTracker)
    (now : datetime) : bool :=
  if status_eqb (status session_tracker) active
  then
    let duration := now - login_time session_tracker in
    total_seconds_gt duration (12 * 3600)
  else false.

Definition detect_suspicious_activity (session_tracker : SessionTracker)
    (now : datetime) : M (list string) :=
  rapid ← _has_rapid_login_attempts (user session_tracker) now;
  ip ← _has_unusual_ip_pattern session_tracker now;
  mret ((if rapid : bool then ["rapid_login_attempts"] else [])
        ++ (if ip : bool then ["unusual_ip_pattern"] else [])
        ++ (if _has_unusual_session_duration session_tracker now
            then ["unusual_session_duration"] else [])
        ++ (if (5 <? violation_count session_tracker)%nat
            then ["excessive_violations"] else []))%list.

End SessionSecurityMonitor.

(** ** SessionValidationMiddleware *)

Module SessionValidationMiddleware.

(** What [process_request] reads of the request. [device] is what
    [_get_user_device] answers, [None] when no device could be resolved: the
    device table is outside the model. *)
Record Request := {
  path : string;
  request_user : User;
  request_session_key : string;
  request_device : option nat;
  client_ip : string;
  http_user_agent : string;
  is_ajax : bool;
}.

Inductive Response :=
| JsonResponse (status : nat) (error : string)
| redirect_login.

Definition EXEMPT_URLS : list string :=
  ["/auth/login/"; "/auth/logout/"; "/auth/signup/"; "/admin/"; "/static/";
   "/media/"].

Section WithSettings.
Context (settings : Settings).

Definition SESSION_TIMEOUT : Z := SESSION_TIMEOUT_MINUTES settings.

Definition _is_exempt_url (p : string) : bool :=
  existsb (λ exempt, String.prefix exempt p) EXEMPT_URLS.

Definition _create_new_session_tracker (request : Request) (now : datetime)
    : M (option SessionTracker) :=
  try_except
    (match request_device request with
     | None => mret None
     | Some device =>
         session_tracker ←
           objects_create (user_id (request_user request)) device
             (request_session_key request) (client_ip request)
             (String.substring 0 500 (http_user_agent request)) now;
         mret (Some session_tracker)
     end)
    (λ _, mret None).

Definition _get_or_create_session_tracker (request : Request) (now : datetime)
    : M (option SessionTracker) :=
  try_except
    (try_except_DoesNotExist
       (session_tracker ←
          objects_get (λ s, String.eqb (session_key s)
                                       (request_session_key request)
                            && status_eqb (status s) active);
        mret (Some session_tracker))
       (_create_new_session_tracker request now))
    (λ _, mret None).

Definition _is_session_expired (session_tracker : SessionTracker)
    (now : datetime) : bool :=
  let inactive_duration := now - last_activity session_tracker in
  total_seconds_gt inactive_duration (SESSION_TIMEOUT * 60).

Definition _has_concurrent_sessions (u : User) (current_session_key : string)
    : M bool :=
  try_except
    (let active_sessions : queryset :=
       λ s, SessionManager.get_active_sessions_for_user u s
            && negb (String.eqb (session_key s) current_session_key) in
     qs_exists active_sessions)
    (λ _, mret false).

(** [logout(request)]: the transport session of the request is flushed. *)
Definition logout (request : Request) : M unit :=
  Session_delete (request_session_key request).

Definition _handle_session_timeout (request : Request)
    (session_tracker : SessionTracker) (now : datetime) : M (option Response) :=
  try_except
    (end_session session_tracker "timeout" now ;;
     logout request ;;
     if is_ajax request
     then mret (Some (JsonResponse 401 "Session expired"))
     else mret (Some redirect_login))
    (λ _, mret None).

Definition _handle_concurrent_session (request : Request)
    (session_tracker : SessionTracker) (now : datetime) : M (option Response) :=
  try_except
    ('(allowed, message) ←
       SessionManager.handle_concurrent_session_attempt settings
         (request_user request) (request_session_key request) now;
     if allowed : bool then mret None
     else
       add_violation session_tracker "concurrent_session"
         (Some [("message", JStr message)]) now ;;
       let session_tracker :=
         add_violation_set session_tracker "concurrent_session"
           (Some [("message", JStr message)]) now in
       SessionManager.create_session_notification (request_user request)
         session_tracker "concurrent_session_denied" now ;;
       end_session session_tracker "violation" now ;;
       logout request ;;
       if is_ajax request
       then mret (Some (JsonResponse 403 message))
       else mret (Some redirect_login))
    (λ _, mret None).

Definition _update_activity_tracking (request : Request)
    (session_tracker : SessionTracker) (now : datetime) : M unit :=
  try_except
    (update_activity session_tracker now ;;
     modify (λ w,
       set_cache
         (set_user_activity
            (cache_set (user_activity (cache w))
                       (user_id (request_user request)) (path request) 300 now)
            (cache w)) w))
    (λ _, mret tt).

(** [for activity in suspicious_activities: session_tracker.add_violation(...)]
    on the one object. *)
Fixpoint add_violations (session_tracker : SessionTracker)
    (activities : list string) (details : list (string * json_atom))
    (now : datetime) : M unit :=
  match activities with
  | [] => mret tt
  | activity :: rest =>
      add_violation session_tracker activity (Some details) now ;;
      add_violations
        (add_violation_set session_tracker activity (Some details) now)
        rest details now
  end.

Definition _monitor_suspicious_activity (request : Request)
    (session_tracker : SessionTracker) (now : datetime) : M unit :=
  try_except
    (suspicious_activities ←
       SessionSecurityMonitor.detect_suspicious_activity session_tracker now;
     add_violations session_tracker suspicious_activities
       [("detected_at", JTime now); ("path", JStr (path request));
        ("user_agent",
         JStr (String.substring 0 200 (http_user_agent request)))] now)
    (λ _, mret tt).

Definition process_request (request : Request) (now : datetime)
    : M (option Response) :=
  if _is_exempt_url (path request) then mret None
  else if negb (is_authenticated (request_user request)) then mret None
  else
    session_tracker ← _get_or_create_session_tracker request now;
    match session_tracker with
    | None => mret None
    | Some session_tracker =>
        if _is_session_expired session_tracker now
        then _handle_session_timeout request session_tracker now
        else
          concurrent ←
            _has_concurrent_sessions (request_user request)
                                     (request_session_key request);
          if concurrent : bool
          then _handle_concurrent_session request session_tracker now
          else
            _update_activity_tracking request session_tracker now ;;
            _monitor_suspicious_activity request
              (update_activity_set session_tracker now) now ;;
            mret None
    end.

End WithSettings.
End SessionValidationMiddleware.

(** * Properties *)

(** ** Sample data *)

(** The rule of the access-control tests: 09:00 to 17:00, Monday to Friday. *)
Definition office_hours : AccessControl.t :=
  {| AccessControl.role := AccessControl.student;
     AccessControl.allowed_domains := Dumps [];
     AccessControl.blocked_domains := Dumps [];
     AccessControl.time_restrictions :=
       Dumps {| AccessControl.days :=
                  Some ["monday"; "tuesday"; "wednesday"; "thursday"; "friday"];
                AccessControl.start_time := Some "09:00";
                AccessControl.end_time := Some "17:00" |};
     AccessControl.is_active := true |}.

(** Saturday 1970-01-03 10:00 and Tuesday 1970-01-06 12:00. *)
Definition saturday_10_00 : datetime := 2 * day + 10 * hour.
Definition tuesday_12_00 : datetime := 5 * day + 12 * hour.

Definition domain_rule (allowed blocked : list string) : AccessControl.t :=
  {| AccessControl.role := AccessControl.student;
     AccessControl.allowed_domains := Dumps allowed;
     AccessControl.blocked_domains := Dumps blocked;
     AccessControl.time_restrictions := Blank;
     AccessControl.is_active := true |}.

(** A row as [objects.create] makes it at [now]. *)
Definition fresh_tracker (p u : nat) (key : string) (now : datetime)
    : SessionTracker :=
  {| pk := p; user := u; device := 1%nat; session_key := key;
     login_time := now; logout_time := None; last_activity := now;
     ip_address := "127.0.0.1"; user_agent := EmptyString; status := active;
     violation_count := 0; violation_details := Blank |}.

(** An active row whose last activity lies [idle] before [now]. *)
Definition idle_tracker (p u : nat) (key : string) (now : datetime)
    (idle : timedelta) : SessionTracker :=
  set_last_activity (now - idle) (fresh_tracker p u key (now - idle)).

(** The world after one round trip to the database. *)
Definition tick (w : World) : World := (db w).2.

(** The three invariants of a session record. *)
Definition logout_iff_not_active (r : SessionTracker) : Prop :=
  logout_time r = None ↔ status r = active.

Definition logout_after_login (r : SessionTracker) : Prop :=
  ∀ t, logout_time r = Some t → login_time r ≤ t.

Definition count_is_log_length (r : SessionTracker) : Prop :=
  violation_count r = length (get_violations r).

Definition tracker_invariant (r : SessionTracker) : Prop :=
  logout_iff_not_active r ∧ logout_after_login r ∧ count_is_log_length r.

(** The core operations on one session object, each at the instant at which
    it reads the clock. *)
Inductive operation :=
| EndSession (reason : string) (now : datetime)
| AddViolation (violation_type : string)
    (details : option (list (string * json_atom))) (now : datetime)
| UpdateActivity (now : datetime).

Definition operation_time (o : operation) : datetime :=
  match o with
  | EndSession _ now => now
  | AddViolation _ _ now => now
  | UpdateActivity now => now
  end.

(** The object after the operation, and the operation on the world. *)
Definition apply_set (self : SessionTracker) (o : operation) : SessionTracker :=
  match o with
  | EndSession reason now => end_session_set self reason now
  | AddViolation ty details now => add_violation_set self ty details now
  | UpdateActivity now => update_activity_set self now
  end.

Definition apply_run (self : SessionTracker) (o : operation) : M unit :=
  match o with
  | EndSession reason now => end_session self reason now
  | AddViolation ty details now => add_violation self ty details now
  | UpdateActivity now => update_activity self now
  end.

(** A sequence of operations on the one object; an operation that raises
    leaves its assignments on the object and the caller goes on. *)
Fixpoint run_operations (self : SessionTracker) (w : World)
    (os : list operation) : SessionTracker * World :=
  match os with
  | [] => (self, w)
  | o :: os' =>
      run_operations (apply_set self o) ((apply_run self o w).2) os'
  end.

(** A record as it is right after its creation. *)
Definition freshly_created (self : SessionTracker) : Prop :=
  status self = active ∧ logout_time self = None
  ∧ violation_count self = 0%nat ∧ violation_details self = Blank.

(** The rows of a table that store the object [self]. *)
Definition row_of (self : SessionTracker) (w : World) (r : SessionTracker)
    : Prop :=
  r ∈ session_trackers w ∧ pk r = pk self.

(** The row update a save performs. *)
Definition updated (self : SessionTracker)
    (write : SessionTracker → SessionTracker → SessionTracker)
    (rows : list SessionTracker) : list SessionTracker :=
  map (λ r, if Nat.eqb (pk r) (pk self) then write self r else r) rows.

(** What links the object in memory to the record [self0] it was created
    as, and what the rows that store [self0] satisfy. *)
Definition object_ok (self0 self : SessionTracker) : Prop :=
  pk self = pk self0 ∧ login_time self = login_time self0
  ∧ logout_iff_not_active self ∧ count_is_log_length self.

Definition rows_ok (self0 : SessionTracker) (w : World) : Prop :=
  ∀ r, row_of self0 w r → tracker_invariant r ∧ login_time r = login_time self0.

(** A world whose table holds [rows], with a database that always answers. *)
Definition world_of (rows : list SessionTracker) : World :=
  set_next_pk (S (length rows)) (set_trackers rows empty_world).

(** A session created at instant 0 and ended by a logout at instant 100. *)
Definition logged_out_tracker : SessionTracker :=
  set_logout_status (Some 100) inactive (fresh_tracker 1 7 "k" 0).

(** A run of the three operations on a fresh record; the last one reads a
    clock that is behind the login time. *)
Definition sample_operations : list operation :=
  [AddViolation "suspicious_response" None 150; UpdateActivity 160;
   EndSession "logout" 200; EndSession "timeout" 50].

(** The same run without its last operation: every clock reading is after
    the login at instant 100. *)
Definition sample_operations_in_order : list operation :=
  [AddViolation "suspicious_response" None 150; UpdateActivity 160;
   EndSession "logout" 200].

(** ** The cleanup sweep, as a function on rows *)

(** The sessions the sweep is after: active, last activity before the cutoff. *)
Definition due (timeout_minutes : Z) (now : datetime) : queryset :=
  λ s, status_eqb (status s) active
       && (last_activity s <? now - minutes timeout_minutes).

Definition expire (now : datetime) (r : SessionTracker) : SessionTracker :=
  set_logout_status (Some now) expired r.

Definition sweep_row (timeout_minutes : Z) (now : datetime)
    (r : SessionTracker) : SessionTracker :=
  if due timeout_minutes now r then expire now r else r.

Definition swept (timeout_minutes : Z) (now : datetime)
    (rows : list SessionTracker) : list SessionTracker :=
  map (sweep_row timeout_minutes now) rows.

(** The rows whose primary key is among [pks], expired. *)
Definition expire_rows (now : datetime) (pks : list nat)
    (rows : list SessionTracker) : list SessionTracker :=
  map (λ r, if existsb (Nat.eqb (pk r)) pks then expire now r else r) rows.

(** A table as the engine keeps it, seen at instant [now]: primary keys and
    session keys identify rows, and an active session has no logout time, a
    log that parses and a login time that is not ahead of the clock. *)
Definition table_ok (now : datetime) (rows : list SessionTracker) : Prop :=
  (∀ r1 r2, r1 ∈ rows → r2 ∈ rows →
            pk r1 = pk r2 ∨ session_key r1 = session_key r2 → r1 = r2)
  ∧ (∀ r, r ∈ rows → status r = active →
          logout_time r = None ∧ login_time r ≤ now
          ∧ violation_details r ≠ Malformed).

(** What a save of [s] at the end of a session needs to go through. *)
Definition endable (now : datetime) (rows : list SessionTracker)
    (s : SessionTracker) : Prop :=
  login_time s ≤ now ∧ violation_details s ≠ Malformed
  ∧ unique_rejects (Some (pk s)) (session_key s) rows = false
  ∧ existsb (λ r, Nat.eqb (pk r) (pk s)) rows = true.

(** Two sessions of one user, 45 and 5 minutes idle at instant [minutes 60]. *)
Definition idle_45 : SessionTracker :=
  idle_tracker 1 7 "expired_session" (minutes 60) (minutes 45).
Definition idle_5 : SessionTracker :=
  idle_tracker 2 7 "active_session" (minutes 60) (minutes 5).

(** ** Sample requests *)

Definition alice : User := {| user_id := 7; is_authenticated := true |}.

Definition request_of (u : User) (key : string)
    : SessionValidationMiddleware.Request :=
  {| SessionValidationMiddleware.path := "/dashboard/";
     SessionValidationMiddleware.request_user := u;
     SessionValidationMiddleware.request_session_key := key;
     SessionValidationMiddleware.request_device := Some 1%nat;
     SessionValidationMiddleware.client_ip := "127.0.0.1";
     SessionValidationMiddleware.http_user_agent := EmptyString;
     SessionValidationMiddleware.is_ajax := false |}.

(** Two active sessions of one user, as the concurrency test of the
    middleware sets them up. *)
Definition two_sessions : list SessionTracker :=
  [fresh_tracker 1 7 "existing_session" 0; fresh_tracker 2 7 "new_session" 0].

(** The number of sessions of [u] that are active with no logout time. *)
Definition active_count (u : User) (w : World) : nat :=
  length (List.filter (SessionManager.get_active_sessions_for_user u)
            (session_trackers w)).

(** An action that always returns. *)
Definition never_raises {A} (m : M A) : Prop :=
  ∀ w, ∃ a w', m w = (Ok a, w').

Definition replace_oldest_settings : Settings :=
  {| MAX_CONCURRENT_SESSIONS := 1;
     CONCURRENT_SESSION_POLICY := "replace_oldest";
     SESSION_TIMEOUT_MINUTES := 30 |}.

(** Two active sessions of one user with the same login time; the one with
    the lower session key is the second row. *)
Definition tied_sessions : list SessionTracker :=
  [fresh_tracker 1 7 "session_b" 0; fresh_tracker 2 7 "session_a" 0].

(** A database that lists tied rows by descending primary key, for tables
    with primary keys up to 100. *)
Definition last_row_first : ordering → list SessionTracker → SessionTracker → nat :=
  λ _ _ r, (100 - pk r)%nat.

(** Sessions A and B of the specification's example: A logged in first. *)
Definition sessions_A_B : list SessionTracker :=
  [fresh_tracker 1 7 "B" 20; fresh_tracker 2 7 "A" 10].

(** A world with the transport sessions of its trackers. *)
Definition with_transport_sessions (w : World) : World :=
  set_django_sessions
    (list_to_map (map (λ r, (session_key r, 1000000)) (session_trackers w))) w.

(** ** The deny policy: what a step may do to the table *)

(** A row may change, keeping its keys and its user, but not become active. *)
Definition dims (r r' : SessionTracker) : Prop :=
  pk r' = pk r ∧ session_key r' = session_key r ∧ user r' = user r
  ∧ (get_active_sessions r' = true → get_active_sessions r = true).

(** From [w] to [w']: the database still answers, no row was added, removed
    or activated, and the cached session counts are the same. *)
Definition calm (w w' : World) : Prop :=
  db_faults w' = []
  ∧ Forall2 dims (session_trackers w) (session_trackers w')
  ∧ session_count (cache w') = session_count (cache w).

Definition calms {A} (m : M A) : Prop :=
  ∀ w, db_faults w = [] → calm w (m w).2.

(** A cached session count of [u], when there is one, is at least one. *)
Definition cache_ok (u : User) (w : World) : Prop :=
  ∀ c e, session_count (cache w) !! user_id u = Some (c, e) → (1 ≤ c)%nat.

(** Every row under primary key [p] is ended. *)
Definition ended_pk (p : nat) (rows : list SessionTracker) : Prop :=
  ∀ r, r ∈ rows → pk r = p → get_active_sessions r = false.

(** The invariant of the deny policy for user [u]. *)
Definition single_session (u : User) (w : World) : Prop :=
  db_faults w = [] ∧ (active_count u w ≤ 1)%nat ∧ cache_ok u w.

(** The worlds after each request of a sequence. *)
Fixpoint trace (settings : Settings)
    (requests : list (SessionValidationMiddleware.Request * datetime))
    (w : World) : list World :=
  match requests with
  | [] => []
  | (request, now) :: rest =>
      let w' :=
        (SessionValidationMiddleware.process_request settings request now w).2
      in w' :: trace settings rest w'
  end.

(** Three login attempts of one user from three clients, the third one twice,
    and a later request of the first client. *)
Definition sample_requests
    : list (SessionValidationMiddleware.Request * datetime) :=
  [(request_of alice "client_1", 0); (request_of alice "client_2", 10);
   (request_of alice "client_3", 20); (request_of alice "client_3", 30);
   (request_of alice "client_1", 40)].

(** The object [objects.create] builds under primary key [p]. *)
Definition created_tracker (p u d : nat) (key ip ua : string) (now : datetime)
    : SessionTracker :=
  {| pk := p; user := u; device := d; session_key := key;
     login_time := now; logout_time := None; last_activity := now;
     ip_address := ip; user_agent := ua; status := active;
     violation_count := 0; violation_details := Blank |}.

(** The query of [_has_concurrent_sessions]. *)
Definition other_active_sessions (u : User) (key : string) : queryset :=
  λ s, SessionManager.get_active_sessions_for_user u s
       && negb (String.eqb (session_key s) key).

(** ** Further sample data *)

(** A rule meant for a night shift, 22:00 to 06:00, on every day. *)
Definition night_hours : AccessControl.t :=
  {| AccessControl.role := AccessControl.teacher;
     AccessControl.allowed_domains := Dumps [];
     AccessControl.blocked_domains := Dumps [];
     AccessControl.time_restrictions :=
       Dumps {| AccessControl.days := None;
                AccessControl.start_time := Some "22:00";
                AccessControl.end_time := Some "06:00" |};
     AccessControl.is_active := true |}.

(** ** Steps that leave the tables alone *)

(** From [w] to [w'] no table and no cache entry has changed; round trips to
    the database may have been made. *)
Definition same_tables (w w' : World) : Prop :=
  session_trackers w' = session_trackers w ∧ next_pk w' = next_pk w
  ∧ django_sessions w' = django_sessions w ∧ cache w' = cache w.

(** ** The middleware on a session in good standing *)

(** What the anomaly scan reports for tracker [t] on the table [rows] when
    the database answers. *)
Definition suspicious_activities (rows : list SessionTracker)
    (t : SessionTracker) (now : datetime) : list string :=
  match (SessionSecurityMonitor.detect_suspicious_activity t now
           (world_of rows)).1 with
  | Ok tags => tags
  | Raise _ => []
  end.

(** The details the middleware records with an anomaly. *)
Definition anomaly_details (request : SessionValidationMiddleware.Request)
    (now : datetime) : list (string * json_atom) :=
  [("detected_at", JTime now);
   ("path", JStr (SessionValidationMiddleware.path request));
   ("user_agent",
    JStr (String.substring 0 200
            (SessionValidationMiddleware.http_user_agent request)))].

(** The tracker after a request at [now] on which the anomalies [tags] were
    found: its activity is refreshed and one violation is logged per anomaly. *)
Definition monitored (request : SessionValidationMiddleware.Request)
    (x : SessionTracker) (tags : list string) (now : datetime)
    : SessionTracker :=
  foldl (λ s tag,
           add_violation_set s tag (Some (anomaly_details request now)) now)
        (update_activity_set x now) tags.

(** The cache after the path of the request was noted for its user. *)
Definition note_activity (request : SessionValidationMiddleware.Request)
    (now : datetime) (w : World) : World :=
  set_cache
    (set_user_activity
       (cache_set (user_activity (cache w))
          (user_id (SessionValidationMiddleware.request_user request))
          (SessionValidationMiddleware.path request) 300 now)
       (cache w)) w.

(** A session of alice that has been open for 13 hours and was last used a
    minute ago, beside a session of another user. *)
Definition long_session : list SessionTracker :=
  [set_last_activity (13 * hour - minute) (fresh_tracker 1 7 "long_session" 0);
   fresh_tracker 2 8 "other_session" 0].

(** ** The cached session count *)

(** A limit of three sessions per user, further sessions denied. *)
Definition limit_3_settings : Settings :=
  {| MAX_CONCURRENT_SESSIONS := 3; CONCURRENT_SESSION_POLICY := "deny";
     SESSION_TIMEOUT_MINUTES := 30 |}.


(** ** The deny path, row by row *)




(** ** The management command [cleanup_sessions]

    [handle] prints the statistics of the sweep or raises [CommandError]; the
    outcome below is the numbers it has to print. In a dry run the dictionary
    of statistics has no entry for the transport sessions cleaned, and 0 is
    printed for it. *)

Module Command.

Inductive outcome :=
| Reported (expired_session_trackers django_sessions_cleaned
            orphaned_sessions_cleaned total_cleaned : nat)
| CommandError.

Definition handle (settings : Settings) (timeout_minutes : Z) (dry_run : bool)
    (now : datetime) : M outcome :=
  try_except
    (stats ←
       (if dry_run
        then
          let cutoff_time := now - minutes timeout_minutes in
          expired_trackers ←
            qs_count (λ s, status_eqb (status s) active
                           && (last_activity s <? cutoff_time));
          db ;;
          w ← get_world;
          let orphaned_sessions :=
            size (filter (λ kv, kv.2 < now) (django_sessions w)) in
          mret (SessionManager.Stats expired_trackers 0 orphaned_sessions
                  (expired_trackers + orphaned_sessions))
        else
          SessionManager.cleanup_expired_sessions settings
            (Some timeout_minutes) now);
     match stats with
     | SessionManager.Error _ => mret CommandError
     | SessionManager.Stats e d o t => mret (Reported e d o t)
     end)
    (λ _, mret CommandError).

End Command.


(** The transport sessions left when those of [keys] are deleted in turn. *)
Definition drop_sessions (keys : list string) (m : gmap string datetime)
    : gmap string datetime :=
  foldl (λ m k, delete k m) m keys.


(** The two sessions of the sweep example; the transport session of the idle
    one ran out at minute 50, the other one lasts for two weeks. *)
Definition stale_transport_session : World :=
  set_django_sessions
    (list_to_map [("expired_session", minutes 50); ("active_session", 14 * day)])
    (world_of [idle_45; idle_5]).

(** ** Ending the sessions of a query set *)

(** A row ended for [reason] at [now]. *)
Definition end_row (reason : string) (now : datetime) (r : SessionTracker)
    : SessionTracker :=
  set_logout_status (Some now) (status_of_reason reason) r.

(** The rows of the query set [q] ended, the others as they were. *)
Definition end_rows (reason : string) (now : datetime) (q : queryset)
    (rows : list SessionTracker) : list SessionTracker :=
  map (λ r, if q r then end_row reason now r else r) rows.

(** The rows whose primary key is among [pks], ended. *)
Definition end_pks (reason : string) (now : datetime) (pks : list nat)
    (rows : list SessionTracker) : list SessionTracker :=
  map (λ r, if existsb (Nat.eqb (pk r)) pks then end_row reason now r else r)
      rows.

(** ** Ending the sessions of a user outside the session manager *)

(** [Session.objects.filter(session_key=key).delete()] inside a [try] whose
    handler passes: a failure of the store is dropped. *)
Definition delete_transport_session_quietly (key : string) : M unit :=
  try_except (Session_delete key) (λ _, mret tt).

(** [security/utils.py] *)
Module utils.

Definition get_user_active_sessions (u : User) : queryset :=
  λ s, Nat.eqb (user s) (user_id u)
       && status_eqb (status s) active
       && bool_decide (logout_time s = None).

(** The loop of [terminate_user_sessions] with its counter. *)
Fixpoint terminate_loop (sessions : list SessionTracker) (count : nat)
    (now : datetime) : M nat :=
  match sessions with
  | [] => mret count
  | session :: rest =>
      end_session session "admin_action" now ;;
      delete_transport_session_quietly (session_key session) ;;
      terminate_loop rest (S count) now
  end.

(** The sessions [terminate_user_sessions] is after: [exclude_session_key] is
    [None] or a session key, and an empty key excludes nothing. *)
Definition sessions_to_terminate (u : User)
    (exclude_session_key : option string) : queryset :=
  match exclude_session_key with
  | Some key =>
      if String.eqb key EmptyString then get_user_active_sessions u
      else λ s, get_user_active_sessions u s
                && negb (String.eqb (session_key s) key)
  | None => get_user_active_sessions u
  end.

Definition terminate_user_sessions (u : User)
    (exclude_session_key : option string) (now : datetime) : M nat :=
  try_except
    (let sessions := sessions_to_terminate u exclude_session_key in
     sessions ← qs_list sessions;
     terminate_loop sessions 0 now)
    (λ _, mret 0%nat).

(** [validate_session_security(request)], on what it reads of the request:
    the key of the transport session ([None] before the session is saved),
    whether the user is authenticated, and [request.session_tracker] when the
    attribute is set. The result is the pair of [valid] and [issues]. *)
Definition validate_session_security (session_key : option string)
    (is_authenticated : bool) (session_tracker : option SessionTracker)
    (now : datetime) : bool * list string :=
  let results := (true, []) in
  let results :=
    if match session_key with
       | Some key => String.eqb key EmptyString
       | None => true
       end
    then (false, (results.2 ++ ["No session key"])%list) else results in
  let results :=
    if negb is_authenticated
    then (false, (results.2 ++ ["User not authenticated"])%list)
    else results in
  let results :=
    match session_tracker with
    | Some session_tracker =>
        let session_age := now - login_time session_tracker in
        if total_seconds_gt session_age (8 * 60 * 60)
        then (results.1, (results.2 ++ ["Session too old"])%list)
        else results
    | None => results
    end in
  let results :=
    match session_tracker with
    | Some session_tracker =>
        if (5 <? violation_count session_tracker)%nat
        then (false, (results.2 ++ ["Too many violations"])%list)
        else results
    | None => results
    end in
  results.

End utils.

(** [users/views.py]: what [form_valid] does before it hands over to the
    login of the framework. An exception of the loop leaves the view. *)
Module CustomLoginView.

Definition form_valid (u : User) (now : datetime) : M unit :=
  let active_sessions : queryset :=
    λ s, Nat.eqb (user s) (user_id u)
         && status_eqb (status s) active
         && bool_decide (logout_time s = None) in
  sessions ← qs_list active_sessions;
  for_each sessions (λ session_tracker,
    end_session session_tracker "new_login" now ;;
    delete_transport_session_quietly (session_key session_tracker)).

End CustomLoginView.

(** ** AccessControlMiddleware

    The middleware reads the table of access rules and keeps the rule of a
    role in the cache under the key [access_rules_<role>]; the table [rules]
    is an argument and the cached rules are the entries [access_rules] of the
    cache of the world. The role of a user is that of their profile, taken
    among the roles of the rules; it is [None] for a user without a profile. *)

Module AccessControlMiddleware.

Record Request := {
  path : string;
  user_is_authenticated : bool;
  profile_role : option AccessControl.role_choice;
  session_tracker : option SessionTracker;  (* [request.session_tracker] *)
  method : string;
  client_ip : string;
  http_user_agent : string;
  is_ajax : bool;
}.

Inductive Response :=
| JsonResponse (status : nat) (error : string)
| HttpResponseForbidden (content : string).

Definition EXEMPT_URLS : list string :=
  ["/auth/"; "/admin/"; "/static/"; "/media/"; "/dashboard/"; "/devices/";
   "/productivity/"; "/security/"; "/health/"; "/ready/"; "/alive/";
   "/stats/"].

Definition CACHE_TIMEOUT : Z := 300.

(** The values of [ROLE_CHOICES]. *)
Definition role_name (r : AccessControl.role_choice) : string :=
  match r with
  | AccessControl.teacher => "teacher"
  | AccessControl.student => "student"
  | AccessControl.admin => "admin"
  end.

(** The cache entries [access_rules_<role>], one per role. *)
Definition cache_key (r : AccessControl.role_choice) : nat :=
  match r with
  | AccessControl.teacher => 0
  | AccessControl.student => 1
  | AccessControl.admin => 2
  end.

Definition role_eqb (a b : AccessControl.role_choice) : bool :=
  Nat.eqb (cache_key a) (cache_key b).

Definition _is_exempt_url (p : string) : bool :=
  existsb (λ exempt, String.prefix exempt p) EXEMPT_URLS.

(** [cache.set(cache_key, access_rules, timeout=self.CACHE_TIMEOUT)] *)
Definition cache_rule (user_role : AccessControl.role_choice)
    (rule : AccessControl.t) (now : datetime) : M unit :=
  modify (λ w,
    set_cache
      (set_access_rules
         (cache_set (access_rules (cache w)) (cache_key user_role) rule
            CACHE_TIMEOUT now)
         (cache w)) w).

Section WithRules.
Context (rules : list AccessControl.t).

(** [AccessControl.objects.get(role=user_role, is_active=True)] *)
Definition objects_get (user_role : AccessControl.role_choice)
    : M AccessControl.t :=
  db ;;
  match List.filter (λ r, role_eqb (AccessControl.role r) user_role
                          && AccessControl.is_active r) rules with
  | [] => raise DoesNotExist
  | [x] => mret x
  | _ => raise MultipleObjectsReturned
  end.

Definition _get_user_access_rules (request : Request) (now : datetime)
    : M (option AccessControl.t) :=
  try_except
    (match profile_role request with
     | None => mret None
     | Some user_role =>
         w ← get_world;
         match cache_get (access_rules (cache w)) (cache_key user_role) now with
         | Some access_rules => mret (Some access_rules)
         | None =>
             try_except_DoesNotExist
               (access_rules ← objects_get user_role;
                cache_rule user_role access_rules now ;;
                mret (Some access_rules))
               (mret None)
         end
     end)
    (λ _, mret None).

End WithRules.

Definition _is_time_allowed (access_rules : AccessControl.t) (now : datetime)
    : bool :=
  AccessControl.is_time_allowed access_rules now.

(** The body only returns [True]. *)
Definition _is_resource_allowed (request : Request)
    (access_rules : AccessControl.t) : bool :=
  true.

Definition _log_access_violation (request : Request) (violation_type : string)
    (details : string) (now : datetime) : M unit :=
  try_except
    (match session_tracker request with
     | Some session_tracker =>
         add_violation session_tracker violation_type
           (Some [("details", JStr details); ("path", JStr (path request));
                  ("method", JStr (method request));
                  ("ip_address", JStr (client_ip request));
                  ("user_agent",
                   JStr (String.substring 0 200 (http_user_agent request)))])
           now
     | None => mret tt
     end)
    (λ _, mret tt).

Definition _handle_time_restriction_violation (request : Request)
    (access_rules : AccessControl.t) (now : datetime) : M (option Response) :=
  try_except
    (_log_access_violation request "time_restriction"
       ("Access outside allowed time for role "
        ++ role_name (AccessControl.role access_rules)) now ;;
     if is_ajax request
     then mret (Some (JsonResponse 403 "Access not allowed at this time"))
     else mret (Some (HttpResponseForbidden
       "Access not allowed at this time. Your role has time-based restrictions.")))
    (λ _, mret None).

Definition is_slash (c : ascii) : bool := Ascii.eqb c "/".

(** [s.strip('/')] *)
Fixpoint lstrip_slashes (s : string) : string :=
  match s with
  | EmptyString => EmptyString
  | String c s' => if is_slash c then lstrip_slashes s' else s
  end.

Fixpoint rstrip_slashes (s : string) : string :=
  match s with
  | EmptyString => EmptyString
  | String c s' =>
      match rstrip_slashes s' with
      | EmptyString => if is_slash c then EmptyString else String c EmptyString
      | t => String c t
      end
  end.

Definition strip_slashes (s : string) : string :=
  rstrip_slashes (lstrip_slashes s).

(** [s.split('/')[0]] *)
Fixpoint first_part (s : string) : string :=
  match s with
  | EmptyString => EmptyString
  | String c s' => if is_slash c then EmptyString else String c (first_part s')
  end.

Definition _extract_resource_from_request (request : Request)
    : option string :=
  let path := strip_slashes (path request) in
  match path with
  | EmptyString => None
  | _ => Some (first_part path)
  end.

(** [f'{resource}'] *)
Definition format_resource (resource : option string) : string :=
  match resource with
  | Some r => r
  | None => "None"
  end.

Definition _handle_resource_restriction_violation (request : Request)
    (access_rules : AccessControl.t) (now : datetime) : M (option Response) :=
  try_except
    (let resource := _extract_resource_from_request request in
     _log_access_violation request "resource_restriction"
       ("Access to restricted resource '" ++ format_resource resource
        ++ "' for role " ++ role_name (AccessControl.role access_rules)) now ;;
     if is_ajax request
     then mret (Some (JsonResponse 403
                        "Access to this resource is not allowed"))
     else mret (Some (HttpResponseForbidden
       "Access to this resource is not allowed for your role.")))
    (λ _, mret None).

Definition process_request (rules : list AccessControl.t) (request : Request)
    (now : datetime) : M (option Response) :=
  if _is_exempt_url (path request) then mret None
  else if negb (user_is_authenticated request) then mret None
  else
    access_rules ← _get_user_access_rules rules request now;
    match access_rules with
    | None => mret None
    | Some access_rules =>
        if negb (_is_time_allowed access_rules now)
        then _handle_time_restriction_violation request access_rules now
        else if negb (_is_resource_allowed request access_rules)
        then _handle_resource_restriction_violation request access_rules now
        else mret None
    end.

End AccessControlMiddleware.

(** ** The decision of the access control middleware *)

(** The active rule of a role, when the table holds exactly one. *)
Definition active_rule (rules : list AccessControl.t)
    (role : AccessControl.role_choice) : option AccessControl.t :=
  match List.filter (λ r, AccessControlMiddleware.role_eqb
                            (AccessControl.role r) role
                          && AccessControl.is_active r) rules with
  | [x] => Some x
  | _ => None
  end.

(** The rule the middleware goes by for a request at [now]: the rule cached
    for the role of the user while the entry lasts, else the active rule of
    the role in the table, provided the database answers. *)
Definition resolved_rule (rules : list AccessControl.t)
    (request : AccessControlMiddleware.Request) (now : datetime) (w : World)
    : option AccessControl.t :=
  match AccessControlMiddleware.profile_role request with
  | None => None
  | Some role =>
      match cache_get (access_rules (cache w))
              (AccessControlMiddleware.cache_key role) now with
      | Some rule => Some rule
      | None =>
          match db_faults w with
          | true :: _ => None
          | _ => active_rule rules role
          end
      end
  end.

Definition time_restriction_response
    (request : AccessControlMiddleware.Request)
    : AccessControlMiddleware.Response :=
  if AccessControlMiddleware.is_ajax request
  then AccessControlMiddleware.JsonResponse 403
         "Access not allowed at this time"
  else AccessControlMiddleware.HttpResponseForbidden
         "Access not allowed at this time. Your role has time-based restrictions.".

(** A request of a student for a page outside the exempt prefixes. *)
Definition student_request : AccessControlMiddleware.Request :=
  {| AccessControlMiddleware.path := "/library/";
     AccessControlMiddleware.user_is_authenticated := true;
     AccessControlMiddleware.profile_role := Some AccessControl.student;
     AccessControlMiddleware.session_tracker := None;
     AccessControlMiddleware.method := "GET";
     AccessControlMiddleware.client_ip := "127.0.0.1";
     AccessControlMiddleware.http_user_agent := EmptyString;
     AccessControlMiddleware.is_ajax := false |}.

(** ** What no operation does to the table of trackers *)

(** A row may change, keeping what identifies the session; it may not become
    active again, and it may not get the status [terminated]. *)
Definition keeps (r r' : SessionTracker) : Prop :=
  pk r' = pk r ∧ user r' = user r ∧ device r' = device r
  ∧ session_key r' = session_key r ∧ login_time r' = login_time r
  ∧ ip_address r' = ip_address r ∧ user_agent r' = user_agent r
  ∧ (status r' = active → status r = active)
  ∧ (status r' = terminated → status r = terminated).

(** From [w] to [w'] every row is kept, in its place, and rows may have been
    added at the end, none of them [terminated]. *)
Definition retains (w w' : World) : Prop :=
  ∃ kept extra,
    session_trackers w' = (kept ++ extra)%list
    ∧ Forall2 keeps (session_trackers w) kept
    ∧ Forall (λ r, status r ≠ terminated) extra.

Definition retainer {A} (m : M A) : Prop := ∀ w, retains w (m w).2.

(** An action that leaves the cached access rules as they are. *)
Definition keeps_rules {A} (m : M A) : Prop :=
  ∀ w, access_rules (cache (m w).2) = access_rules (cache w).

(** ** The administration screens

    [security/views.py] and [security/admin.py]: the operations of the screens
    on the table of trackers, for a POST request of an administrator. The
    exception [DoesNotExist] of a lookup is the 404 of [get_object_or_404]. *)

Module views.

(** The message the view flashes. *)
Inductive message := success | warning.

Definition end_session_view (session_id : nat) (now : datetime) : M message :=
  session ← objects_get (λ s, Nat.eqb (pk s) session_id);
  if is_active session
  then end_session session "admin_action" now ;; mret success
  else mret warning.

(** The action [end_session] of [manage_user_sessions]. *)
Definition manage_user_sessions_end_session (user_id session_id : nat)
    (now : datetime) : M message :=
  session_tracker ←
    objects_get (λ s, Nat.eqb (pk s) session_id && Nat.eqb (user s) user_id);
  end_session session_tracker "admin_action" now ;;
  mret success.

End views.

Module admin.

(** The loop of [end_selected_sessions] with its counter. *)
Fixpoint end_selected_loop (sessions : list SessionTracker) (count : nat)
    (now : datetime) : M nat :=
  match sessions with
  | [] => mret count
  | session :: rest =>
      end_session session "admin_action" now ;;
      end_selected_loop rest (S count) now
  end.

Definition end_selected_sessions (queryset : queryset) (now : datetime)
    : M nat :=
  sessions ← qs_list (λ s, queryset s && status_eqb (status s) active);
  end_selected_loop sessions 0 now.

(** [queryset.update(status='violation')]: one statement on the rows of the
    selection, past [save] and its validation; the number of rows matched. *)
Definition mark_as_violation (queryset : queryset) : M nat :=
  db ;;
  w ← get_world;
  modify (set_trackers
            (map (λ r, if queryset r
                       then set_logout_status (logout_time r) violation r
                       else r) (session_trackers w))) ;;
  mret (length (List.filter queryset (session_trackers w))).

End admin.

(** A row as [mark_as_violation] leaves it. *)
Definition marked (r : SessionTracker) : SessionTracker :=
  set_logout_status (logout_time r) violation r.

(** ** Saving an access rule

    [security/models.py]: the validators of the JSON fields, [clean] and
    [save] of [AccessControl], on the table of rules with a database that
    answers. A row is a rule under its primary key. *)

Module AccessControlTable.

Record Row := {
  id : nat;
  rule : AccessControl.t;
}.

Definition validate_json_list (value : json_text (list string))
    : result (list string) :=
  match value with
  | Blank => Ok []
  | Dumps data => Ok data
  | Malformed => Raise ValidationError
  end.

Definition validate_time_restrictions
    (value : json_text AccessControl.restrictions)
    : result AccessControl.restrictions :=
  match value with
  | Blank => Ok AccessControl.no_restrictions
  | Dumps data =>
      let has_start := bool_decide (AccessControl.start_time data ≠ None) in
      let has_end := bool_decide (AccessControl.end_time data ≠ None) in
      if (has_start || has_end) && negb (has_start && has_end)
      then Raise ValidationError
      else Ok data
  | Malformed => Raise ValidationError
  end.

(** [AccessControl.clean] *)
Definition clean (self : AccessControl.t) : result unit :=
  match validate_json_list (AccessControl.allowed_domains self) with
  | Raise _ => Raise ValidationError
  | Ok _ =>
      match validate_json_list (AccessControl.blocked_domains self) with
      | Raise _ => Raise ValidationError
      | Ok _ =>
          match validate_time_restrictions
                  (AccessControl.time_restrictions self) with
          | Raise _ => Raise ValidationError
          | Ok _ => Ok tt
          end
      end
  end.

(** Another row, [exclude(pk=self.pk)], of the role. *)
Definition other_of_role (self_pk : option nat)
    (role : AccessControl.role_choice) (row : Row) : bool :=
  AccessControlMiddleware.role_eqb (AccessControl.role (rule row)) role
  && match self_pk with
     | Some p => negb (Nat.eqb (id row) p)
     | None => true
     end.

(** [full_clean]: [clean] and the check of [unique_together = ['role']]. *)
Definition full_clean (self_pk : option nat) (self : AccessControl.t)
    (table : list Row) : result unit :=
  match clean self with
  | Raise e => Raise e
  | Ok _ =>
      if existsb (other_of_role self_pk (AccessControl.role self)) table
      then Raise ValidationError
      else Ok tt
  end.

Definition set_is_active (b : bool) (r : AccessControl.t) : AccessControl.t :=
  {| AccessControl.role := AccessControl.role r;
     AccessControl.allowed_domains := AccessControl.allowed_domains r;
     AccessControl.blocked_domains := AccessControl.blocked_domains r;
     AccessControl.time_restrictions := AccessControl.time_restrictions r;
     AccessControl.is_active := b |}.

(** [filter(role=self.role, is_active=True).exclude(pk=self.pk)
    .update(is_active=False)] *)
Definition deactivate_others (self_pk : option nat) (self : AccessControl.t)
    (table : list Row) : list Row :=
  map (λ row, if other_of_role self_pk (AccessControl.role self) row
                 && AccessControl.is_active (rule row)
              then {| id := id row; rule := set_is_active false (rule row) |}
              else row) table.

(** [super().save()]: the row of the object is updated, or the object is
    inserted under the next primary key. *)
Definition write (self_pk : option nat) (self : AccessControl.t)
    (next_id : nat) (table : list Row) : list Row * nat :=
  match self_pk with
  | Some p =>
      if existsb (λ row, Nat.eqb (id row) p) table
      then (map (λ row, if Nat.eqb (id row) p
                        then {| id := p; rule := self |} else row) table,
            next_id)
      else ((table ++ [{| id := p; rule := self |}])%list, next_id)
  | None =>
      ((table ++ [{| id := next_id; rule := self |}])%list, S next_id)
  end.

Definition save (self_pk : option nat) (self : AccessControl.t)
    (next_id : nat) (table : list Row) : result (list Row * nat) :=
  match full_clean self_pk self table with
  | Raise e => Raise e
  | Ok _ =>
      let table :=
        if AccessControl.is_active self
        then deactivate_others self_pk self table else table in
      Ok (write self_pk self next_id table)
  end.

End AccessControlTable.

(** No two rows of the table are for the same role. *)
Definition one_rule_per_role (table : list AccessControlTable.Row) : Prop :=
  ∀ i j r1 r2, table !! i = Some r1 → table !! j = Some r2 →
    AccessControl.role (AccessControlTable.rule r1)
    = AccessControl.role (AccessControlTable.rule r2) →
    i = j.

(** A table with the rule of the students. *)
Definition students_rule_only : list AccessControlTable.Row :=
  [{| AccessControlTable.id := 1; AccessControlTable.rule := office_hours |}].

(** Four logins of alice from one address, a minute apart, and the session
    of the fourth. *)
Definition four_logins_one_address : list SessionTracker :=
  [fresh_tracker 1 7 "login_1" 0; fresh_tracker 2 7 "login_2" minute;
   fresh_tracker 3 7 "login_3" (2 * minute);
   fresh_tracker 4 7 "login_4" (3 * minute)].

(** The rows the scan for addresses looks at: those of the user of [t] that
    logged in during the 24 hours before [now]. *)
Definition recent_logins (t : SessionTracker) (now : datetime)
    (rows : list SessionTracker) : list SessionTracker :=
  List.filter (λ s, Nat.eqb (user s) (user t)
                    && (now - 24 * hour <=? login_time s)) rows.

(** A limit of two sessions per user, further sessions denied. *)
Definition limit_2_settings : Settings :=
  {| MAX_CONCURRENT_SESSIONS := 2; CONCURRENT_SESSION_POLICY := "deny";
     SESSION_TIMEOUT_MINUTES := 30 |}.

(** * Lemmas and theorems *)

(** ** Access rules *)

Lemma str_in_elem_of (x : string) (l : list string) : str_in x l = true ↔ x ∈ l.
Proof.
  unfold str_in. rewrite existsb_exists, list_elem_of_In. split.
  - intros (y & Hy & Heq). apply String.eqb_eq in Heq. by subst.
  - intros H. exists x. split; [done | apply String.eqb_refl].
Qed.

Lemma str_in_decide (x : string) (l : list string) :
  str_in x l = bool_decide (x ∈ l).
Proof.
  destruct (str_in x l) eqn:E; symmetry.
  - apply bool_decide_eq_true. by apply str_in_elem_of.
  - apply bool_decide_eq_false. intros H%str_in_elem_of. congruence.
Qed.

(** C7. [is_domain_allowed] answers [False] for a blocked domain; for a domain
    that is not blocked it answers [True] when the allowed list is empty and
    otherwise exactly when the domain is in the allowed list. *)
Theorem is_domain_allowed_spec (rule : AccessControl.t) (domain : string) :
  AccessControl.is_domain_allowed rule domain =
    if decide (domain ∈ AccessControl.get_blocked_domains rule) then false
    else if decide (AccessControl.get_allowed_domains rule = []) then true
    else bool_decide (domain ∈ AccessControl.get_allowed_domains rule).
Proof.
  unfold AccessControl.is_domain_allowed. rewrite !str_in_decide.
  case_bool_decide; case_decide; try done.
  destruct (AccessControl.get_allowed_domains rule) eqn:E; case_decide; done.
Qed.

(** The three cases of the specification's examples. *)
Example is_domain_allowed_examples :
  AccessControl.is_domain_allowed (domain_rule [] ["x.com"]) "x.com" = false
  ∧ AccessControl.is_domain_allowed (domain_rule ["edu.com"] []) "other.com"
    = false
  ∧ AccessControl.is_domain_allowed (domain_rule [] []) "anything.com" = true.
Proof. by vm_compute. Qed.

Lemma strftime_A_weekday (t : datetime) (d : weekday) :
  weekday_of t = d →
  strftime_A t =
    match d with
    | Monday => "Monday" | Tuesday => "Tuesday" | Wednesday => "Wednesday"
    | Thursday => "Thursday" | Friday => "Friday" | Saturday => "Saturday"
    | Sunday => "Sunday"
    end.
Proof. intros <-. reflexivity. Qed.

Lemma is_time_allowed_within (rule : AccessControl.t) (now : datetime)
    (st en : string) :
  AccessControl.start_time (AccessControl.get_time_restrictions rule) = Some st →
  AccessControl.end_time (AccessControl.get_time_restrictions rule) = Some en →
  AccessControl.is_time_allowed rule now = true →
  str_le st (strftime_HM now) = true ∧ str_le (strftime_HM now) en = true.
Proof.
  unfold AccessControl.is_time_allowed. intros Hs He H.
  destruct (AccessControl.is_empty _) eqn:Hempty.
  { unfold AccessControl.is_empty in Hempty. rewrite Hs in Hempty.
    by destruct (AccessControl.days _). }
  rewrite Hs, He in H.
  destruct (negb _); [done |].
  destruct (str_le st _), (str_le _ en); simpl in H; done.
Qed.

Ltac office_hours_fields :=
  cbn [AccessControl.get_time_restrictions office_hours
       AccessControl.time_restrictions loads_or AccessControl.is_empty
       AccessControl.days AccessControl.start_time AccessControl.end_time].

(** C6. [is_time_allowed] answers [True] for a rule without time restrictions;
    [False] when [days] is present and the weekday of [now] is not among them;
    with [start_time] and [end_time] present it answers [True] only when the
    [HH:MM] string of [now] lies between them, bounds included, in the order of
    strings. Under 09:00 to 17:00, Monday to Friday, every Saturday is refused
    (so Saturday 10:00) and Tuesday 12:00 is allowed. *)
Theorem is_time_allowed_spec (rule : AccessControl.t) (now : datetime) :
  let r := AccessControl.get_time_restrictions rule in
  (r = AccessControl.no_restrictions →
   AccessControl.is_time_allowed rule now = true)
  ∧ (∀ ds, AccessControl.days r = Some ds →
           lower (strftime_A now) ∉ map lower ds →
           AccessControl.is_time_allowed rule now = false)
  ∧ (∀ st en, AccessControl.start_time r = Some st →
              AccessControl.end_time r = Some en →
              AccessControl.is_time_allowed rule now = true →
              str_le st (strftime_HM now) = true
              ∧ str_le (strftime_HM now) en = true)
  ∧ (weekday_of now = Saturday →
     AccessControl.is_time_allowed office_hours now = false)
  ∧ (weekday_of now = Tuesday → hour_of now = 12 → minute_of now = 0 →
     AccessControl.is_time_allowed office_hours now = true).
Proof.
  intros r. repeat split.
  - intros Hr. unfold AccessControl.is_time_allowed. fold r. by rewrite Hr.
  - intros ds Hds Hnot. unfold AccessControl.is_time_allowed. fold r.
    destruct (AccessControl.is_empty r) eqn:He.
    { unfold AccessControl.is_empty in He. by rewrite Hds in He. }
    rewrite Hds.
    destruct (str_in _ _) eqn:Hin; [|done].
    by apply str_in_elem_of in Hin.
  - eapply is_time_allowed_within; eauto.
  - eapply is_time_allowed_within; eauto.
  - intros Hd. unfold AccessControl.is_time_allowed. office_hours_fields.
    rewrite (strftime_A_weekday _ _ Hd). by vm_compute.
  - intros Hd Hh Hm. unfold AccessControl.is_time_allowed, strftime_HM.
    office_hours_fields.
    rewrite (strftime_A_weekday _ _ Hd), Hh, Hm. by vm_compute.
Qed.

Lemma is_time_allowed_spec_witness :
  AccessControl.is_time_allowed (domain_rule [] []) saturday_10_00 = true
  ∧ AccessControl.is_time_allowed office_hours saturday_10_00 = false
  ∧ (str_le "09:00" (strftime_HM tuesday_12_00) = true
     ∧ str_le (strftime_HM tuesday_12_00) "17:00" = true)
  ∧ AccessControl.is_time_allowed office_hours tuesday_12_00 = true.
Proof.
  split; [|split; [|split]].
  - apply (proj1 (is_time_allowed_spec (domain_rule [] []) saturday_10_00)).
    reflexivity.
  - apply (proj1 (proj2 (proj2 (proj2
             (is_time_allowed_spec office_hours saturday_10_00))))).
    vm_compute; reflexivity.
  - apply (proj1 (proj2 (proj2
             (is_time_allowed_spec office_hours tuesday_12_00)))
             "09:00" "17:00"); vm_compute; reflexivity.
  - apply (proj2 (proj2 (proj2 (proj2
             (is_time_allowed_spec office_hours tuesday_12_00)))));
      vm_compute; reflexivity.
Defined.

(** ** Expiry detection *)

(** C5. For an active session, [is_session_expired] answers [True] exactly
    when [now - last_activity] is more than the timeout, and so does the check
    of the middleware under the 30 minutes of the default settings; with a
    timeout of 30 minutes a session idle for 45 minutes is expired and one
    idle for 5 minutes is not. *)
Theorem is_session_expired_active (s : SessionTracker) (now : datetime) :
  status s = active →
  (∀ m, is_session_expired s m now = true ↔ minutes m < now - last_activity s)
  ∧ SessionValidationMiddleware._is_session_expired default_settings s now
    = is_session_expired s 30 now
  ∧ (last_activity s = now - minutes 45 → is_session_expired s 30 now = true)
  ∧ (last_activity s = now - minutes 5 → is_session_expired s 30 now = false).
Proof.
  intros Hs.
  assert (Hm : ∀ m, is_session_expired s m now
                    = bool_decide (minutes m < now - last_activity s)).
  { intros m. unfold is_session_expired, time_since_last_activity,
      total_seconds_gt, minutes, minute. rewrite Hs. simpl.
    case_bool_decide; [apply Z.ltb_lt | apply Z.ltb_ge]; lia. }
  repeat split.
  - rewrite Hm. apply bool_decide_eq_true.
  - rewrite Hm. apply bool_decide_eq_true.
  - rewrite Hm. unfold SessionValidationMiddleware._is_session_expired,
      SessionValidationMiddleware.SESSION_TIMEOUT, total_seconds_gt, minutes,
      minute. simpl.
    case_bool_decide; [apply Z.ltb_lt | apply Z.ltb_ge]; lia.
  - intros Hl. rewrite Hm. apply bool_decide_eq_true. rewrite Hl.
    unfold minutes, minute, second. lia.
  - intros Hl. rewrite Hm. apply bool_decide_eq_false. rewrite Hl.
    unfold minutes, minute, second. lia.
Qed.

Lemma is_session_expired_active_witness :
  is_session_expired (idle_tracker 1 1 "k" (minutes 60) (minutes 45)) 30
    (minutes 60) = true
  ∧ is_session_expired (idle_tracker 1 1 "k" (minutes 60) (minutes 5)) 30
      (minutes 60) = false.
Proof.
  split.
  - apply (is_session_expired_active
             (idle_tracker 1 1 "k" (minutes 60) (minutes 45)) (minutes 60));
      reflexivity.
  - apply (is_session_expired_active
             (idle_tracker 1 1 "k" (minutes 60) (minutes 5)) (minutes 60));
      reflexivity.
Defined.

(** C10. A session whose status is not [active] is reported expired, whatever
    its last activity and whatever the timeout. *)
Theorem is_session_expired_not_active (s : SessionTracker) (m : Z)
    (now : datetime) :
  status s ≠ active → is_session_expired s m now = true.
Proof.
  intros Hs. unfold is_session_expired. by destruct (status s).
Qed.

Lemma is_session_expired_not_active_witness :
  is_session_expired
    (set_logout_status (Some 0) inactive (fresh_tracker 1 1 "k" 0)) 30 0 = true.
Proof.
  apply is_session_expired_not_active. simpl. discriminate.
Defined.

(** ** The database layer *)

Lemma set_db_faults_same (w : World) : set_db_faults (db_faults w) w = w.
Proof. by destruct w. Qed.

Lemma db_no_fault (w : World) : db_faults w = [] → db w = (Ok tt, w).
Proof. unfold db. by intros ->. Qed.

Lemma tick_fields (w : World) :
  session_trackers (tick w) = session_trackers w
  ∧ next_pk (tick w) = next_pk w
  ∧ django_sessions (tick w) = django_sessions w
  ∧ cache (tick w) = cache w
  ∧ db_faults (tick w) = tail (db_faults w).
Proof. unfold tick, db. destruct (db_faults w) as [|[] ?] eqn:E; simpl; by rewrite ?E. Qed.

Lemma tick_no_fault (w : World) : db_faults w = [] → tick w = w.
Proof. intros H. unfold tick. by rewrite db_no_fault. Qed.

Lemma tick_ties (w : World) : db_ties (tick w) = db_ties w.
Proof. unfold tick, db. by destruct (db_faults w) as [|[] ?]. Qed.

Lemma order_by_ties (o : ordering) (rows : list SessionTracker) (w w' : World) :
  db_ties w' = db_ties w → order_by o rows w' = order_by o rows w.
Proof. unfold order_by. by intros ->. Qed.

Lemma order_by_tick (o : ordering) (rows : list SessionTracker) (w : World) :
  order_by o rows (tick w) = order_by o rows w.
Proof. apply order_by_ties, tick_ties. Qed.

(** What [save] does, case by case. *)
Lemma save_cases (self : SessionTracker)
    (write : SessionTracker → SessionTracker → SessionTracker) (w : World) :
  save self write w =
    match db_faults w with
    | true :: _ => (Raise DatabaseError, tick w)
    | _ =>
        if clean_rejects self
           || unique_rejects (Some (pk self)) (session_key self)
                (session_trackers w)
        then (Raise ValidationError, tick w)
        else if existsb (λ r, Nat.eqb (pk r) (pk self)) (session_trackers w)
        then (Ok tt, set_trackers (updated self write (session_trackers w))
                       (tick w))
        else (Raise DatabaseError, tick w)
    end.
Proof.
  unfold save, full_clean, tick, db, updated, mbind, M_bind, bind, get_world,
    modify, raise, mret, M_ret, ret.
  destruct (db_faults w) as [|[] fs]; simpl; try done;
    destruct (clean_rejects self || _); simpl; try done;
    destruct (existsb _ _); done.
Qed.

(** A save either writes its fields into the rows of the object, and then the
    object passed [clean], or leaves every table as it was. *)
Lemma save_rows (self : SessionTracker)
    (write : SessionTracker → SessionTracker → SessionTracker) (w : World) :
  (session_trackers (save self write w).2
   = updated self write (session_trackers w)
   ∧ clean_rejects self = false)
  ∨ session_trackers (save self write w).2 = session_trackers w.
Proof.
  rewrite save_cases. pose proof (tick_fields w) as (Ht & _).
  destruct (db_faults w) as [|[] fs]; simpl; auto;
    destruct (clean_rejects self); simpl; auto;
    destruct (unique_rejects _ _ _); simpl; auto;
    destruct (existsb _ _); simpl; auto.
Qed.

(** ** The invariants of a session record *)

Section Invariants.
Variable self0 : SessionTracker.
Abbreviation object_ok := (object_ok self0).
Abbreviation rows_ok := (rows_ok self0).

Lemma status_of_reason_not_active (reason : string) :
  status_of_reason reason ≠ active.
Proof.
  unfold status_of_reason.
  destruct (String.eqb reason "violation"); [done |].
  by destruct (String.eqb reason "timeout").
Qed.

Lemma count_is_log_length_add (self : SessionTracker) ty details now :
  count_is_log_length self →
  count_is_log_length (add_violation_set self ty details now).
Proof.
  unfold count_is_log_length, get_violations, add_violation_set. simpl.
  intros ->. rewrite length_app. simpl. lia.
Qed.

Lemma logout_iff_not_active_end (self : SessionTracker) reason now :
  logout_iff_not_active (end_session_set self reason now).
Proof.
  unfold logout_iff_not_active. simpl. split; [done |].
  intros H. by apply status_of_reason_not_active in H.
Qed.

Lemma object_ok_step (self : SessionTracker) (o : operation) :
  object_ok self → object_ok (apply_set self o).
Proof.
  intros (Hpk & Hlogin & Hiff & Hcount). destruct o; simpl.
  - split_and!; try done. apply logout_iff_not_active_end.
  - split_and!; try done. by apply count_is_log_length_add.
  - by split_and!.
Qed.

Lemma elem_of_updated (self : SessionTracker) write rows r' :
  r' ∈ updated self write rows →
  ∃ r, r ∈ rows
       ∧ r' = if Nat.eqb (pk r) (pk self) then write self r else r.
Proof.
  unfold updated. intros (r & -> & Hr)%list_elem_of_fmap. eauto.
Qed.

Lemma rows_ok_step (self : SessionTracker) (o : operation) (w : World) :
  object_ok self → rows_ok w → rows_ok (apply_run self o w).2.
Proof.
  intros Hobj Hrows.
  pose proof (object_ok_step self o Hobj) as (Hpk & Hlogin & Hiff & Hcount).
  assert (Hsave : ∀ write,
    (∀ r, tracker_invariant r → login_time r = login_time self0 →
          clean_rejects (apply_set self o) = false →
          tracker_invariant (write (apply_set self o) r)) →
    (∀ r, pk (write (apply_set self o) r) = pk r
          ∧ login_time (write (apply_set self o) r) = login_time r) →
    rows_ok (save (apply_set self o) write w).2).
  { intros write Hinv Hkeep.
    destruct (save_rows (apply_set self o) write w) as [[Heq Hclean] | Heq];
      intros r' [Hin Hr']; rewrite Heq in Hin; [| by apply Hrows].
    apply elem_of_updated in Hin as (r & Hin & ->).
    destruct (Nat.eqb (pk r) _) eqn:E; [| by apply Hrows].
    destruct (Hkeep r) as [Hk1 Hk2]. rewrite Hk1 in Hr'.
    destruct (Hrows r) as [Hi Hl]; [done |].
    split; [by apply Hinv | congruence]. }
  destruct o; simpl in *; apply Hsave; try done;
    intros r (H1 & H2 & H3) Hl Hclean; split_and!; try done.
  intros t [= <-]. unfold clean_rejects in Hclean. simpl in Hclean.
  apply orb_false_iff in Hclean as [Hlt%Z.ltb_ge _]. simpl. lia.
Qed.

Lemma row_of_step (self : SessionTracker) (o : operation) (w : World) :
  pk self = pk self0 →
  (∃ r, row_of self0 w r) → ∃ r, row_of self0 (apply_run self o w).2 r.
Proof.
  intros Hpk (r & Hin & Hr).
  assert (Hsave : ∀ self' write,
    pk self' = pk self0 → (∀ r, pk (write self' r) = pk r) →
    ∃ r, row_of self0 (save self' write w).2 r).
  { intros self' write Hpk' Hkeep.
    destruct (save_rows self' write w) as [[Heq _] | Heq];
      [| exists r; split; [by rewrite Heq | done]].
    exists (if Nat.eqb (pk r) (pk self') then write self' r else r).
    split.
    - rewrite Heq. unfold updated.
      apply (list_elem_of_fmap_2
               (λ r, if Nat.eqb (pk r) (pk self') then write self' r else r)).
      done.
    - destruct (Nat.eqb _ _); [by rewrite Hkeep | done]. }
  destruct o; simpl; by apply Hsave.
Qed.

Lemma run_operations_ok (os : list operation) (self : SessionTracker)
    (w : World) :
  object_ok self → rows_ok w → (∃ r, row_of self0 w r) →
  object_ok (run_operations self w os).1
  ∧ rows_ok (run_operations self w os).2
  ∧ ∃ r, row_of self0 (run_operations self w os).2 r.
Proof.
  revert self w. induction os as [|o os IH]; intros self w Hobj Hrows Hex.
  - done.
  - simpl. apply IH.
    + by apply object_ok_step.
    + by apply rows_ok_step.
    + apply row_of_step; [apply Hobj | done].
Qed.

Lemma run_operations_logout_after_login (os : list operation)
    (self : SessionTracker) (w : World) :
  login_time self = login_time self0 →
  logout_after_login self →
  Forall (λ o, login_time self0 ≤ operation_time o) os →
  logout_after_login (run_operations self w os).1.
Proof.
  revert self w. induction os as [|o os IH]; intros self w Hl Hself Hos.
  - done.
  - inversion Hos as [|? ? Ho Hos']; subst. simpl. apply IH; [| | done].
    + by destruct o.
    + destruct o; simpl in *; try done.
      intros t [= <-]. simpl. lia.
Qed.

End Invariants.

(** C9. Take a record right after its creation, stored in the table under its
    primary key, and apply any sequence of [end_session], [add_violation] and
    [update_activity] to the object, at any instants and under any schedule of
    database faults. The stored record then has [logout_time] null exactly
    when its status is [active], a [logout_time] not before its [login_time],
    and a [violation_count] equal to the length of [get_violations]. The
    object in memory satisfies the first and the third as well, and the second
    when no operation read a clock behind the login time. *)
Theorem tracker_invariant_reachable (self : SessionTracker) (w : World)
    (os : list operation) :
  freshly_created self →
  self ∈ session_trackers w →
  (∀ r, row_of self w r → r = self) →
  (∃ r, row_of self (run_operations self w os).2 r)
  ∧ (∀ r, row_of self (run_operations self w os).2 r → tracker_invariant r)
  ∧ logout_iff_not_active (run_operations self w os).1
  ∧ count_is_log_length (run_operations self w os).1
  ∧ (Forall (λ o, login_time self ≤ operation_time o) os →
     logout_after_login (run_operations self w os).1).
Proof.
  intros (Hst & Hlo & Hc & Hd) Hin Huniq.
  assert (Hinv : tracker_invariant self).
  { split_and!.
    - unfold logout_iff_not_active. by rewrite Hst, Hlo.
    - intros t. by rewrite Hlo.
    - unfold count_is_log_length, get_violations. by rewrite Hc, Hd. }
  destruct Hinv as (Hi1 & Hi2 & Hi3).
  destruct (run_operations_ok self os self w)
    as ((_ & _ & H1 & H3) & Hrows & Hex).
  - by split_and!.
  - intros r Hr. by rewrite (Huniq r Hr).
  - by exists self.
  - split_and!; try done.
    + intros r Hr. by apply Hrows.
    + intros Hos. by apply (run_operations_logout_after_login self).
Qed.

Lemma tracker_invariant_reachable_witness :
  let self := fresh_tracker 1 7 "k" 100 in
  let w := world_of [self] in
  (∃ r, row_of self (run_operations self w sample_operations).2 r)
  ∧ (∀ r, row_of self (run_operations self w sample_operations).2 r →
          tracker_invariant r)
  ∧ logout_iff_not_active (run_operations self w sample_operations).1
  ∧ count_is_log_length (run_operations self w sample_operations).1
  ∧ logout_after_login
      (run_operations self w sample_operations_in_order).1.
Proof.
  intros self w.
  assert (Hunique : ∀ r, row_of self w r → r = self).
  { intros r [Hin _]. by apply list_elem_of_singleton in Hin. }
  destruct (tracker_invariant_reachable self w sample_operations)
    as (H1 & H2 & H3 & H4 & _);
    [by split_and! | apply list_elem_of_here | done |].
  destruct (tracker_invariant_reachable self w sample_operations_in_order)
    as (_ & _ & _ & _ & H5);
    [by split_and! | apply list_elem_of_here | done |].
  split_and!; try done.
  apply H5. repeat constructor; simpl; lia.
Defined.

(** On the sample run the stored record keeps the logout of instant 200: the
    last [end_session], at a clock behind the login time, is refused by
    [clean], while the object in memory carries its assignments. *)
Example sample_run_result :
  let self := fresh_tracker 1 7 "k" 100 in
  let final := run_operations self (world_of [self]) sample_operations in
  map (λ r, (logout_time r, status r, violation_count r))
      (session_trackers final.2) = [(Some 200, inactive, 1%nat)]
  ∧ (logout_time final.1, status final.1) = (Some 50, expired).
Proof. by vm_compute. Qed.

(** ** Ending a session *)

Lemma save_succeeds (self : SessionTracker)
    (write : SessionTracker → SessionTracker → SessionTracker) (w : World) :
  db_faults w = [] →
  clean_rejects self = false →
  unique_rejects (Some (pk self)) (session_key self) (session_trackers w)
    = false →
  existsb (λ r, Nat.eqb (pk r) (pk self)) (session_trackers w) = true →
  save self write w
  = (Ok tt, set_trackers (updated self write (session_trackers w)) w).
Proof.
  intros Hf Hc Hu He. rewrite save_cases, Hf, Hc, Hu, He. simpl.
  by rewrite tick_no_fault.
Qed.

Lemma existsb_pk (self : SessionTracker) (rows : list SessionTracker) :
  (∃ r, r ∈ rows ∧ pk r = pk self) →
  existsb (λ r, Nat.eqb (pk r) (pk self)) rows = true.
Proof.
  intros (r & Hin & Hpk). apply existsb_exists. exists r.
  split; [by apply list_elem_of_In | by apply Nat.eqb_eq].
Qed.

Lemma clean_accepts_end (self : SessionTracker) reason now :
  login_time self ≤ now →
  violation_details self ≠ Malformed →
  clean_rejects (end_session_set self reason now) = false.
Proof.
  intros Hl Hd. unfold clean_rejects. simpl.
  apply orb_false_iff. split; [apply Z.ltb_ge; lia |].
  by destruct (violation_details self).
Qed.

(** [end_session] has no test of the state of the record. When its save goes
    through it stores [logout_time = now] and the terminal status of the
    reason, also on a record that was already ended. *)
Lemma end_session_overwrites (self : SessionTracker) (reason : string)
    (now : datetime) (w : World) :
  db_faults w = [] →
  (∃ r, row_of self w r) →
  unique_rejects (Some (pk self)) (session_key self) (session_trackers w)
    = false →
  login_time self ≤ now →
  violation_details self ≠ Malformed →
  end_session self reason now w
  = (Ok tt, set_trackers
              (updated (end_session_set self reason now) write_logout_status
                 (session_trackers w)) w)
  ∧ (∃ r, row_of self (end_session self reason now w).2 r)
  ∧ ∀ r, row_of self (end_session self reason now w).2 r →
         logout_time r = Some now ∧ status r = status_of_reason reason
         ∧ status r ≠ active.
Proof.
  intros Hf Hex Hu Hl Hd.
  assert (Heq : end_session self reason now w
    = (Ok tt, set_trackers
                (updated (end_session_set self reason now) write_logout_status
                   (session_trackers w)) w)).
  { unfold end_session. apply save_succeeds; try done.
    - by apply clean_accepts_end.
    - by apply existsb_pk. }
  split; [done |]. rewrite Heq. simpl. split.
  - destruct Hex as (r & Hin & Hpk).
    exists (write_logout_status (end_session_set self reason now) r).
    split; [| done]. unfold updated.
    apply list_elem_of_fmap. exists r. split; [| done].
    simpl. by rewrite Hpk, Nat.eqb_refl.
  - intros r' [Hin Hpk]. apply elem_of_updated in Hin as (r & Hin & ->).
    simpl in *. destruct (Nat.eqb (pk r) (pk self)) eqn:E.
    + simpl. split_and!; try done. apply status_of_reason_not_active.
    + apply Nat.eqb_neq in E. done.
Qed.

Example end_session_overwrites_ended :
  ∃ r, row_of logged_out_tracker
         (end_session logged_out_tracker "timeout" 200
            (world_of [logged_out_tracker])).2 r
       ∧ logout_time r = Some 200 ∧ status r = expired.
Proof.
  destruct (end_session_overwrites logged_out_tracker "timeout" 200
              (world_of [logged_out_tracker]))
    as (_ & (r & Hr) & Hall); try done.
  - exists logged_out_tracker. split; [apply list_elem_of_here | done].
  - exists r. destruct (Hall r Hr) as (H1 & H2 & _). done.
Defined.

(** C3. Ending an ended session is to be a no-op, and [end_session] does not
    see to it. A session was ended by a logout at instant 100. Called on its
    record again at instant 200, [end_session] stores the new instant and the
    status of the new reason. The session monitor guards the call:
    [end_session_view] tests [is_active] and answers with a warning, without a
    write. The action [end_session] of [manage_user_sessions] calls it
    unguarded, and the logout time of the ended session is overwritten from
    that screen. *)
Theorem end_session_not_idempotent :
  let w := world_of [logged_out_tracker] in
  logout_time logged_out_tracker = Some 100
  ∧ status logged_out_tracker = inactive
  ∧ session_trackers w = [logged_out_tracker]
  ∧ session_trackers (end_session logged_out_tracker "timeout" 200 w).2
    = [set_logout_status (Some 200) expired logged_out_tracker]
  ∧ session_trackers (end_session logged_out_tracker "timeout" 200 w).2
    ≠ session_trackers w
  ∧ views.end_session_view 1 200 w = (Ok views.warning, w)
  ∧ (views.manage_user_sessions_end_session 7 1 200 w).1 = Ok views.success
  ∧ session_trackers (views.manage_user_sessions_end_session 7 1 200 w).2
    = [set_logout_status (Some 200) inactive logged_out_tracker].
Proof. by vm_compute. Qed.

(** ** Running the monad *)

Lemma mbind_Ok {A B} (m : M A) (k : A → M B) (w w' : World) (a : A) :
  m w = (Ok a, w') → (m ≫= k) w = k a w'.
Proof. unfold mbind, M_bind, bind. by intros ->. Qed.

Lemma mbind_Raise {A B} (m : M A) (k : A → M B) (w w' : World) (e : exn) :
  m w = (Raise e, w') → (m ≫= k) w = (Raise e, w').
Proof. unfold mbind, M_bind, bind. by intros ->. Qed.

Lemma try_except_Ok {A} (m : M A) (h : exn → M A) (w w' : World) (a : A) :
  m w = (Ok a, w') → try_except m h w = (Ok a, w').
Proof. unfold try_except. by intros ->. Qed.

Lemma try_except_Raise {A} (m : M A) (h : exn → M A) (w w' : World) (e : exn) :
  m w = (Raise e, w') → try_except m h w = h e w'.
Proof. unfold try_except. by intros ->. Qed.

Lemma set_trackers_set_trackers (l l' : list SessionTracker) (w : World) :
  set_trackers l (set_trackers l' w) = set_trackers l w.
Proof. done. Qed.

Lemma set_trackers_same (w : World) : set_trackers (session_trackers w) w = w.
Proof. by destruct w. Qed.

Lemma qs_list_no_fault (q : queryset) (w : World) :
  db_faults w = [] →
  qs_list q w
  = (Ok (order_by by_login_time_desc (List.filter q (session_trackers w)) w),
     w).
Proof.
  intros Hf. unfold qs_list. by rewrite (mbind_Ok _ _ _ _ _ (db_no_fault w Hf)).
Qed.

Lemma qs_count_no_fault (q : queryset) (w : World) :
  db_faults w = [] →
  qs_count q w = (Ok (length (List.filter q (session_trackers w))), w).
Proof.
  intros Hf. unfold qs_count. by rewrite (mbind_Ok _ _ _ _ _ (db_no_fault w Hf)).
Qed.

Lemma qs_exists_no_fault (q : queryset) (w : World) :
  db_faults w = [] →
  qs_exists q w = (Ok (existsb q (session_trackers w)), w).
Proof.
  intros Hf. unfold qs_exists.
  by rewrite (mbind_Ok _ _ _ _ _ (db_no_fault w Hf)).
Qed.

Lemma qs_oldest_no_fault (q : queryset) (w : World) :
  db_faults w = [] →
  qs_oldest q w
  = (Ok (head (order_by by_login_time (List.filter q (session_trackers w)) w)),
     w).
Proof.
  intros Hf. unfold qs_oldest.
  by rewrite (mbind_Ok _ _ _ _ _ (db_no_fault w Hf)).
Qed.

(** ** Sorting *)

Lemma insert_by_perm {A} (before : A → A → bool) (x : A) (l : list A) :
  insert_by before x l ≡ₚ x :: l.
Proof.
  induction l as [|y l IH]; simpl; [done |].
  destruct (before x y); [done |]. rewrite IH. apply Permutation_swap.
Qed.

Lemma sort_by_perm {A} (before : A → A → bool) (l : list A) :
  sort_by before l ≡ₚ l.
Proof.
  induction l as [|x l IH]; simpl; [done |].
  by rewrite insert_by_perm, IH.
Qed.

Lemma elem_of_sort_by {A} (before : A → A → bool) (l : list A) (x : A) :
  x ∈ sort_by before l ↔ x ∈ l.
Proof. by rewrite sort_by_perm. Qed.

(** Whatever the database makes of ties, a query lists the rows it selects. *)
Lemma order_by_perm (o : ordering) (rows : list SessionTracker) (w : World) :
  order_by o rows w ≡ₚ rows.
Proof. unfold order_by. by rewrite !sort_by_perm. Qed.

Lemma elem_of_order_by (o : ordering) (rows : list SessionTracker) (w : World)
    (x : SessionTracker) :
  x ∈ order_by o rows w ↔ x ∈ rows.
Proof. by rewrite order_by_perm. Qed.

Lemma length_order_by (o : ordering) (rows : list SessionTracker) (w : World) :
  length (order_by o rows w) = length rows.
Proof. apply Permutation_length, order_by_perm. Qed.

Lemma elem_of_filter_bool (q : queryset) (rows : list SessionTracker) r :
  r ∈ List.filter q rows ↔ r ∈ rows ∧ q r = true.
Proof. rewrite !list_elem_of_In. apply filter_In. Qed.

(** ** The cleanup sweep *)

Lemma unique_rejects_map (f : SessionTracker → SessionTracker) p k rows :
  (∀ r, pk (f r) = pk r ∧ session_key (f r) = session_key r) →
  unique_rejects p k (map f rows) = unique_rejects p k rows.
Proof.
  intros Hf. unfold unique_rejects. induction rows as [|r rows IH]; [done |].
  simpl. destruct (Hf r) as [-> ->]. by rewrite IH.
Qed.

Lemma existsb_pk_map (f : SessionTracker → SessionTracker) n rows :
  (∀ r, pk (f r) = pk r) →
  existsb (λ r, Nat.eqb (pk r) n) (map f rows)
  = existsb (λ r, Nat.eqb (pk r) n) rows.
Proof.
  intros Hf. induction rows as [|r rows IH]; [done |].
  simpl. by rewrite Hf, IH.
Qed.

Lemma expire_rows_keeps now pks r :
  pk (if existsb (Nat.eqb (pk r)) pks then expire now r else r) = pk r
  ∧ session_key (if existsb (Nat.eqb (pk r)) pks then expire now r else r)
    = session_key r.
Proof. by destruct (existsb _ _). Qed.

Lemma endable_expire_rows now pks rows s :
  endable now rows s → endable now (expire_rows now pks rows) s.
Proof.
  intros (H1 & H2 & H3 & H4). unfold expire_rows. split_and!; try done.
  - rewrite unique_rejects_map; [done |]. intros r. apply expire_rows_keeps.
  - rewrite existsb_pk_map; [done |]. intros r. apply expire_rows_keeps.
Qed.

Lemma updated_end_session s reason now rows :
  status_of_reason reason = expired →
  updated (end_session_set s reason now) write_logout_status rows
  = expire_rows now [pk s] rows.
Proof.
  intros Hr. unfold updated, expire_rows. apply map_ext. intros r. simpl.
  rewrite orb_false_r. unfold write_logout_status, expire. simpl.
  by rewrite Hr.
Qed.

Lemma expire_rows_cons now p pks rows :
  expire_rows now pks (expire_rows now [p] rows)
  = expire_rows now (p :: pks) rows.
Proof.
  unfold expire_rows. rewrite map_map. apply map_ext. intros r. simpl.
  rewrite orb_false_r. destruct (Nat.eqb (pk r) p); simpl; [| done].
  by destruct (existsb _ pks).
Qed.

Lemma expire_rows_nil now rows : expire_rows now [] rows = rows.
Proof. unfold expire_rows. simpl. apply map_id. Qed.

Lemma end_session_timeout_endable s now w :
  db_faults w = [] → endable now (session_trackers w) s →
  end_session s "timeout" now w
  = (Ok tt, set_trackers (expire_rows now [pk s] (session_trackers w)) w).
Proof.
  intros Hf (H1 & H2 & H3 & H4). unfold end_session.
  rewrite save_succeeds; try done.
  - by rewrite updated_end_session.
  - by apply clean_accepts_end.
Qed.

(** The loop of [SessionTracker.cleanup_expired_sessions]. *)
Lemma for_each_end_session (l : list SessionTracker) now w :
  db_faults w = [] →
  (∀ s, s ∈ l → endable now (session_trackers w) s) →
  for_each l (λ s, end_session s "timeout" now) w
  = (Ok tt, set_trackers (expire_rows now (map pk l) (session_trackers w)) w).
Proof.
  revert w. induction l as [|s l IH]; intros w Hf Hl; simpl.
  - by rewrite expire_rows_nil, set_trackers_same.
  - erewrite mbind_Ok;
      [| apply end_session_timeout_endable;
         [done | apply Hl, list_elem_of_here]].
    rewrite IH; simpl; [| done |].
    + by rewrite expire_rows_cons.
    + intros s' Hs'. apply endable_expire_rows, Hl. by apply list_elem_of_further.
Qed.

Lemma table_ok_endable now rows s :
  table_ok now rows → s ∈ rows → status s = active → endable now rows s.
Proof.
  intros [Hid Hact] Hin Hst. destruct (Hact s Hin Hst) as (_ & Hl & Hd).
  split_and!; try done.
  - unfold unique_rejects. apply not_true_is_false.
    intros (r & Hr & Hb)%existsb_exists.
    apply andb_true_iff in Hb as [Hk%String.eqb_eq Hp%negb_true_iff].
    apply Nat.eqb_neq in Hp. apply Hp.
    rewrite (Hid r s); try done. by apply list_elem_of_In. by right.
  - apply existsb_pk. by exists s.
Qed.

Lemma status_eqb_eq a b : status_eqb a b = true ↔ a = b.
Proof. destruct a, b; simpl; split; congruence. Qed.

(** With primary keys that identify rows, expiring the keys of a query set
    expires the rows of the query set. *)
Lemma expire_rows_filter now (q : queryset) rows (l : list SessionTracker) :
  (∀ r1 r2, r1 ∈ rows → r2 ∈ rows → pk r1 = pk r2 → r1 = r2) →
  (∀ s, s ∈ l ↔ s ∈ rows ∧ q s = true) →
  expire_rows now (map pk l) rows
  = map (λ r, if q r then expire now r else r) rows.
Proof.
  intros Hid Hl. unfold expire_rows. apply map_ext_in. intros r Hr.
  apply list_elem_of_In in Hr.
  destruct (q r) eqn:Hq.
  - replace (existsb _ _) with true; [done |]. symmetry.
    apply existsb_exists. exists (pk r). split; [| apply Nat.eqb_refl].
    apply in_map, list_elem_of_In, Hl. done.
  - replace (existsb _ _) with false; [done |]. symmetry.
    apply not_true_is_false. intros (p & Hp & Heq)%existsb_exists.
    apply Nat.eqb_eq in Heq. apply in_map_iff in Hp as (s & <- & Hs).
    apply list_elem_of_In, Hl in Hs as [Hs Hqs].
    rewrite (Hid r s) in Hq; try done. congruence.
Qed.

Lemma table_ok_sorted_due m now rows o w :
  table_ok now rows →
  ∀ s, s ∈ order_by o (List.filter (due m now) rows) w →
       endable now rows s.
Proof.
  intros Hok s Hs. apply elem_of_order_by, elem_of_filter_bool in Hs as [Hs Hq].
  apply table_ok_endable; try done.
  unfold due in Hq. by apply andb_true_iff in Hq as [Hq%status_eqb_eq _].
Qed.

Lemma expire_rows_due m now rows o w :
  table_ok now rows →
  expire_rows now (map pk (order_by o (List.filter (due m now) rows) w)) rows
  = swept m now rows.
Proof.
  intros [Hid _]. unfold swept, sweep_row. apply expire_rows_filter.
  - intros r1 r2 H1 H2 Hpk. apply Hid; auto.
  - intros s. by rewrite elem_of_order_by, elem_of_filter_bool.
Qed.

(** On a table as the engine keeps it, the query of the model's sweep, which
    also asks for a null [logout_time], selects the same rows as [due]. *)
Lemma filter_due_logout m now rows :
  table_ok now rows →
  List.filter (λ s, status_eqb (status s) active
                    && (last_activity s <? now - minutes m)
                    && bool_decide (logout_time s = None)) rows
  = List.filter (due m now) rows.
Proof.
  intros [_ Hact]. apply filter_ext_in. intros r Hr%list_elem_of_In.
  unfold due. destruct (status_eqb (status r) active) eqn:Hs; [| done].
  apply status_eqb_eq in Hs. destruct (Hact r Hr Hs) as (Hl & _).
  rewrite bool_decide_eq_true_2; [| done]. by rewrite andb_true_r.
Qed.

Lemma cleanup_expired_sessions_rows m now w :
  db_faults w = [] → table_ok now (session_trackers w) →
  ∃ n, cleanup_expired_sessions m now w
       = (Ok n, set_trackers (swept m now (session_trackers w)) w).
Proof.
  intros Hf Hok. unfold cleanup_expired_sessions.
  erewrite mbind_Ok; [| by apply qs_list_no_fault].
  rewrite (filter_due_logout m now _ Hok).
  erewrite mbind_Ok;
    [| apply for_each_end_session; [done | by apply table_ok_sorted_due]].
  rewrite (expire_rows_due m now _ _ _ Hok). eauto.
Qed.

(** The transport session of an ended tracker is deleted when it exists. *)
Lemma delete_transport_session {A} key (a b : A) w :
  db_faults w = [] →
  ∃ w',
    try_except_DoesNotExist
      (django_session ← Session_get key;
       Session_delete django_session ;; mret a) (mret b) w
    = (Ok (match django_sessions w !! key with Some _ => a | None => b end),
       w')
    ∧ session_trackers w' = session_trackers w ∧ db_faults w' = []
    ∧ cache w' = cache w ∧ next_pk w' = next_pk w
    ∧ django_sessions w' = delete key (django_sessions w).
Proof.
  intros Hf.
  unfold try_except_DoesNotExist, Session_get, Session_delete, mbind, M_bind,
    bind, get_world, modify, raise, mret, M_ret, ret.
  rewrite (db_no_fault w Hf).
  destruct (django_sessions w !! key) eqn:E.
  - rewrite (db_no_fault w Hf). eexists. split; [done |]. by simpl.
  - eexists. split; [done |]. split_and!; try done.
    by rewrite delete_id.
Qed.

(** The loop of [SessionManager.cleanup_expired_sessions]. *)
Lemma cleanup_loop_rows (l : list SessionTracker) c d now w :
  db_faults w = [] →
  (∀ s, s ∈ l → endable now (session_trackers w) s) →
  ∃ d' w',
    SessionManager.cleanup_loop l c d now w = (Ok ((c + length l)%nat, d'), w')
    ∧ session_trackers w' = expire_rows now (map pk l) (session_trackers w)
    ∧ db_faults w' = [].
Proof.
  revert c d w. induction l as [|s l IH]; intros c d w Hf Hl; simpl.
  - exists d, w. rewrite expire_rows_nil, Nat.add_0_r. done.
  - erewrite mbind_Ok;
      [| apply end_session_timeout_endable;
         [done | apply Hl, list_elem_of_here]].
    destruct (delete_transport_session (session_key s) 1%nat 0%nat
                (set_trackers (expire_rows now [pk s] (session_trackers w)) w))
      as (w1 & Heq & Hrows & Hf1 & _); [done |].
    erewrite mbind_Ok; [| apply Heq].
    destruct (IH (S c) (d + match django_sessions
                   (set_trackers (expire_rows now [pk s] (session_trackers w)) w)
                   !! session_key s with Some _ => 1 | None => 0 end)%nat w1)
      as (d' & w' & Heq' & Hrows' & Hf'); [done | |].
    + intros s' Hs'. rewrite Hrows. simpl.
      apply endable_expire_rows, Hl. by apply list_elem_of_further.
    + exists d', w'. rewrite Heq'. split_and!; [| | done].
      * do 3 f_equal. lia.
      * rewrite Hrows', Hrows. simpl. apply expire_rows_cons.
Qed.

Lemma manager_cleanup_rows settings m now w :
  db_faults w = [] → table_ok now (session_trackers w) →
  ∃ stats w',
    SessionManager.cleanup_expired_sessions settings (Some m) now w
    = (Ok stats, w')
    ∧ session_trackers w' = swept m now (session_trackers w)
    ∧ db_faults w' = [].
Proof.
  intros Hf Hok. unfold SessionManager.cleanup_expired_sessions. simpl.
  destruct (cleanup_loop_rows
              (order_by by_login_time_desc
                 (List.filter (due m now) (session_trackers w)) w)
              0 0 now w) as (d' & w1 & Heq & Hrows & Hf1);
    [done | by apply table_ok_sorted_due |].
  rewrite (expire_rows_due m now _ _ _ Hok) in Hrows.
  eexists _, _. split.
  - apply try_except_Ok. erewrite mbind_Ok.
    2:{ unfold atomic. erewrite mbind_Ok; [| by apply qs_list_no_fault].
        fold (due m now). by rewrite Heq. }
    simpl.
    unfold SessionManager._clear_all_session_caches, mbind, M_bind, bind,
      get_world, modify, mret, M_ret, ret.
    rewrite (db_no_fault w1 Hf1). simpl. rewrite (db_no_fault w1 Hf1). done.
  - done.
Qed.

Lemma due_expire m now r : due m now (expire now r) = false.
Proof. done. Qed.

Lemma sweep_row_idempotent m now r :
  sweep_row m now (sweep_row m now r) = sweep_row m now r.
Proof.
  unfold sweep_row. destruct (due m now r) eqn:E.
  - by rewrite due_expire.
  - by rewrite E.
Qed.

Lemma swept_idempotent m now rows :
  swept m now (swept m now rows) = swept m now rows.
Proof.
  unfold swept. rewrite map_map. apply map_ext. intros r.
  apply sweep_row_idempotent.
Qed.

Lemma sweep_row_keeps m now r :
  pk (sweep_row m now r) = pk r
  ∧ session_key (sweep_row m now r) = session_key r.
Proof. unfold sweep_row. by destruct (due m now r). Qed.

Lemma table_ok_swept m now rows :
  table_ok now rows → table_ok now (swept m now rows).
Proof.
  intros [Hid Hact]. split.
  - intros r1' r2' (r1 & -> & H1)%list_elem_of_fmap
      (r2 & -> & H2)%list_elem_of_fmap Heq.
    destruct (sweep_row_keeps m now r1) as [Ep1 Ek1].
    destruct (sweep_row_keeps m now r2) as [Ep2 Ek2].
    rewrite Ep1, Ep2, Ek1, Ek2 in Heq. by rewrite (Hid r1 r2).
  - intros r' (r & -> & Hr)%list_elem_of_fmap. unfold sweep_row.
    destruct (due m now r); [done |]. by apply Hact.
Qed.

Lemma minutes_lt (a b : Z) : a < b → minutes a < minutes b.
Proof. unfold minutes, minute, second. lia. Qed.

(** C8. On a table as the engine keeps it and with a database that answers,
    the sweep of [SessionTracker] and the sweep of [SessionManager] with a
    timeout of [m] minutes both turn the table into [swept m now]: the rows
    that are active with a last activity before the cutoff get status
    [expired] and [logout_time = now], every other row stays as it is. With 30
    minutes a session idle for 45 minutes is expired and one idle for 5
    minutes stays active. A second sweep at the same instant leaves the table
    as the first one made it. *)
Theorem cleanup_sweep_spec (settings : Settings) (m : Z) (now : datetime)
    (w : World) :
  db_faults w = [] →
  table_ok now (session_trackers w) →
  let w1 := (cleanup_expired_sessions m now w).2 in
  let w2 := (SessionManager.cleanup_expired_sessions settings (Some m) now w).2 in
  session_trackers w1 = swept m now (session_trackers w)
  ∧ session_trackers w2 = swept m now (session_trackers w)
  ∧ (∀ r, status r = active → last_activity r < now - minutes m →
          sweep_row m now r = set_logout_status (Some now) expired r)
  ∧ (∀ r, status r = active → last_activity r = now - minutes 45 →
          sweep_row 30 now r = set_logout_status (Some now) expired r)
  ∧ (∀ r, last_activity r = now - minutes 5 → sweep_row 30 now r = r)
  ∧ (∀ r, sweep_row m now r ≠ r →
          status r = active ∧ last_activity r < now - minutes m)
  ∧ session_trackers (cleanup_expired_sessions m now w1).2
    = session_trackers w1
  ∧ session_trackers
      (SessionManager.cleanup_expired_sessions settings (Some m) now w2).2
    = session_trackers w2.
Proof.
  intros Hf Hok w1 w2.
  destruct (cleanup_expired_sessions_rows m now w Hf Hok) as (n & Hmodel).
  destruct (manager_cleanup_rows settings m now w Hf Hok)
    as (stats & w2' & Hmanager & Hrows2 & Hf2).
  assert (Hw1 : w1 = set_trackers (swept m now (session_trackers w)) w)
    by (unfold w1; by rewrite Hmodel).
  assert (Hw2 : w2 = w2') by (unfold w2; by rewrite Hmanager).
  split_and!.
  - by rewrite Hw1.
  - by rewrite Hw2.
  - intros r Hs Hl. unfold sweep_row, due. rewrite Hs. simpl.
    by replace (_ <? _) with true by (symmetry; by apply Z.ltb_lt).
  - intros r Hs Hl. unfold sweep_row, due. rewrite Hs, Hl. simpl.
    replace (_ <? _) with true; [done |]. symmetry. apply Z.ltb_lt.
    pose proof (minutes_lt 30 45). lia.
  - intros r Hl. unfold sweep_row, due. rewrite Hl.
    replace (_ <? _) with false; [by rewrite andb_false_r |]. symmetry.
    apply Z.ltb_ge. pose proof (minutes_lt 5 30). lia.
  - intros r Hne. unfold sweep_row in Hne.
    destruct (due m now r) eqn:E; [| done]. unfold due in E.
    apply andb_true_iff in E as [Hs%status_eqb_eq Hl%Z.ltb_lt]. done.
  - destruct (cleanup_expired_sessions_rows m now w1) as (n' & Heq).
    + by rewrite Hw1.
    + rewrite Hw1. simpl. by apply table_ok_swept.
    + rewrite Heq. simpl. rewrite Hw1. simpl. apply swept_idempotent.
  - destruct (manager_cleanup_rows settings m now w2)
      as (stats' & w3 & Heq & Hrows3 & _).
    + by rewrite Hw2.
    + rewrite Hw2, Hrows2. by apply table_ok_swept.
    + rewrite Heq. simpl. rewrite Hrows3, Hw2, Hrows2. apply swept_idempotent.
Qed.

(** ** Failures of the store in the middleware *)

Lemma never_raises_ret {A} (a : A) : never_raises (mret a : M A).
Proof. intros w. by eexists _, _. Qed.

Lemma never_raises_bind {A B} (m : M A) (k : A → M B) :
  never_raises m → (∀ a, never_raises (k a)) → never_raises (m ≫= k).
Proof.
  intros Hm Hk w. destruct (Hm w) as (a & w' & Heq).
  rewrite (mbind_Ok _ _ _ _ _ Heq). apply Hk.
Qed.

Lemma never_raises_try_except {A} (m : M A) (h : exn → M A) :
  (∀ e, never_raises (h e)) → never_raises (try_except m h).
Proof.
  intros Hh w. unfold try_except. destruct (m w) as [[a | e] w'].
  - by eexists _, _.
  - apply Hh.
Qed.

Lemma process_request_never_raises settings request now :
  never_raises
    (SessionValidationMiddleware.process_request settings request now).
Proof.
  unfold SessionValidationMiddleware.process_request.
  destruct (SessionValidationMiddleware._is_exempt_url _);
    [apply never_raises_ret |].
  destruct (negb _); [apply never_raises_ret |].
  apply never_raises_bind.
  { apply never_raises_try_except. intros _. apply never_raises_ret. }
  intros [tracker |]; [| apply never_raises_ret].
  destruct (SessionValidationMiddleware._is_session_expired _ _ _).
  { apply never_raises_try_except. intros _. apply never_raises_ret. }
  apply never_raises_bind.
  { apply never_raises_try_except. intros _. apply never_raises_ret. }
  intros [|].
  { apply never_raises_try_except. intros _. apply never_raises_ret. }
  apply never_raises_bind.
  { apply never_raises_try_except. intros _. apply never_raises_ret. }
  intros _. apply never_raises_bind; [| intros _; apply never_raises_ret].
  apply never_raises_try_except. intros _. apply never_raises_ret.
Qed.

Lemma db_fault (w : World) fs :
  db_faults w = true :: fs → db w = (Raise DatabaseError, set_db_faults fs w).
Proof. unfold db. by intros ->. Qed.

(** C4, as the code has it. An error of the store during the concurrency
    check is caught, not passed on: [process_request] never raises; when the
    query of [_has_concurrent_sessions] fails the answer is [False], no
    concurrent session; when the count of [_handle_concurrent_session] fails
    the answer is [None], the request goes on. *)
Theorem store_failure_is_swallowed (settings : Settings)
    (request : SessionValidationMiddleware.Request) (now : datetime)
    (w : World) :
  never_raises (SessionValidationMiddleware.process_request settings request now)
  ∧ (∀ u key fs,
       db_faults w = true :: fs →
       SessionValidationMiddleware._has_concurrent_sessions u key w
       = (Ok false, set_db_faults fs w))
  ∧ (∀ tracker fs,
       db_faults w = true :: fs →
       is_authenticated (SessionValidationMiddleware.request_user request)
       = true →
       cache_get (session_count (cache w))
         (user_id (SessionValidationMiddleware.request_user request)) now
       = None →
       SessionValidationMiddleware._handle_concurrent_session settings request
         tracker now w
       = (Ok None, set_db_faults fs w)).
Proof.
  split_and!.
  - apply process_request_never_raises.
  - intros u key fs Hf.
    unfold SessionValidationMiddleware._has_concurrent_sessions.
    erewrite try_except_Raise; [done |].
    unfold qs_exists. by apply mbind_Raise, db_fault.
  - intros tracker fs Hf Hauth Hcache.
    unfold SessionValidationMiddleware._handle_concurrent_session.
    erewrite try_except_Raise; [done |].
    apply mbind_Raise.
    unfold SessionManager.handle_concurrent_session_attempt.
    apply mbind_Raise. unfold SessionManager.can_create_new_session.
    rewrite Hauth. simpl. apply mbind_Raise.
    unfold SessionManager.get_session_count_for_user.
    unfold mbind at 1, M_bind, bind, get_world. rewrite Hcache.
    apply mbind_Raise. unfold qs_count. by apply mbind_Raise, db_fault.
Qed.

Lemma store_failure_is_swallowed_witness :
  let w := set_db_faults [true] (world_of two_sessions) in
  let request := request_of alice "new_session" in
  SessionValidationMiddleware._has_concurrent_sessions alice "new_session" w
  = (Ok false, set_db_faults [] w)
  ∧ SessionValidationMiddleware._handle_concurrent_session default_settings
      request (fresh_tracker 2 7 "new_session" 0) 10 w
    = (Ok None, set_db_faults [] w).
Proof.
  intros w request.
  destruct (store_failure_is_swallowed default_settings request 10 w)
    as (_ & Hcheck & Hhandle).
  split.
  - apply Hcheck. reflexivity.
  - apply Hhandle; reflexivity.
Defined.

(** C4, as it is stated, fails. The user has an active session and asks for
    a second one. With a store that answers the request is refused and the
    new session ends with status [violation]. With a store that fails at the
    concurrency query, or at the count that follows it, or from the
    concurrency query on, the request goes on with no error and both sessions
    stay active. *)
Lemma store_failure_allows_session :
  let request := request_of alice "new_session" in
  let process := SessionValidationMiddleware.process_request default_settings
                   request 10 in
  let up := world_of two_sessions in
  let down_at_check := set_db_faults [false; true] up in
  let down_at_count := set_db_faults [false; false; true] up in
  let down_from_check := set_db_faults (false :: repeat true 20) up in
  (process up).1 = Ok (Some SessionValidationMiddleware.redirect_login)
  ∧ map status (session_trackers (process up).2) = [active; violation]
  ∧ (process down_at_check).1 = Ok None
  ∧ map status (session_trackers (process down_at_check).2) = [active; active]
  ∧ (process down_at_count).1 = Ok None
  ∧ map status (session_trackers (process down_at_count).2) = [active; active]
  ∧ (process down_from_check).1 = Ok None
  ∧ map status (session_trackers (process down_from_check).2)
    = [active; active].
Proof. by vm_compute. Qed.

(** ** The replace_oldest policy *)

Lemma head_insert_by {A} (before : A → A → bool) (x : A) (l : list A) :
  head (insert_by before x l)
  = match head l with
    | None => Some x
    | Some y => if before x y then Some x else Some y
    end.
Proof. destruct l as [|y l]; simpl; [done |]. by destruct (before x y). Qed.

Lemma head_sort_by_nil {A} (before : A → A → bool) (l : list A) :
  head (sort_by before l) = None → l = [].
Proof.
  intros H. destruct (sort_by before l) eqn:E; [| done].
  apply Permutation_nil. by rewrite <- E, sort_by_perm.
Qed.

(** The head of a list sorted on the login time is the first element, in the
    order of the list, among those with the smallest login time. *)
Lemma head_oldest_first (l : list SessionTracker) (s : SessionTracker) :
  head (sort_by oldest_first l) = Some s →
  ∃ l1 l2, l = (l1 ++ s :: l2)%list
           ∧ (∀ r, r ∈ l1 → login_time s < login_time r)
           ∧ (∀ r, r ∈ l2 → login_time s ≤ login_time r).
Proof.
  revert s. induction l as [|x l IH]; intros s; simpl; [done |].
  rewrite head_insert_by.
  destruct (head (sort_by oldest_first l)) as [y |] eqn:E.
  - destruct (IH y eq_refl) as (l1 & l2 & -> & H1 & H2).
    unfold oldest_first. destruct (login_time x <=? login_time y) eqn:Hxy.
    + intros [= <-]. apply Z.leb_le in Hxy. exists [], (l1 ++ y :: l2)%list.
      split_and!; [done | by intros r Hr%elem_of_nil |].
      intros r [Hr | Hr]%elem_of_app.
      * specialize (H1 r Hr). lia.
      * apply elem_of_cons in Hr as [-> | Hr]; [done |].
        specialize (H2 r Hr). lia.
    + intros [= <-]. apply Z.leb_gt in Hxy. exists (x :: l1), l2.
      split_and!; [done | | done].
      intros r [-> | Hr]%elem_of_cons; [done | by apply H1].
  - apply head_sort_by_nil in E as ->. intros [= <-]. exists [], [].
    split_and!; [done | |]; by intros r Hr%elem_of_nil.
Qed.

(** [order_by('login_time').first()] is a row with the smallest login time
    among the rows selected, whatever the database makes of ties. *)
Lemma head_order_by_login_time (rows : list SessionTracker) (w : World)
    (s : SessionTracker) :
  head (order_by by_login_time rows w) = Some s →
  s ∈ rows ∧ ∀ r, r ∈ rows → login_time s ≤ login_time r.
Proof.
  unfold order_by. simpl. intros H.
  destruct (head_oldest_first _ _ H) as (l1 & l2 & Hl & H1 & H2).
  assert (Hin : ∀ r, r ∈ rows ↔ r ∈ (l1 ++ s :: l2)%list).
  { intros r. by rewrite <- Hl, elem_of_sort_by. }
  split.
  - apply Hin, elem_of_app. right. apply list_elem_of_here.
  - intros r [Hr | Hr]%Hin%elem_of_app.
    + specialize (H1 r Hr). lia.
    + apply elem_of_cons in Hr as [-> | Hr]; [done | by apply H2].
Qed.

Lemma head_order_by_some (o : ordering) (rows : list SessionTracker)
    (w : World) :
  rows ≠ [] → ∃ x, head (order_by o rows w) = Some x.
Proof.
  intros Hl. destruct (head (order_by o rows w)) eqn:E; [eauto |].
  destruct (order_by o rows w) eqn:E'; [| done].
  destruct Hl. apply Permutation_nil. by rewrite <- E', order_by_perm.
Qed.

(** Without faults the count of active sessions is an answer that leaves the
    tables alone. *)
Lemma can_create_new_session_world settings u now w :
  db_faults w = [] →
  ∃ b w',
    SessionManager.can_create_new_session settings (Some u) now w = (Ok b, w')
    ∧ session_trackers w' = session_trackers w ∧ db_faults w' = []
    ∧ django_sessions w' = django_sessions w ∧ db_ties w' = db_ties w.
Proof.
  intros Hf. unfold SessionManager.can_create_new_session.
  destruct (negb (is_authenticated u)); [by eexists _, _ |].
  unfold SessionManager.get_session_count_for_user, mbind, M_bind, bind,
    get_world, modify, mret, M_ret, ret.
  destruct (cache_get _ _ _); [by eexists _, _ |].
  rewrite qs_count_no_fault; [| done]. by eexists _, _.
Qed.

Lemma delete_transport_session_pass key w :
  db_faults w = [] →
  ∃ w',
    try_except_DoesNotExist
      (django_session ← Session_get key; Session_delete django_session)
      (mret tt) w
    = (Ok tt, w')
    ∧ session_trackers w' = session_trackers w ∧ db_faults w' = []
    ∧ cache w' = cache w
    ∧ django_sessions w' = delete key (django_sessions w).
Proof.
  intros Hf.
  unfold try_except_DoesNotExist, Session_get, Session_delete, mbind, M_bind,
    bind, get_world, modify, raise, mret, M_ret, ret.
  rewrite (db_no_fault w Hf).
  destruct (django_sessions w !! key) eqn:E.
  - rewrite (db_no_fault w Hf). eexists. split; [done |]. by simpl.
  - eexists. split; [done |]. split_and!; try done. by rewrite delete_id.
Qed.

Lemma active_for_user_status u s :
  SessionManager.get_active_sessions_for_user u s = true → status s = active.
Proof.
  unfold SessionManager.get_active_sessions_for_user.
  intros [[_ H%status_eqb_eq]%andb_true_iff _]%andb_true_iff. done.
Qed.

(** C2, as the code has it. Under [replace_oldest], for a user at the session
    limit who has an active session, the engine ends an active session of the
    user with the smallest login time: that session gets status [inactive] and
    [logout_time = now], its transport session is deleted, the new session is
    permitted, and every other row stays as it is. The query orders by the
    login time alone. An active session that logged in before every other one
    of the user is the one ended; among several with the smallest login time
    the database decides, and no order on session keys is used. *)
Theorem replace_oldest_ends_an_oldest (settings : Settings) (u : User)
    (key : string) (now : datetime) (w : World) :
  CONCURRENT_SESSION_POLICY settings = "replace_oldest" →
  db_faults w = [] →
  table_ok now (session_trackers w) →
  (SessionManager.can_create_new_session settings (Some u) now w).1
  = Ok false →
  List.filter (SessionManager.get_active_sessions_for_user u)
    (session_trackers w) ≠ [] →
  let active_of_u :=
    λ r, r ∈ session_trackers w
         ∧ SessionManager.get_active_sessions_for_user u r = true in
  ∃ s w',
    active_of_u s
    ∧ (∀ r, active_of_u r → login_time s ≤ login_time r)
    ∧ (∀ a, active_of_u a →
            (∀ r, active_of_u r → r ≠ a → login_time a < login_time r) →
            s = a)
    ∧ SessionManager.handle_concurrent_session_attempt settings u key now w
      = (Ok (true, "Oldest session terminated, new session allowed"), w')
    ∧ session_trackers w'
      = map (λ r, if Nat.eqb (pk r) (pk s)
                  then set_logout_status (Some now) inactive r else r)
            (session_trackers w)
    ∧ (∀ r, r ∈ session_trackers w → pk r = pk s → r = s)
    ∧ django_sessions w' !! session_key s = None.
Proof.
  intros Hpolicy Hf Hok Hlimit Hne active_of_u.
  destruct (can_create_new_session_world settings u now w Hf)
    as (b & w1 & Hcan & Hrows1 & Hf1 & Hdj1 & Hties1).
  rewrite Hcan in Hlimit. simpl in Hlimit. injection Hlimit as ->.
  destruct (head_order_by_some by_login_time _ w Hne) as (s & Hhead).
  destruct (head_order_by_login_time _ _ _ Hhead) as [Hs Hmin].
  apply elem_of_filter_bool in Hs as [Hin Hact].
  assert (Hend : endable now (session_trackers w1) s).
  { rewrite Hrows1. apply table_ok_endable; try done.
    by apply active_for_user_status in Hact. }
  destruct Hend as (He1 & He2 & He3 & He4).
  destruct (delete_transport_session_pass (session_key s)
              (set_trackers
                 (updated (end_session_set s "new_session_limit" now)
                    write_logout_status (session_trackers w1)) w1))
    as (w2 & Hdel & Hrows2 & Hf2 & Hc2 & Hdj2); [done |].
  exists s. eexists. split_and!.
  - done.
  - intros r [Hr Hq]. apply Hmin. by apply elem_of_filter_bool.
  - intros a [Ha Hqa] Hfirst. destruct Hok as [Hid _].
    destruct (decide (pk s = pk a)) as [Hpk | Hpk]; [apply Hid; auto |].
    assert (s ≠ a) by congruence.
    assert (login_time a < login_time s) by (by apply Hfirst).
    assert (login_time s ≤ login_time a)
      by (by apply Hmin, elem_of_filter_bool).
    lia.
  - unfold SessionManager.handle_concurrent_session_attempt.
    erewrite mbind_Ok; [| apply Hcan]. rewrite Hpolicy. simpl.
    erewrite mbind_Ok; cycle 1.
    unfold SessionManager.end_oldest_session_for_user.
    apply try_except_Ok.
    erewrite mbind_Ok; [| by apply qs_oldest_no_fault].
    unfold order_by in *. rewrite Hrows1, Hties1, Hhead.
    erewrite mbind_Ok.
    2:{ unfold end_session. apply save_succeeds; try done.
        by apply clean_accepts_end. }
    erewrite mbind_Ok; [| apply Hdel].
    unfold SessionManager._clear_user_session_cache, mbind, M_bind, bind,
      modify, mret, M_ret, ret. done.
    done.
  - simpl. by rewrite Hrows2, Hrows1.
  - intros r Hr Hpk. destruct Hok as [Hid _]. apply Hid; auto.
  - simpl. rewrite Hdj2. apply lookup_delete_eq.
Qed.

Ltac table_ok_two :=
  split;
  [ intros r1 r2 H1 H2 Heq;
    rewrite !elem_of_cons, elem_of_nil in H1, H2;
    destruct H1 as [-> | [-> | []]], H2 as [-> | [-> | []]]; try done;
    destruct Heq as [Heq | Heq]; vm_compute in Heq; discriminate
  | intros r Hr Hs;
    rewrite !elem_of_cons, elem_of_nil in Hr;
    destruct Hr as [-> | [-> | []]]; (split_and!; [done | by vm_compute | done]) ].

Lemma replace_oldest_ends_an_oldest_witness :
  let w := with_transport_sessions (world_of sessions_A_B) in
  let active_of_alice :=
    λ r, r ∈ session_trackers w
         ∧ SessionManager.get_active_sessions_for_user alice r = true in
  ∃ s w',
    active_of_alice s
    ∧ (∀ r, active_of_alice r → login_time s ≤ login_time r)
    ∧ (∀ a, active_of_alice a →
            (∀ r, active_of_alice r → r ≠ a → login_time a < login_time r) →
            s = a)
    ∧ SessionManager.handle_concurrent_session_attempt replace_oldest_settings
        alice "C" 30 w
      = (Ok (true, "Oldest session terminated, new session allowed"), w')
    ∧ session_trackers w'
      = map (λ r, if Nat.eqb (pk r) (pk s)
                  then set_logout_status (Some 30) inactive r else r)
            (session_trackers w)
    ∧ (∀ r, r ∈ session_trackers w → pk r = pk s → r = s)
    ∧ django_sessions w' !! session_key s = None.
Proof.
  intros w.
  apply (replace_oldest_ends_an_oldest replace_oldest_settings alice "C" 30 w).
  - reflexivity.
  - reflexivity.
  - change (table_ok 30 [fresh_tracker 1 7 "B" 20; fresh_tracker 2 7 "A" 10]).
    table_ok_two.
  - by vm_compute.
  - by vm_compute.
Defined.

(** The example of the specification: A logged in before B, a third session
    is asked for, A is ended and B stays active. *)
Example replace_oldest_A_B :
  let w := with_transport_sessions (world_of sessions_A_B) in
  let r := SessionManager.handle_concurrent_session_attempt
             replace_oldest_settings alice "C" 30 w in
  r.1 = Ok (true, "Oldest session terminated, new session allowed")
  ∧ map (λ s, (session_key s, status s, logout_time s)) (session_trackers r.2)
    = [("B", active, None); ("A", inactive, Some 30)]
  ∧ django_sessions r.2 !! "A" = None
  ∧ django_sessions r.2 !! "B" = Some 1000000.
Proof. by vm_compute. Qed.

(** C2, as it is stated, fails on its tie-break. Two active sessions of the
    user have the same login time; [session_a] has the lower key and is the
    second row. On a database that lists tied rows in the order of the table
    the engine ends [session_b] and [session_a] stays active. *)
Lemma replace_oldest_ignores_session_key :
  let w := with_transport_sessions (world_of tied_sessions) in
  let r := SessionManager.handle_concurrent_session_attempt
             replace_oldest_settings alice "new_session" 30 w in
  map (λ s, (session_key s, login_time s, status s)) (session_trackers w)
  = [("session_b", 0, active); ("session_a", 0, active)]
  ∧ String.ltb "session_a" "session_b" = true
  ∧ r.1 = Ok (true, "Oldest session terminated, new session allowed")
  ∧ map (λ s, (session_key s, status s)) (session_trackers r.2)
    = [("session_b", inactive); ("session_a", active)].
Proof. by vm_compute. Qed.

(** The tie of [tied_sessions] is the database's to break: where it lists the
    second row first, [session_a] is ended and [session_b] stays active. *)
Example replace_oldest_tie_other_database :
  let w := set_db_ties last_row_first
             (with_transport_sessions (world_of tied_sessions)) in
  let r := SessionManager.handle_concurrent_session_attempt
             replace_oldest_settings alice "new_session" 30 w in
  r.1 = Ok (true, "Oldest session terminated, new session allowed")
  ∧ map (λ s, (session_key s, status s)) (session_trackers r.2)
    = [("session_b", active); ("session_a", inactive)].
Proof. by vm_compute. Qed.

Lemma cleanup_sweep_spec_witness :
  let w := world_of [idle_45; idle_5] in
  session_trackers (cleanup_expired_sessions 30 (minutes 60) w).2
  = swept 30 (minutes 60) [idle_45; idle_5]
  ∧ session_trackers
      (SessionManager.cleanup_expired_sessions default_settings (Some 30)
         (minutes 60) w).2
    = swept 30 (minutes 60) [idle_45; idle_5].
Proof.
  intros w.
  destruct (cleanup_sweep_spec default_settings 30 (minutes 60) w)
    as (H1 & H2 & _).
  - reflexivity.
  - change (table_ok (minutes 60) [idle_45; idle_5]). table_ok_two.
  - by split.
Defined.

(** The sweep of the tests: of two active sessions, 45 and 5 minutes idle,
    the first ends [expired], the second stays [active], under both sweeps. *)
Example cleanup_sweep_45_5 :
  let w := world_of [idle_45; idle_5] in
  map (λ s, (status s, logout_time s))
    (session_trackers (cleanup_expired_sessions 30 (minutes 60) w).2)
  = [(expired, Some (minutes 60)); (active, None)]
  ∧ map (λ s, (status s, logout_time s))
      (session_trackers
         (SessionManager.cleanup_expired_sessions default_settings (Some 30)
            (minutes 60) w).2)
    = [(expired, Some (minutes 60)); (active, None)].
Proof. by vm_compute. Qed.

(** ** The deny policy *)

Lemma dims_refl r : dims r r.
Proof. by split_and!. Qed.

Lemma dims_trans r1 r2 r3 : dims r1 r2 → dims r2 r3 → dims r1 r3.
Proof.
  intros (H1 & H2 & H3 & H4) (H1' & H2' & H3' & H4').
  split_and!; [congruence | congruence | congruence | auto].
Qed.

Lemma Forall2_dims_refl rows : Forall2 dims rows rows.
Proof. induction rows; constructor; [apply dims_refl | done]. Qed.

Lemma Forall2_dims_trans l1 l2 l3 :
  Forall2 dims l1 l2 → Forall2 dims l2 l3 → Forall2 dims l1 l3.
Proof.
  intros H12. revert l3. induction H12; intros l3 H23; inversion H23; subst.
  - constructor.
  - constructor; [by eapply dims_trans | auto].
Qed.

Lemma calm_refl w : db_faults w = [] → calm w w.
Proof. intros Hf. split_and!; [done | apply Forall2_dims_refl | done]. Qed.

Lemma calm_trans w1 w2 w3 : calm w1 w2 → calm w2 w3 → calm w1 w3.
Proof.
  intros (H1 & H2 & H3) (H1' & H2' & H3').
  split_and!; [done | by eapply Forall2_dims_trans | congruence].
Qed.

Lemma calms_ret {A} (a : A) : calms (mret a : M A).
Proof. intros w Hf. by apply calm_refl. Qed.

Lemma calms_raise {A} (e : exn) : calms (raise e : M A).
Proof. intros w Hf. by apply calm_refl. Qed.

Lemma calms_bind {A B} (m : M A) (k : A → M B) :
  calms m → (∀ a, calms (k a)) → calms (m ≫= k).
Proof.
  intros Hm Hk w Hf. specialize (Hm w Hf).
  unfold mbind, M_bind, bind. destruct (m w) as [[a | e] w']; simpl in *.
  - eapply calm_trans; [done |]. apply Hk. apply Hm.
  - done.
Qed.

Lemma calms_try_except {A} (m : M A) (h : exn → M A) :
  calms m → (∀ e, calms (h e)) → calms (try_except m h).
Proof.
  intros Hm Hh w Hf. specialize (Hm w Hf).
  unfold try_except. destruct (m w) as [[a | e] w']; simpl in *.
  - done.
  - eapply calm_trans; [done |]. apply Hh. apply Hm.
Qed.

Lemma calms_try_except_DoesNotExist {A} (m h : M A) :
  calms m → calms h → calms (try_except_DoesNotExist m h).
Proof.
  intros Hm Hh w Hf. specialize (Hm w Hf).
  unfold try_except_DoesNotExist. destruct (m w) as [[a | []] w']; simpl in *;
    try done.
  eapply calm_trans; [done |]. apply Hh. apply Hm.
Qed.

Lemma calms_db : calms db.
Proof. intros w Hf. rewrite db_no_fault; [| done]. by apply calm_refl. Qed.

Lemma calms_get_world : calms get_world.
Proof. intros w Hf. by apply calm_refl. Qed.

Lemma calms_modify (f : World → World) :
  (∀ w, db_faults w = [] → calm w (f w)) → calms (modify f).
Proof. intros Hf w Hw. by apply Hf. Qed.

Create HintDb calms.

#[local] Hint Resolve calms_ret calms_raise calms_db calms_get_world : calms.

(** Walks through binds and handlers; the leaves are closed from the hint
    database. *)
Ltac calms_auto :=
  repeat first
    [ solve [auto 1 with calms nocore]
    | apply calms_bind; [| intros ?]
    | apply calms_try_except; [| intros ?]
    | apply calms_try_except_DoesNotExist
    | match goal with |- calms (if ?b then _ else _) => destruct b end
    | match goal with |- calms (match ?x with _ => _ end) => destruct x end ].

Lemma calms_qs_list q : calms (qs_list q).
Proof. unfold qs_list. calms_auto. Qed.

Lemma calms_qs_count q : calms (qs_count q).
Proof. unfold qs_count. calms_auto. Qed.

Lemma calms_qs_exists q : calms (qs_exists q).
Proof. unfold qs_exists. calms_auto. Qed.

Lemma Forall2_dims_updated self write rows :
  (∀ r, dims r (write self r)) → Forall2 dims rows (updated self write rows).
Proof.
  intros Hw. unfold updated. induction rows as [|r rows IH]; simpl;
    constructor; [| done].
  destruct (Nat.eqb _ _); [apply Hw | apply dims_refl].
Qed.

Lemma calms_save self write :
  (∀ r, dims r (write self r)) → calms (save self write).
Proof.
  intros Hw w Hf. rewrite save_cases, Hf, (tick_no_fault w Hf).
  destruct (clean_rejects self || _); [by apply calm_refl |].
  destruct (existsb _ _); [| by apply calm_refl].
  split_and!; [done | by apply Forall2_dims_updated | done].
Qed.

Lemma calms_end_session self reason now : calms (end_session self reason now).
Proof.
  apply calms_save. intros r. split_and!; try done.
  unfold get_active_sessions. simpl. intros H.
  apply andb_true_iff in H as [H%status_eqb_eq _].
  by apply status_of_reason_not_active in H.
Qed.

Lemma calms_add_violation self ty details now :
  calms (add_violation self ty details now).
Proof. apply calms_save. intros r. by split_and!. Qed.

Lemma calms_update_activity self now : calms (update_activity self now).
Proof. apply calms_save. intros r. by split_and!. Qed.

(** A change of the transport sessions or of the other cache entries. *)
Lemma calms_modify_other (f : World → World) :
  (∀ w, db_faults (f w) = db_faults w
        ∧ session_trackers (f w) = session_trackers w
        ∧ session_count (cache (f w)) = session_count (cache w)) →
  calms (modify f).
Proof.
  intros Hf. apply calms_modify. intros w Hw.
  destruct (Hf w) as (H1 & H2 & H3).
  split_and!; [congruence | rewrite H2; apply Forall2_dims_refl | done].
Qed.

Lemma calms_Session_delete key : calms (Session_delete key).
Proof.
  unfold Session_delete. apply calms_bind; [apply calms_db | intros _].
  by apply calms_modify_other.
Qed.

Lemma calms_logout request :
  calms (SessionValidationMiddleware.logout request).
Proof. apply calms_Session_delete. Qed.

Lemma calms_create_session_notification u tracker ty now :
  calms (SessionManager.create_session_notification u tracker ty now).
Proof. by apply calms_modify_other. Qed.

#[local] Hint Resolve calms_qs_list calms_qs_count calms_qs_exists
  calms_end_session calms_add_violation calms_update_activity
  calms_Session_delete calms_logout calms_create_session_notification : calms.

Lemma calms_handle_session_timeout request tracker now :
  calms (SessionValidationMiddleware._handle_session_timeout request tracker
           now).
Proof.
  unfold SessionValidationMiddleware._handle_session_timeout. calms_auto.
Qed.

Lemma calms_update_activity_tracking request tracker now :
  calms (SessionValidationMiddleware._update_activity_tracking request tracker
           now).
Proof.
  unfold SessionValidationMiddleware._update_activity_tracking. calms_auto.
Qed.

Lemma calms_add_violations tracker activities details now :
  calms (SessionValidationMiddleware.add_violations tracker activities details
           now).
Proof.
  revert tracker. induction activities as [|a l IH]; intros tracker; simpl;
    calms_auto.
Qed.

#[local] Hint Resolve calms_add_violations : calms.

Lemma calms_monitor_suspicious_activity request tracker now :
  calms (SessionValidationMiddleware._monitor_suspicious_activity request
           tracker now).
Proof.
  unfold SessionValidationMiddleware._monitor_suspicious_activity,
    SessionSecurityMonitor.detect_suspicious_activity,
    SessionSecurityMonitor._has_rapid_login_attempts,
    SessionSecurityMonitor._has_unusual_ip_pattern.
  calms_auto.
Qed.

Lemma active_for_user_split u s :
  SessionManager.get_active_sessions_for_user u s
  = Nat.eqb (user s) (user_id u) && get_active_sessions s.
Proof.
  unfold SessionManager.get_active_sessions_for_user, get_active_sessions.
  by rewrite andb_assoc.
Qed.

Lemma dims_active_for_user u r r' :
  dims r r' →
  SessionManager.get_active_sessions_for_user u r' = true →
  SessionManager.get_active_sessions_for_user u r = true.
Proof.
  intros (_ & _ & Hu & Ha). rewrite !active_for_user_split, Hu.
  intros [-> H%Ha]%andb_true_iff. by rewrite H.
Qed.

Lemma filter_length_dims u l l' :
  Forall2 dims l l' →
  (length (List.filter (SessionManager.get_active_sessions_for_user u) l')
   ≤ length (List.filter (SessionManager.get_active_sessions_for_user u) l))%nat.
Proof.
  induction 1 as [|r r' l l' Hd Hl IH]; simpl; [done |].
  destruct (SessionManager.get_active_sessions_for_user u r') eqn:E.
  - rewrite (dims_active_for_user u r r' Hd E). simpl. lia.
  - destruct (SessionManager.get_active_sessions_for_user u r); simpl; lia.
Qed.

Lemma single_session_calm u w w' :
  single_session u w → calm w w' → single_session u w'.
Proof.
  intros (Hf & Hc & Hcache) (Hf' & Hrows & Hsc). split_and!; [done | |].
  - unfold active_count in *. pose proof (filter_length_dims u _ _ Hrows). lia.
  - unfold cache_ok in *. by rewrite Hsc.
Qed.

Lemma cache_get_Some {V} (m : gmap nat (V * datetime)) k now v :
  cache_get m k now = Some v → ∃ e, m !! k = Some (v, e).
Proof.
  unfold cache_get. destruct (m !! k) as [[v' e] |]; [| done].
  destruct (now <? e); [| done]. intros [= <-]. eauto.
Qed.

Lemma cache_ok_set u w n now :
  cache_ok u w → (1 ≤ n)%nat →
  cache_ok u
    (set_cache
       (set_session_count
          (cache_set (session_count (cache w)) (user_id u) n
             SessionManager.CACHE_TIMEOUT now) (cache w)) w).
Proof.
  intros Hok Hn c e. simpl. unfold cache_set.
  rewrite lookup_insert_eq. by intros [= <- <-].
Qed.

Lemma get_session_count_for_user_no_fault u now w :
  db_faults w = [] →
  SessionManager.get_session_count_for_user u now w
  = match cache_get (session_count (cache w)) (user_id u) now with
    | Some count => (Ok count, w)
    | None =>
        (Ok (active_count u w),
         set_cache
           (set_session_count
              (cache_set (session_count (cache w)) (user_id u)
                 (active_count u w) SessionManager.CACHE_TIMEOUT now)
              (cache w)) w)
    end.
Proof.
  intros Hf. unfold SessionManager.get_session_count_for_user.
  unfold mbind at 1, M_bind, bind, get_world.
  destruct (cache_get _ _ _); [done |].
  erewrite mbind_Ok; [| by apply qs_count_no_fault]. done.
Qed.

(** Under [deny] with a limit of one session, a user who has an active
    session is refused, and the tables stay as they are. *)
Lemma handle_concurrent_session_attempt_deny settings u key now w :
  MAX_CONCURRENT_SESSIONS settings = 1 →
  CONCURRENT_SESSION_POLICY settings = "deny" →
  db_faults w = [] → cache_ok u w → (1 ≤ active_count u w)%nat →
  ∃ w',
    SessionManager.handle_concurrent_session_attempt settings u key now w
    = (Ok (false,
           "Multiple sessions not allowed. Please log out from other devices first."),
       w')
    ∧ session_trackers w' = session_trackers w ∧ db_faults w' = []
    ∧ cache_ok u w'.
Proof.
  intros Hmax Hpolicy Hf Hcache Hcount.
  unfold SessionManager.handle_concurrent_session_attempt.
  assert (Hcan : ∃ w',
    SessionManager.can_create_new_session settings (Some u) now w
    = (Ok false, w')
    ∧ session_trackers w' = session_trackers w ∧ db_faults w' = []
    ∧ cache_ok u w').
  { unfold SessionManager.can_create_new_session.
    destruct (negb (is_authenticated u)); [by exists w |].
    pose proof (get_session_count_for_user_no_fault u now w Hf) as Hget.
    destruct (cache_get _ _ _) as [c |] eqn:E.
    - exists w. split; [| done]. apply cache_get_Some in E as [e E].
      specialize (Hcache c e E).
      erewrite mbind_Ok; [| apply Hget].
      unfold mret, M_ret, ret. rewrite Hmax. do 2 f_equal.
      apply Z.ltb_ge. lia.
    - eexists. split.
      + erewrite mbind_Ok; [| apply Hget].
        unfold mret, M_ret, ret. rewrite Hmax. do 2 f_equal.
        apply Z.ltb_ge. lia.
      + split_and!; [done | done |]. by apply cache_ok_set. }
  destruct Hcan as (w' & Heq & Hrows & Hf' & Hc').
  exists w'. split; [| done].
  erewrite mbind_Ok; [| apply Heq]. by rewrite Hpolicy.
Qed.

Lemma try_except_bind_Ok {A B} (m : M A) (k : A → M B) (h : exn → M B)
    (w w' : World) (a : A) :
  m w = (Ok a, w') → try_except (m ≫= k) h w = try_except (k a) h w'.
Proof. intros Hm. unfold try_except. by rewrite (mbind_Ok _ _ _ _ _ Hm). Qed.

Lemma has_concurrent_sessions_no_fault u key w :
  db_faults w = [] →
  SessionValidationMiddleware._has_concurrent_sessions u key w
  = (Ok (existsb (other_active_sessions u key) (session_trackers w)), w).
Proof.
  intros Hf. unfold SessionValidationMiddleware._has_concurrent_sessions.
  apply try_except_Ok. by apply qs_exists_no_fault.
Qed.

Lemma other_active_count u key rows :
  existsb (other_active_sessions u key) rows = true →
  (1 ≤ length (List.filter (SessionManager.get_active_sessions_for_user u)
                 rows))%nat.
Proof.
  intros (r & Hr & Hq)%existsb_exists.
  apply andb_true_iff in Hq as [Hq _].
  assert (Hin : In r (List.filter
                        (SessionManager.get_active_sessions_for_user u) rows))
    by (by apply filter_In).
  destruct (List.filter _ rows); [done | simpl; lia].
Qed.

(** A request whose tracker was resolved and that meets a concurrent session:
    the handling adds no active session. *)
Lemma handle_concurrent_session_single settings request tracker now w :
  MAX_CONCURRENT_SESSIONS settings = 1 →
  CONCURRENT_SESSION_POLICY settings = "deny" →
  let u := SessionValidationMiddleware.request_user request in
  single_session u w → (1 ≤ active_count u w)%nat →
  single_session u
    (SessionValidationMiddleware._handle_concurrent_session settings request
       tracker now w).2.
Proof.
  intros Hmax Hpolicy u (Hf & Hcount & Hcache) Hone.
  destruct (handle_concurrent_session_attempt_deny settings u
              (SessionValidationMiddleware.request_session_key request) now w)
    as (w2 & Heq & Hrows & Hf2 & Hc2); try done.
  unfold SessionValidationMiddleware._handle_concurrent_session.
  erewrite try_except_bind_Ok; [| apply Heq].
  apply single_session_calm with w2.
  - split_and!; [done | | done]. unfold active_count. by rewrite Hrows.
  - apply calms_try_except; [calms_auto | intros ?; apply calms_ret | done].
Qed.

Lemma objects_create_no_fault u d key ip ua now w :
  db_faults w = [] →
  objects_create u d key ip ua now w
  = if unique_rejects None key (session_trackers w)
    then (Raise ValidationError, w)
    else (Ok (created_tracker (next_pk w) u d key ip ua now),
          set_next_pk (S (next_pk w))
            (set_trackers
               (session_trackers w
                ++ [created_tracker (next_pk w) u d key ip ua now])%list w)).
Proof.
  intros Hf. unfold objects_create.
  erewrite mbind_Ok; [| by apply db_no_fault].
  unfold full_clean.
  unfold mbind, M_bind, bind, get_world, modify, raise, mret, M_ret, ret.
  simpl. by destruct (unique_rejects None key (session_trackers w)).
Qed.

Lemma objects_get_no_fault q w :
  db_faults w = [] →
  objects_get q w
  = match List.filter q (session_trackers w) with
    | [] => (Raise DoesNotExist, w)
    | [x] => (Ok x, w)
    | _ => (Raise MultipleObjectsReturned, w)
    end.
Proof.
  intros Hf. unfold objects_get.
  erewrite mbind_Ok; [| by apply db_no_fault].
  unfold mbind, M_bind, bind, get_world.
  by destruct (List.filter q (session_trackers w)) as [|x [|y l]].
Qed.

Lemma get_or_create_session_tracker_no_fault request now w :
  db_faults w = [] →
  let key := SessionValidationMiddleware.request_session_key request in
  let self d :=
    created_tracker (next_pk w)
      (user_id (SessionValidationMiddleware.request_user request)) d key
      (SessionValidationMiddleware.client_ip request)
      (String.substring 0 500
         (SessionValidationMiddleware.http_user_agent request)) now in
  SessionValidationMiddleware._get_or_create_session_tracker request now w
  = match List.filter (λ s, String.eqb (session_key s) key
                            && status_eqb (status s) active)
            (session_trackers w) with
    | [] =>
        match SessionValidationMiddleware.request_device request with
        | None => (Ok None, w)
        | Some d =>
            if unique_rejects None key (session_trackers w)
            then (Ok None, w)
            else (Ok (Some (self d)),
                  set_next_pk (S (next_pk w))
                    (set_trackers (session_trackers w ++ [self d])%list w))
        end
    | [x] => (Ok (Some x), w)
    | _ => (Ok None, w)
    end.
Proof.
  intros Hf key self.
  unfold SessionValidationMiddleware._get_or_create_session_tracker.
  unfold try_except, try_except_DoesNotExist.
  unfold mbind at 1, M_bind, bind. rewrite objects_get_no_fault; [| done].
  fold key. destruct (List.filter _ _) as [|x [|y l]]; try done.
  unfold SessionValidationMiddleware._create_new_session_tracker, try_except.
  destruct (SessionValidationMiddleware.request_device request) as [d |];
    [| done].
  unfold mbind, M_bind, bind. rewrite objects_create_no_fault; [| done].
  fold key. by destruct (unique_rejects None _ _).
Qed.

(** Resolving the tracker of a request: an active row with the session key is
    found, or nothing is tracked, or a row is created. *)
Lemma get_or_create_session_tracker_cases request now w :
  db_faults w = [] →
  let get :=
    SessionValidationMiddleware._get_or_create_session_tracker request now w in
  let self d :=
    created_tracker (next_pk w)
      (user_id (SessionValidationMiddleware.request_user request)) d
      (SessionValidationMiddleware.request_session_key request)
      (SessionValidationMiddleware.client_ip request)
      (String.substring 0 500
         (SessionValidationMiddleware.http_user_agent request)) now in
  (∃ x, get = (Ok (Some x), w))
  ∨ get = (Ok None, w)
  ∨ ∃ d, get = (Ok (Some (self d)),
                set_next_pk (S (next_pk w))
                  (set_trackers (session_trackers w ++ [self d])%list w))
         ∧ unique_rejects None
             (SessionValidationMiddleware.request_session_key request)
             (session_trackers w) = false.
Proof.
  intros Hf get self. subst get.
  rewrite get_or_create_session_tracker_no_fault; [| done].
  destruct (List.filter _ _) as [|x [|y l]]; [| by left; exists x | by right; left].
  destruct (SessionValidationMiddleware.request_device request) as [d |];
    [| by right; left].
  destruct (unique_rejects None _ _) eqn:E; [by right; left |].
  right; right. by exists d.
Qed.

Lemma unique_rejects_dims p k l l' :
  Forall2 dims l l' → unique_rejects p k l' = unique_rejects p k l.
Proof.
  unfold unique_rejects. induction 1 as [|r r' l l' (Hp & Hk & _) _ IH];
    [done |]. simpl. by rewrite Hp, Hk, IH.
Qed.

Lemma existsb_pk_dims n l l' :
  Forall2 dims l l' →
  existsb (λ r, Nat.eqb (pk r) n) l' = existsb (λ r, Nat.eqb (pk r) n) l.
Proof.
  induction 1 as [|r r' l l' (Hp & _) _ IH]; [done |].
  simpl. by rewrite Hp, IH.
Qed.

Lemma endable_dims now l l' s :
  Forall2 dims l l' → endable now l s → endable now l' s.
Proof.
  intros Hd (H1 & H2 & H3 & H4). split_and!; try done.
  - by rewrite (unique_rejects_dims _ _ _ _ Hd).
  - by rewrite (existsb_pk_dims _ _ _ Hd).
Qed.

Lemma ended_pk_dims p l l' :
  Forall2 dims l l' → ended_pk p l → ended_pk p l'.
Proof.
  intros Hd Hend r' Hr' Hpk.
  apply list_elem_of_lookup in Hr' as [i Hi].
  destruct (Forall2_lookup_r _ _ _ _ _ Hd Hi) as (r & Hr & (Hp & _ & _ & Ha)).
  apply not_true_is_false. intros Hact. specialize (Ha Hact).
  rewrite (Hend r) in Ha; [done | | congruence].
  apply list_elem_of_lookup. eauto.
Qed.

Lemma ended_pk_end_session s reason now rows :
  ended_pk (pk s)
    (updated (end_session_set s reason now) write_logout_status rows).
Proof.
  intros r' (r & Hr & ->)%elem_of_updated Hpk. simpl in *.
  destruct (Nat.eqb (pk r) (pk s)) eqn:E.
  - unfold get_active_sessions. simpl.
    pose proof (status_of_reason_not_active reason).
    by destruct (status_of_reason reason).
  - apply Nat.eqb_neq in E. done.
Qed.

Lemma dims_write_logout_status s reason now r :
  dims r (write_logout_status (end_session_set s reason now) r).
Proof.
  split_and!; try done. unfold get_active_sessions. simpl.
  pose proof (status_of_reason_not_active reason).
  by destruct (status_of_reason reason).
Qed.

(** The row of a session that was just created, [self], once ended, no longer
    counts: the table has as many active sessions as before the creation. *)
Lemma count_created_ended u rows self rows' :
  Forall2 dims (rows ++ [self])%list rows' → ended_pk (pk self) rows' →
  (length (List.filter (SessionManager.get_active_sessions_for_user u) rows')
   ≤ length (List.filter (SessionManager.get_active_sessions_for_user u) rows))%nat.
Proof.
  intros Hd Hend.
  apply Forall2_app_inv_l in Hd as (la & lb & Hla & Hlb & ->).
  inversion Hlb as [|? self' ? lb' Hself Hnil]; subst.
  inversion Hnil; subst.
  rewrite List.filter_app, length_app. simpl.
  assert (Hoff : SessionManager.get_active_sessions_for_user u self' = false).
  { rewrite active_for_user_split. rewrite (Hend self').
    - apply andb_false_r.
    - apply elem_of_app. right. apply list_elem_of_here.
    - apply Hself. }
  rewrite Hoff. simpl. pose proof (filter_length_dims u _ _ Hla). lia.
Qed.

Lemma created_endable now rows self :
  unique_rejects None (session_key self) rows = false →
  login_time self ≤ now → violation_details self ≠ Malformed →
  endable now (rows ++ [self])%list self.
Proof.
  intros Hu Hl Hd. split_and!; try done.
  - unfold unique_rejects in *. rewrite existsb_app. simpl.
    rewrite Nat.eqb_refl, andb_false_r, orb_false_r.
    apply not_true_is_false. intros (r & Hr & Hb)%existsb_exists.
    apply andb_true_iff in Hb as [Hk _].
    assert (existsb (λ r, String.eqb (session_key r) (session_key self) && true)
              rows = true); [| congruence].
    apply existsb_exists. exists r. by rewrite Hk.
  - rewrite existsb_app. simpl. by rewrite Nat.eqb_refl, orb_true_r.
Qed.

Lemma save_endable now s write w :
  db_faults w = [] → endable now (session_trackers w) s →
  clean_rejects s = false →
  save s write w
  = (Ok tt, set_trackers (updated s write (session_trackers w)) w).
Proof. intros Hf (_ & _ & Hu & He) Hc. by apply save_succeeds. Qed.

(** The timeout path on a session that was just created. *)
Lemma handle_session_timeout_created request self now w :
  db_faults w = [] → endable now (session_trackers w) self →
  let w' := (SessionValidationMiddleware._handle_session_timeout request self
               now w).2 in
  calm w w' ∧ ended_pk (pk self) (session_trackers w').
Proof.
  intros Hf Hend w'. subst w'.
  unfold SessionValidationMiddleware._handle_session_timeout.
  erewrite try_except_bind_Ok.
  2:{ unfold end_session. apply (save_endable now); try done.
      destruct Hend as (? & ? & _). by apply clean_accepts_end. }
  set (w4 := set_trackers _ w).
  assert (Hcalm : calm w4
    (try_except
       (SessionValidationMiddleware.logout request ;;
        if SessionValidationMiddleware.is_ajax request
        then mret (Some (SessionValidationMiddleware.JsonResponse 401
                           "Session expired"))
        else mret (Some SessionValidationMiddleware.redirect_login))
       (λ _, mret None) w4).2).
  { apply calms_try_except; [calms_auto | intros ?; apply calms_ret | done]. }
  split.
  - eapply calm_trans; [| apply Hcalm].
    split_and!; [done | | done]. subst w4. simpl.
    apply Forall2_dims_updated. intros r. apply dims_write_logout_status.
  - destruct Hcalm as (_ & Hd & _). eapply ended_pk_dims; [apply Hd |].
    subst w4. simpl. apply ended_pk_end_session.
Qed.

(** The deny path on a session that was just created: the violation is
    recorded and the session is ended. *)
Lemma handle_concurrent_session_created settings request self now w :
  MAX_CONCURRENT_SESSIONS settings = 1 →
  CONCURRENT_SESSION_POLICY settings = "deny" →
  let u := SessionValidationMiddleware.request_user request in
  db_faults w = [] → cache_ok u w → (1 ≤ active_count u w)%nat →
  endable now (session_trackers w) self → logout_time self = None →
  let w' := (SessionValidationMiddleware._handle_concurrent_session settings
               request self now w).2 in
  db_faults w' = [] ∧ cache_ok u w'
  ∧ Forall2 dims (session_trackers w) (session_trackers w')
  ∧ ended_pk (pk self) (session_trackers w').
Proof.
  intros Hmax Hpolicy u Hf Hcache Hone Hend Hlogout w'. subst w'.
  destruct (handle_concurrent_session_attempt_deny settings u
              (SessionValidationMiddleware.request_session_key request) now w)
    as (w2 & Heq & Hrows2 & Hf2 & Hc2); try done.
  unfold SessionValidationMiddleware._handle_concurrent_session.
  erewrite try_except_bind_Ok; [| apply Heq]. simpl.
  set (details := Some [("message", JStr _)]).
  set (self' := add_violation_set self "concurrent_session" details now).
  rewrite <- Hrows2 in Hend. destruct Hend as (Hl & Hd & Hu & He).
  erewrite try_except_bind_Ok.
  2:{ unfold add_violation. apply (save_endable now); try done.
      unfold clean_rejects. simpl. by rewrite Hlogout. }
  set (w3 := set_trackers _ w2).
  assert (Hd23 : Forall2 dims (session_trackers w2) (session_trackers w3)).
  { subst w3. simpl. apply Forall2_dims_updated. intros r. by split_and!. }
  erewrite try_except_bind_Ok; [| done].
  set (w3' := set_cache _ w3).
  erewrite try_except_bind_Ok.
  2:{ unfold end_session. apply (save_endable now).
      - done.
      - apply (endable_dims now (session_trackers w2)); [done |].
        by split_and!.
      - by apply clean_accepts_end. }
  set (w4 := set_trackers _ w3').
  assert (Hcalm : calm w4
    (try_except
       (SessionValidationMiddleware.logout request ;;
        if SessionValidationMiddleware.is_ajax request
        then mret (Some (SessionValidationMiddleware.JsonResponse 403
                           "Multiple sessions not allowed. Please log out from other devices first."))
        else mret (Some SessionValidationMiddleware.redirect_login))
       (λ _, mret None) w4).2).
  { apply calms_try_except; [calms_auto | intros ?; apply calms_ret | done]. }
  destruct Hcalm as (Hf5 & Hd45 & Hc45).
  assert (Hd34 : Forall2 dims (session_trackers w3) (session_trackers w4)).
  { subst w4. simpl. apply Forall2_dims_updated. intros r.
    apply dims_write_logout_status. }
  split_and!.
  - done.
  - unfold cache_ok. rewrite Hc45. apply Hc2.
  - rewrite <- Hrows2.
    eapply Forall2_dims_trans; [apply Hd23 |].
    eapply Forall2_dims_trans; [apply Hd34 | apply Hd45].
  - eapply ended_pk_dims; [apply Hd45 |]. subst w4. simpl.
    apply (ended_pk_end_session self').
Qed.

Lemma created_not_expired_count u key rows self :
  session_key self = key →
  unique_rejects None key rows = false →
  existsb (other_active_sessions u key) (rows ++ [self])%list = false →
  List.filter (SessionManager.get_active_sessions_for_user u) rows = [].
Proof.
  intros Hk Hu Hex. rewrite existsb_app in Hex.
  apply orb_false_iff in Hex as [Hex _].
  induction rows as [|r rows IH]; [done |]. simpl in *.
  apply orb_false_iff in Hu as [Hu1 Hu2].
  apply orb_false_iff in Hex as [Hex1 Hex2].
  rewrite andb_true_r in Hu1. unfold other_active_sessions in Hex1.
  rewrite Hu1, andb_true_r in Hex1. rewrite Hex1. auto.
Qed.

(** One request keeps the invariant of the deny policy. *)
Lemma process_request_single_session settings request now w :
  MAX_CONCURRENT_SESSIONS settings = 1 →
  CONCURRENT_SESSION_POLICY settings = "deny" →
  let u := SessionValidationMiddleware.request_user request in
  single_session u w →
  single_session u
    (SessionValidationMiddleware.process_request settings request now w).2.
Proof.
  intros Hmax Hpolicy u Hw. pose proof Hw as (Hf & Hcount & Hcache).
  unfold SessionValidationMiddleware.process_request.
  destruct (SessionValidationMiddleware._is_exempt_url _); [done |].
  destruct (negb _); [done |].
  set (tail tracker :=
    SessionValidationMiddleware._update_activity_tracking request tracker now
    ;; SessionValidationMiddleware._monitor_suspicious_activity request
         (update_activity_set tracker now) now
    ;; (mret None : M (option SessionValidationMiddleware.Response))).
  assert (Htail : ∀ tracker, calms (tail tracker)).
  { intros tracker. unfold tail.
    apply calms_bind; [apply calms_update_activity_tracking | intros _].
    apply calms_bind; [apply calms_monitor_suspicious_activity | intros _].
    apply calms_ret. }
  destruct (get_or_create_session_tracker_cases request now w Hf)
    as [(x & Hget) | [Hget | (d & Hget & Hunique)]];
    (erewrite mbind_Ok; [| apply Hget]); cbv beta iota; [| done |].
  - (* The tracker of the session key was found. *)
    destruct (SessionValidationMiddleware._is_session_expired _ _ _).
    { eapply single_session_calm; [done |].
      by apply calms_handle_session_timeout. }
    erewrite mbind_Ok; [| by apply has_concurrent_sessions_no_fault].
    destruct (existsb _ _) eqn:Hother.
    + apply handle_concurrent_session_single; try done.
      by apply other_active_count in Hother.
    + eapply single_session_calm; [done |]. by apply Htail.
  - (* A tracker was created. *)
    set (self := created_tracker _ _ _ _ _ _ _) in *.
    set (w1 := set_next_pk _ _) in *.
    assert (Hend : endable now (session_trackers w1) self).
    { subst w1. simpl. apply created_endable; [done | by simpl | done]. }
    assert (Hf1 : db_faults w1 = []) by done.
    destruct (SessionValidationMiddleware._is_session_expired _ _ _).
    { destruct (handle_session_timeout_created request self now w1 Hf1 Hend)
        as ((Hf' & Hd & Hc) & Hended).
      split_and!; [done | |].
      - unfold active_count.
        pose proof (count_created_ended u _ _ _ Hd Hended).
        unfold active_count in Hcount. lia.
      - unfold cache_ok. by rewrite Hc. }
    erewrite mbind_Ok; [| by apply has_concurrent_sessions_no_fault].
    destruct (existsb _ _) eqn:Hother.
    + destruct (handle_concurrent_session_created settings request self now w1)
        as (Hf' & Hc' & Hd & Hended); try done.
      { by apply other_active_count in Hother. }
      split_and!; [done | | done].
      unfold active_count.
      pose proof (count_created_ended u _ _ _ Hd Hended).
      unfold active_count in Hcount. lia.
    + pose proof (created_not_expired_count u _ _ self eq_refl Hunique Hother)
        as Hnone.
      destruct (Htail self w1 Hf1) as (Hf' & Hd & Hc). unfold tail in *.
      split_and!; [done | |].
      * unfold active_count.
        pose proof (filter_length_dims u _ _ Hd) as Hle.
        subst w1. simpl in Hle.
        rewrite List.filter_app, length_app, Hnone in Hle. simpl in Hle.
        destruct (SessionManager.get_active_sessions_for_user u self);
          simpl in Hle; lia.
      * unfold cache_ok. by rewrite Hc.
Qed.

Lemma single_session_empty u : single_session u empty_world.
Proof. split_and!; [done | unfold active_count; simpl; lia | done]. Qed.

Lemma trace_single_session settings u requests w :
  MAX_CONCURRENT_SESSIONS settings = 1 →
  CONCURRENT_SESSION_POLICY settings = "deny" →
  Forall (λ rq, SessionValidationMiddleware.request_user rq.1 = u) requests →
  single_session u w →
  Forall (single_session u) (trace settings requests w).
Proof.
  intros Hmax Hpolicy Hall. revert w.
  induction Hall as [|[request now] requests Hu Hall IH]; intros w Hw; simpl.
  - constructor.
  - simpl in Hu. subst u.
    pose proof (process_request_single_session settings request now w
                  Hmax Hpolicy Hw) as Hstep.
    constructor; [done | by apply IH].
Qed.

(** C1. Under the policy [deny] with [max_concurrent_sessions = 1], and with a
    database that answers, take any sequence of requests of one user, each
    with its session key, its device, its instant and its own client data,
    each processed by [process_request] as one step, from a world with no
    session. After every step at most one tracker of the user is active with a
    null [logout_time]. *)
Theorem deny_single_active_session (settings : Settings) (u : User)
    (requests : list (SessionValidationMiddleware.Request * datetime)) :
  MAX_CONCURRENT_SESSIONS settings = 1 →
  CONCURRENT_SESSION_POLICY settings = "deny" →
  Forall (λ rq, SessionValidationMiddleware.request_user rq.1 = u) requests →
  Forall (λ w, (active_count u w ≤ 1)%nat)
         (trace settings requests empty_world).
Proof.
  intros Hmax Hpolicy Hall.
  eapply Forall_impl.
  - apply (trace_single_session settings u requests empty_world); try done.
    apply single_session_empty.
  - intros w (_ & Hc & _). done.
Qed.

Lemma deny_single_active_session_witness :
  Forall (λ w, (active_count alice w ≤ 1)%nat)
         (trace default_settings sample_requests empty_world).
Proof.
  apply (deny_single_active_session default_settings alice sample_requests).
  - reflexivity.
  - reflexivity.
  - repeat constructor.
Defined.

(** The order in which the database lists tied rows plays no part in it. *)
Lemma deny_single_active_session_any_order (settings : Settings) (u : User)
    (requests : list (SessionValidationMiddleware.Request * datetime))
    (ties : ordering → list SessionTracker → SessionTracker → nat) :
  MAX_CONCURRENT_SESSIONS settings = 1 →
  CONCURRENT_SESSION_POLICY settings = "deny" →
  Forall (λ rq, SessionValidationMiddleware.request_user rq.1 = u) requests →
  Forall (λ w, (active_count u w ≤ 1)%nat)
         (trace settings requests (set_db_ties ties empty_world)).
Proof.
  intros Hmax Hpolicy Hall.
  eapply Forall_impl.
  - apply (trace_single_session settings u requests
             (set_db_ties ties empty_world)); try done.
    split_and!; [done | unfold active_count; simpl; lia | done].
  - intros w (_ & Hc & _). done.
Qed.

(** The sample sequence: the first client holds the one active session, the
    attempts of the other clients end with status [violation]. *)
Example deny_sample_trace :
  map (λ w, map (λ r, (session_key r, status r)) (session_trackers w))
      (trace default_settings sample_requests empty_world)
  = [[("client_1", active)];
     [("client_1", active); ("client_2", violation)];
     [("client_1", active); ("client_2", violation); ("client_3", violation)];
     [("client_1", active); ("client_2", violation); ("client_3", violation)];
     [("client_1", active); ("client_2", violation); ("client_3", violation)]].
Proof. by vm_compute. Qed.

(** * Further properties of the engine *)

(** ** The database layer under faults *)

Lemma db_cases (w : World) :
  db w = match db_faults w with
         | true :: _ => (Raise DatabaseError, tick w)
         | _ => (Ok tt, tick w)
         end.
Proof. unfold tick, db. by destruct (db_faults w) as [|[] fs]. Qed.

Lemma qs_count_cases (q : queryset) (w : World) :
  qs_count q w
  = match db_faults w with
    | true :: _ => (Raise DatabaseError, tick w)
    | _ => (Ok (length (List.filter q (session_trackers w))), tick w)
    end.
Proof.
  unfold qs_count, mbind, M_bind, bind, get_world, mret, M_ret, ret.
  rewrite db_cases. pose proof (tick_fields w) as (Hrows & _).
  destruct (db_faults w) as [|[] fs]; by rewrite ?Hrows.
Qed.

Lemma qs_list_cases (q : queryset) (w : World) :
  qs_list q w
  = match db_faults w with
    | true :: _ => (Raise DatabaseError, tick w)
    | _ => (Ok (order_by by_login_time_desc
                  (List.filter q (session_trackers w)) w),
            tick w)
    end.
Proof.
  unfold qs_list, mbind, M_bind, bind, get_world, mret, M_ret, ret.
  rewrite db_cases. pose proof (tick_fields w) as (Hrows & _).
  destruct (db_faults w) as [|[] fs]; by rewrite ?Hrows, ?order_by_tick.
Qed.

Lemma tick_tick_faults (w : World) :
  db_faults (tick (tick w)) = tail (tail (db_faults w)).
Proof.
  destruct (tick_fields (tick w)) as (_ & _ & _ & _ & ->).
  by destruct (tick_fields w) as (_ & _ & _ & _ & ->).
Qed.

(** ** SessionSecurityMonitor *)

Lemma has_rapid_login_attempts_cases (u : nat) (now : datetime) (w : World) :
  SessionSecurityMonitor._has_rapid_login_attempts u now w
  = (Ok match db_faults w with
        | true :: _ => false
        | _ => Nat.ltb 5
                 (length
                    (List.filter
                       (λ s, Nat.eqb (user s) u
                             && (now - minutes 10 <=? login_time s))
                       (session_trackers w)))
        end, tick w).
Proof.
  unfold SessionSecurityMonitor._has_rapid_login_attempts, try_except, mbind,
    M_bind, bind, mret, M_ret, ret.
  rewrite qs_count_cases. by destruct (db_faults w) as [|[] fs].
Qed.

(** The number of rows [distinct()] leaves does not depend on the order in
    which the database lists the rows. *)
Lemma length_distinct_ip_address (l l' : list SessionTracker) :
  l ≡ₚ l' →
  length (SessionSecurityMonitor.distinct_ip_address l)
  = length (SessionSecurityMonitor.distinct_ip_address l').
Proof.
  intros Hl. unfold SessionSecurityMonitor.distinct_ip_address.
  rewrite !length_map. apply Permutation_length, NoDup_Permutation.
  - apply NoDup_remove_dups.
  - apply NoDup_remove_dups.
  - intros x. rewrite !elem_of_remove_dups. by rewrite Hl.
Qed.

Lemma has_unusual_ip_pattern_cases (t : SessionTracker) (now : datetime)
    (w : World) :
  SessionSecurityMonitor._has_unusual_ip_pattern t now w
  = (Ok match db_faults w with
        | true :: _ => false
        | _ => Nat.ltb 3
                 (length
                    (SessionSecurityMonitor.distinct_ip_address
                       (List.filter
                          (λ s, Nat.eqb (user s) (user t)
                                && (now - 24 * hour <=? login_time s))
                          (session_trackers w))))
        end, tick w).
Proof.
  unfold SessionSecurityMonitor._has_unusual_ip_pattern, try_except, mbind,
    M_bind, bind, mret, M_ret, ret.
  rewrite qs_list_cases.
  destruct (db_faults w) as [|[] fs]; try done;
    by rewrite (length_distinct_ip_address _ _ (order_by_perm _ _ _)).
Qed.

Lemma elem_of_tag (b : bool) (tag x : string) :
  x ∈ (if b then [tag] else []) ↔ b = true ∧ x = tag.
Proof.
  destruct b.
  - rewrite list_elem_of_singleton. tauto.
  - rewrite elem_of_nil. intuition congruence.
Qed.

(** The anomaly scan never raises and leaves the tables and the cache alone.
    It reports [excessive_violations] exactly when the session has more than 5
    violations and [unusual_session_duration] exactly when the session is
    active and older than 12 hours. With a database that answers it reports
    [rapid_login_attempts] exactly when the user has more than 5 trackers that
    logged in during the last 10 minutes; when the database fails on both of
    its queries it reports neither [rapid_login_attempts] nor
    [unusual_ip_pattern]. *)
Theorem detect_suspicious_activity_tags (t : SessionTracker) (now : datetime)
    (w : World) :
  ∃ tags,
    SessionSecurityMonitor.detect_suspicious_activity t now w
    = (Ok tags, tick (tick w))
    ∧ ("excessive_violations" ∈ tags ↔ (5 < violation_count t)%nat)
    ∧ ("unusual_session_duration" ∈ tags
       ↔ status t = active ∧ 12 * hour < now - login_time t)
    ∧ (db_faults w = [] →
       ("rapid_login_attempts" ∈ tags
        ↔ Nat.lt 5
            (length
               (List.filter
                  (λ s, Nat.eqb (user s) (user t)
                        && (now - minutes 10 <=? login_time s))
                  (session_trackers w)))))
    ∧ (∀ fs, db_faults w = (true :: true :: fs) →
             ¬ "rapid_login_attempts" ∈ tags
             ∧ ¬ "unusual_ip_pattern" ∈ tags).
Proof.
  eexists. split.
  { unfold SessionSecurityMonitor.detect_suspicious_activity.
    erewrite mbind_Ok; [| apply has_rapid_login_attempts_cases].
    erewrite mbind_Ok; [| apply has_unusual_ip_pattern_cases]. done. }
  assert (Hmem : ∀ (b1 b2 b3 b4 : bool) x,
    x ∈ ((if b1 then ["rapid_login_attempts"] else [])
         ++ (if b2 then ["unusual_ip_pattern"] else [])
         ++ (if b3 then ["unusual_session_duration"] else [])
         ++ (if b4 then ["excessive_violations"] else []))%list
    ↔ (b1 = true ∧ x = "rapid_login_attempts")
      ∨ (b2 = true ∧ x = "unusual_ip_pattern")
      ∨ (b3 = true ∧ x = "unusual_session_duration")
      ∨ (b4 = true ∧ x = "excessive_violations")).
  { intros. by rewrite !elem_of_app, !elem_of_tag. }
  split_and!.
  - rewrite Hmem, Nat.ltb_lt. intuition congruence.
  - rewrite Hmem.
    unfold SessionSecurityMonitor._has_unusual_session_duration,
      total_seconds_gt, hour, minute.
    destruct (status t); simpl; rewrite ?Z.ltb_lt;
      (split; [intros [[? ?]|[[? ?]|[[? ?]|[? ?]]]] | intros [? ?]]);
      try discriminate; try (split; [done | lia]).
    right; right; left. split; [lia | done].
  - intros Hf. rewrite Hmem, Hf, Nat.ltb_lt. intuition congruence.
  - intros fs Hf. rewrite !Hmem, Hf.
    destruct (tick_fields w) as (_ & _ & _ & _ & Ht). rewrite Hf in Ht.
    simpl in Ht. rewrite Ht. intuition congruence.
Qed.

(** ** AccessControl: the time window *)

Lemma ascii_compare_lt_trans (a b c : ascii) :
  Ascii.compare a b = Lt → Ascii.compare b c = Lt → Ascii.compare a c = Lt.
Proof.
  unfold Ascii.compare. rewrite !N.compare_lt_iff. lia.
Qed.

Lemma string_compare_lt_trans (a b c : string) :
  String.compare a b = Lt → String.compare b c = Lt → String.compare a c = Lt.
Proof.
  revert b c. induction a as [|x a IH]; intros [|y b] [|z c]; simpl; try done.
  destruct (Ascii.compare x y) eqn:Hxy; try done.
  - apply Ascii.compare_eq_iff in Hxy as ->.
    destruct (Ascii.compare y z); try done. apply IH.
  - destruct (Ascii.compare y z) eqn:Hyz; try done.
    + apply Ascii.compare_eq_iff in Hyz as <-. by rewrite Hxy.
    + by rewrite (ascii_compare_lt_trans x y z).
Qed.

Lemma str_le_trans (a b c : string) :
  str_le a b = true → str_le b c = true → str_le a c = true.
Proof.
  unfold str_le, String.leb.
  destruct (String.compare a b) eqn:Hab; try done.
  - by apply String.compare_eq_iff in Hab as ->.
  - destruct (String.compare b c) eqn:Hbc; try done.
    + apply String.compare_eq_iff in Hbc as <-. by rewrite Hab.
    + by rewrite (string_compare_lt_trans a b c).
Qed.

(** A window whose start is after its end in the order of strings admits no
    instant: the evaluator has no notion of a window that spans midnight, so a
    rule from 22:00 to 06:00 refuses every request. *)
Theorem is_time_allowed_inverted_window (rule : AccessControl.t)
    (st en : string) :
  AccessControl.start_time (AccessControl.get_time_restrictions rule) = Some st →
  AccessControl.end_time (AccessControl.get_time_restrictions rule) = Some en →
  str_le st en = false →
  ∀ now, AccessControl.is_time_allowed rule now = false.
Proof.
  intros Hst Hen Hinv now. unfold AccessControl.is_time_allowed.
  destruct (AccessControl.is_empty _) eqn:He.
  { unfold AccessControl.is_empty in He. rewrite Hst in He.
    by destruct (AccessControl.days _). }
  cbv zeta. destruct (negb _); [done |]. rewrite Hst, Hen.
  destruct (str_le st (strftime_HM now)) eqn:H1; [| done].
  destruct (str_le (strftime_HM now) en) eqn:H2; [| done].
  by rewrite (str_le_trans _ _ _ H1 H2) in Hinv.
Qed.

Lemma is_time_allowed_inverted_window_witness :
  AccessControl.is_time_allowed night_hours (23 * hour) = false
  ∧ AccessControl.is_time_allowed night_hours (2 * hour) = false.
Proof.
  split; by apply (is_time_allowed_inverted_window night_hours "22:00" "06:00").
Defined.

Lemma minute_fields (a b : datetime) :
  a / minute = b / minute →
  weekday_of a = weekday_of b ∧ hour_of a = hour_of b
  ∧ minute_of a = minute_of b.
Proof.
  intros H. unfold weekday_of, hour_of, minute_of.
  replace (a / day) with (a / minute / 1440)
    by (rewrite Z.div_div; [done | done | done]).
  replace (b / day) with (b / minute / 1440)
    by (rewrite Z.div_div; [done | done | done]).
  replace (a / hour) with (a / minute / 60)
    by (rewrite Z.div_div; [done | done | done]).
  replace (b / hour) with (b / minute / 60)
    by (rewrite Z.div_div; [done | done | done]).
  by rewrite H.
Qed.

(** The evaluator reads the weekday, the hour and the minute of the instant
    and nothing finer: two instants within the same minute get the same
    answer, so an end time of 17:00 admits requests until 17:00:59.999999. *)
Theorem is_time_allowed_same_minute (rule : AccessControl.t)
    (a b : datetime) :
  a / minute = b / minute →
  AccessControl.is_time_allowed rule a = AccessControl.is_time_allowed rule b.
Proof.
  intros (Hd & Hh & Hm)%minute_fields.
  unfold AccessControl.is_time_allowed, strftime_A, strftime_HM.
  by rewrite Hd, Hh, Hm.
Qed.

Lemma is_time_allowed_same_minute_witness :
  AccessControl.is_time_allowed office_hours
    (tuesday_12_00 + 5 * hour + 59 * second + 999999)
  = AccessControl.is_time_allowed office_hours (tuesday_12_00 + 5 * hour)
  ∧ AccessControl.is_time_allowed office_hours (tuesday_12_00 + 5 * hour)
    = true.
Proof.
  split; [| by vm_compute].
  by apply (is_time_allowed_same_minute office_hours).
Defined.

(** ** The middleware on a session that has ended *)

Lemma same_tables_refl (w : World) : same_tables w w.
Proof. by split_and!. Qed.

Lemma same_tables_tick (w : World) : same_tables w (tick w).
Proof. destruct (tick_fields w) as (? & ? & ? & ? & _). by split_and!. Qed.

Lemma same_tables_trans (w1 w2 w3 : World) :
  same_tables w1 w2 → same_tables w2 w3 → same_tables w1 w3.
Proof.
  intros (? & ? & ? & ?) (? & ? & ? & ?). split_and!; congruence.
Qed.

Lemma objects_get_cases (q : queryset) (w : World) :
  objects_get q w
  = match db_faults w with
    | true :: _ => (Raise DatabaseError, tick w)
    | _ => match List.filter q (session_trackers w) with
           | [] => (Raise DoesNotExist, tick w)
           | [x] => (Ok x, tick w)
           | _ => (Raise MultipleObjectsReturned, tick w)
           end
    end.
Proof.
  unfold objects_get, mbind, M_bind, bind, get_world, raise, mret, M_ret, ret.
  rewrite db_cases. pose proof (tick_fields w) as (Hrows & _).
  destruct (db_faults w) as [|[] fs]; rewrite ?Hrows; try done;
    by destruct (List.filter q (session_trackers w)) as [|x [|y l]].
Qed.

Lemma objects_create_cases u d key ip ua now (w : World) :
  objects_create u d key ip ua now w
  = match db_faults w with
    | true :: _ => (Raise DatabaseError, tick w)
    | _ =>
        if unique_rejects None key (session_trackers w)
        then (Raise ValidationError, tick w)
        else (Ok (created_tracker (next_pk w) u d key ip ua now),
              set_next_pk (S (next_pk w))
                (set_trackers
                   (session_trackers w
                    ++ [created_tracker (next_pk w) u d key ip ua now])%list
                   (tick w)))
    end.
Proof.
  unfold objects_create, full_clean, mbind, M_bind, bind, get_world, modify,
    raise, mret, M_ret, ret.
  rewrite db_cases. pose proof (tick_fields w) as (Hrows & Hpk & _).
  destruct (db_faults w) as [|[] fs]; rewrite ?Hrows, ?Hpk; try done; simpl;
    destruct (unique_rejects None key (session_trackers w)); try done;
    by rewrite Hrows, Hpk.
Qed.

Lemma create_new_session_tracker_rejected request now w :
  unique_rejects None (SessionValidationMiddleware.request_session_key request)
    (session_trackers w) = true →
  ∃ w', SessionValidationMiddleware._create_new_session_tracker request now w
        = (Ok None, w')
        ∧ same_tables w w'.
Proof.
  intros Huniq.
  unfold SessionValidationMiddleware._create_new_session_tracker, try_except.
  destruct (SessionValidationMiddleware.request_device request) as [d |];
    [| exists w; split; [done | apply same_tables_refl]].
  unfold mbind, M_bind, bind, mret, M_ret, ret.
  rewrite objects_create_cases, Huniq.
  destruct (db_faults w) as [|[] fs]; eexists;
    (split; [done | apply same_tables_tick]).
Qed.

(** When no active row holds the session key of the request and some row
    holds it, no tracker is resolved, whatever the database does. *)
Lemma get_or_create_session_tracker_ended request now w :
  let key := SessionValidationMiddleware.request_session_key request in
  List.filter (λ s, String.eqb (session_key s) key
                    && status_eqb (status s) active) (session_trackers w)
  = [] →
  unique_rejects None key (session_trackers w) = true →
  ∃ w', SessionValidationMiddleware._get_or_create_session_tracker request now w
        = (Ok None, w')
        ∧ same_tables w w'.
Proof.
  intros key Hnone Huniq.
  pose proof (same_tables_tick w) as Ht.
  destruct (create_new_session_tracker_rejected request now (tick w))
    as (w' & Heq & Hsame).
  { destruct Ht as (-> & _). done. }
  unfold SessionValidationMiddleware._get_or_create_session_tracker,
    try_except, try_except_DoesNotExist, mbind, M_bind, bind, mret, M_ret, ret.
  rewrite objects_get_cases. fold key. rewrite Hnone.
  destruct (db_faults w) as [|[] fs]; rewrite ?Heq;
    eexists; (split; [done |]); try done; by eapply same_tables_trans.
Qed.

Lemma filter_none {A} (q : A → bool) (l : list A) :
  (∀ x, x ∈ l → q x = false) → List.filter q l = [].
Proof.
  induction l as [|x l IH]; [done |]. intros H. simpl.
  rewrite (H x); [| apply list_elem_of_here].
  apply IH. intros y Hy. apply H. by apply list_elem_of_further.
Qed.

Lemma process_request_untracked settings request now w :
  let key := SessionValidationMiddleware.request_session_key request in
  List.filter (λ s, String.eqb (session_key s) key
                    && status_eqb (status s) active) (session_trackers w)
  = [] →
  unique_rejects None key (session_trackers w) = true →
  ∃ w', SessionValidationMiddleware.process_request settings request now w
        = (Ok None, w')
        ∧ same_tables w w'.
Proof.
  intros key Hnone Huniq.
  unfold SessionValidationMiddleware.process_request.
  destruct (SessionValidationMiddleware._is_exempt_url _);
    [exists w; split; [done | apply same_tables_refl] |].
  destruct (negb _);
    [exists w; split; [done | apply same_tables_refl] |].
  destruct (get_or_create_session_tracker_ended request now w Hnone Huniq)
    as (w' & Heq & Hsame).
  exists w'. split; [| done]. by erewrite mbind_Ok; [| apply Heq].
Qed.

(** A request that carries the session key of a tracker that is no longer
    active is passed on untracked, whatever the database does: no response is
    made, and no row, transport session or cache entry is added or changed.
    Once a session has been ended, its later requests are neither refused nor
    recorded by this middleware. *)
Theorem process_request_ended_session (settings : Settings)
    (request : SessionValidationMiddleware.Request) (now : datetime)
    (w : World) (r : SessionTracker) :
  r ∈ session_trackers w →
  session_key r = SessionValidationMiddleware.request_session_key request →
  (∀ s, s ∈ session_trackers w →
        session_key s = SessionValidationMiddleware.request_session_key request →
        status s ≠ active) →
  ∃ w', SessionValidationMiddleware.process_request settings request now w
        = (Ok None, w')
        ∧ same_tables w w'.
Proof.
  intros Hr Hkey Hended. apply process_request_untracked.
  - apply filter_none. intros s Hs.
    destruct (String.eqb_spec (session_key s)
                (SessionValidationMiddleware.request_session_key request))
      as [Hk | Hk]; [| done].
    specialize (Hended s Hs Hk). by destruct (status s).
  - unfold unique_rejects. apply existsb_exists. exists r. split.
    + by apply list_elem_of_In.
    + rewrite Hkey. by rewrite String.eqb_refl.
Qed.

Lemma process_request_ended_session_witness :
  ∃ w', SessionValidationMiddleware.process_request default_settings
          (request_of alice "k") 200
          (set_db_faults [false; true] (world_of [logged_out_tracker]))
        = (Ok None, w')
        ∧ same_tables
            (set_db_faults [false; true] (world_of [logged_out_tracker])) w'.
Proof.
  apply (process_request_ended_session default_settings (request_of alice "k")
           200 _ logged_out_tracker).
  - apply list_elem_of_here.
  - reflexivity.
  - intros s Hs _. apply list_elem_of_singleton in Hs. by subst s.
Defined.

(** ** The middleware on an idle session *)

Lemma is_session_expired_idle settings x now :
  SessionValidationMiddleware._is_session_expired settings x now = true
  ↔ minutes (SESSION_TIMEOUT_MINUTES settings) < now - last_activity x.
Proof.
  unfold SessionValidationMiddleware._is_session_expired,
    SessionValidationMiddleware.SESSION_TIMEOUT, total_seconds_gt, minutes,
    minute. rewrite Z.ltb_lt. lia.
Qed.

Lemma logout_no_fault request w :
  db_faults w = [] →
  SessionValidationMiddleware.logout request w
  = (Ok tt,
     set_django_sessions
       (delete (SessionValidationMiddleware.request_session_key request)
          (django_sessions w)) w).
Proof.
  intros Hf. unfold SessionValidationMiddleware.logout, Session_delete.
  by erewrite mbind_Ok; [| apply db_no_fault].
Qed.

(** The rows that hold the session key of an expired row are not active. *)
Lemma expire_rows_key_ended now rows x s' :
  table_ok now rows → x ∈ rows →
  s' ∈ expire_rows now [pk x] rows → session_key s' = session_key x →
  status s' = expired.
Proof.
  intros [Hid _] Hx (s & -> & Hs)%list_elem_of_fmap Hk. simpl in *.
  rewrite orb_false_r in *.
  destruct (Nat.eqb (pk s) (pk x)) eqn:Hp; [done |].
  apply Nat.eqb_neq in Hp. destruct Hp. f_equal. apply Hid; auto.
Qed.

(** A request on a session that has been idle for longer than the timeout is
    answered with a redirect to the login page, or with a 401 JSON error for
    an AJAX request. The tracker is stored as expired with the instant of the
    request as its logout time and its transport session is deleted. Any later
    request with that session key passes untracked. *)
Theorem process_request_timeout (settings : Settings)
    (request : SessionValidationMiddleware.Request) (now : datetime)
    (w : World) (x : SessionTracker) :
  let key := SessionValidationMiddleware.request_session_key request in
  db_faults w = [] →
  table_ok now (session_trackers w) →
  SessionValidationMiddleware._is_exempt_url
    (SessionValidationMiddleware.path request) = false →
  is_authenticated (SessionValidationMiddleware.request_user request) = true →
  List.filter (λ s, String.eqb (session_key s) key
                    && status_eqb (status s) active) (session_trackers w)
  = [x] →
  minutes (SESSION_TIMEOUT_MINUTES settings) < now - last_activity x →
  let w' :=
    set_django_sessions (delete key (django_sessions w))
      (set_trackers (expire_rows now [pk x] (session_trackers w)) w) in
  SessionValidationMiddleware.process_request settings request now w
  = (Ok (Some (if SessionValidationMiddleware.is_ajax request
               then SessionValidationMiddleware.JsonResponse 401
                      "Session expired"
               else SessionValidationMiddleware.redirect_login)), w')
  ∧ ∀ later, ∃ w'',
      SessionValidationMiddleware.process_request settings request later w'
      = (Ok None, w'')
      ∧ same_tables w' w''.
Proof.
  intros key Hf Hok Hexempt Hauth Hres Hidle w'.
  assert (Hx : x ∈ session_trackers w ∧ session_key x = key ∧ status x = active).
  { assert (Hin : x ∈ List.filter
                        (λ s, String.eqb (session_key s) key
                              && status_eqb (status s) active)
                        (session_trackers w))
      by (rewrite Hres; apply list_elem_of_here).
    apply elem_of_filter_bool in Hin as [Hin Hq].
    apply andb_true_iff in Hq as [Hk%String.eqb_eq Hs%status_eqb_eq]. done. }
  destruct Hx as (Hin & Hkey & Hact).
  split.
  - unfold SessionValidationMiddleware.process_request.
    rewrite Hexempt, Hauth. cbn [negb].
    erewrite mbind_Ok.
    2:{ rewrite get_or_create_session_tracker_no_fault; [| done].
        cbv zeta. fold key. by rewrite Hres. }
    cbv beta iota.
    rewrite (proj2 (is_session_expired_idle settings x now) Hidle).
    unfold SessionValidationMiddleware._handle_session_timeout.
    erewrite try_except_bind_Ok.
    2:{ apply end_session_timeout_endable; [done |].
        by apply table_ok_endable. }
    erewrite try_except_bind_Ok; [| by apply logout_no_fault].
    by destruct (SessionValidationMiddleware.is_ajax request).
  - intros later. apply process_request_untracked; fold key; subst w'; simpl.
    + apply filter_none. intros s Hs.
      destruct (String.eqb_spec (session_key s) key) as [Hk | Hk]; [| done].
      rewrite (expire_rows_key_ended now (session_trackers w) x s); try done.
      congruence.
    + unfold unique_rejects. apply existsb_exists.
      exists (expire now x). split.
      * apply in_map_iff. exists x. split; [| by apply list_elem_of_In].
        simpl. by rewrite Nat.eqb_refl.
      * simpl. fold key. rewrite Hkey. by rewrite String.eqb_refl.
Qed.

Lemma process_request_timeout_witness :
  let w := with_transport_sessions (world_of [idle_45; idle_5]) in
  SessionValidationMiddleware.process_request default_settings
    (request_of alice "expired_session") (minutes 60) w
  = (Ok (Some SessionValidationMiddleware.redirect_login),
     set_django_sessions (delete "expired_session" (django_sessions w))
       (set_trackers [expire (minutes 60) idle_45; idle_5] w)).
Proof.
  intros w.
  apply (process_request_timeout default_settings
           (request_of alice "expired_session") (minutes 60) w idle_45).
  - reflexivity.
  - change (table_ok (minutes 60) [idle_45; idle_5]). table_ok_two.
  - reflexivity.
  - reflexivity.
  - reflexivity.
  - by vm_compute.
Defined.

(** ** The middleware on a session in good standing *)

Lemma detect_suspicious_activity_no_fault t now w :
  db_faults w = [] →
  SessionSecurityMonitor.detect_suspicious_activity t now w
  = (Ok (suspicious_activities (session_trackers w) t now), w).
Proof.
  intros Hf. unfold suspicious_activities,
    SessionSecurityMonitor.detect_suspicious_activity.
  erewrite mbind_Ok; [| apply has_rapid_login_attempts_cases].
  erewrite mbind_Ok; [| apply has_unusual_ip_pattern_cases].
  erewrite (mbind_Ok _ _ (world_of _));
    [| apply has_rapid_login_attempts_cases].
  erewrite mbind_Ok; [| apply has_unusual_ip_pattern_cases].
  rewrite !(tick_no_fault w), Hf by done. done.
Qed.

Lemma filter_map_preserve {A} (q : A → bool) (f : A → A) (l : list A) :
  (∀ r, q (f r) = q r) → List.filter q (map f l) = map f (List.filter q l).
Proof.
  intros Hq. induction l as [|r l IH]; [done |]. simpl. rewrite Hq.
  destruct (q r); simpl; by rewrite IH.
Qed.

(** The scan reads the user, the login time and the address of the rows, and
    the status, the login time and the violation count of the tracker. *)
Lemma suspicious_activities_ext rows t t' (f : SessionTracker → SessionTracker)
    now :
  (∀ r, user (f r) = user r ∧ login_time (f r) = login_time r
        ∧ ip_address (f r) = ip_address r) →
  user t' = user t → login_time t' = login_time t → status t' = status t →
  violation_count t' = violation_count t →
  suspicious_activities (map f rows) t' now = suspicious_activities rows t now.
Proof.
  intros Hf Hu Hl Hs Hv. unfold suspicious_activities,
    SessionSecurityMonitor.detect_suspicious_activity.
  erewrite mbind_Ok; [| apply has_rapid_login_attempts_cases].
  erewrite mbind_Ok; [| apply has_unusual_ip_pattern_cases].
  erewrite (mbind_Ok _ _ (world_of rows));
    [| apply has_rapid_login_attempts_cases].
  erewrite mbind_Ok; [| apply has_unusual_ip_pattern_cases].
  cbn [fst mret M_ret ret world_of db_faults set_next_pk set_trackers
       empty_world session_trackers].
  rewrite !tick_no_fault by done.
  cbn [world_of db_faults set_next_pk set_trackers empty_world
       session_trackers].
  unfold SessionSecurityMonitor._has_unusual_session_duration.
  rewrite Hu, Hl, Hs, Hv.
  rewrite !filter_map_preserve.
  2:{ intros r. destruct (Hf r) as (-> & -> & _). done. }
  2:{ intros r. destruct (Hf r) as (-> & -> & _). done. }
  unfold SessionSecurityMonitor.distinct_ip_address. rewrite map_map.
  erewrite (map_ext (λ x, (ip_address (f x), login_time (f x)))).
  2:{ intros r. destruct (Hf r) as (_ & -> & ->). reflexivity. }
  by rewrite length_map.
Qed.

Lemma foldl_add_violation details now tags s :
  let final :=
    foldl (λ s tag, add_violation_set s tag (Some details) now) s tags in
  final = set_violations (violation_count final) (violation_details final) s
  ∧ violation_count final = (violation_count s + length tags)%nat.
Proof.
  revert s. induction tags as [|a tags IH]; intros s; simpl.
  - split; [by destruct s | lia].
  - destruct (IH (add_violation_set s a (Some details) now)) as [Heq Hn].
    split; [| rewrite Hn; simpl; lia].
    rewrite Heq at 1. done.
Qed.

Lemma set_violations_same r n d :
  violation_count r = n → violation_details r = d → set_violations n d r = r.
Proof. intros <- <-. by destruct r. Qed.

(** Logging a list of violations on one object, with a database that answers:
    the rows of the object end up with the count and the log of the object. *)
Lemma add_violations_rows tags : ∀ s details now w,
  db_faults w = [] →
  logout_time s = None →
  unique_rejects (Some (pk s)) (session_key s) (session_trackers w) = false →
  existsb (λ r, Nat.eqb (pk r) (pk s)) (session_trackers w) = true →
  (∀ r, r ∈ session_trackers w → pk r = pk s →
        violation_count r = violation_count s
        ∧ violation_details r = violation_details s) →
  let final :=
    foldl (λ s tag, add_violation_set s tag (Some details) now) s tags in
  SessionValidationMiddleware.add_violations s tags details now w
  = (Ok tt,
     set_trackers
       (map (λ r, if Nat.eqb (pk r) (pk s)
                  then set_violations (violation_count final)
                         (violation_details final) r
                  else r) (session_trackers w)) w).
Proof.
  induction tags as [|a tags IH]; intros s details now w Hf Hl Hu He Hrows;
    simpl.
  - rewrite <- (set_trackers_same w) at 1. do 2 f_equal.
    rewrite <- (map_id (session_trackers w)) at 1.
    apply map_ext_in. intros r Hr%list_elem_of_In.
    destruct (Nat.eqb (pk r) (pk s)) eqn:Hp; [| done].
    apply Nat.eqb_eq in Hp. destruct (Hrows r Hr Hp).
    by rewrite set_violations_same.
  - set (s1 := add_violation_set s a (Some details) now).
    erewrite mbind_Ok.
    2:{ unfold add_violation. apply save_succeeds; try done.
        unfold clean_rejects. simpl. by rewrite Hl. }
    fold s1.
    rewrite (IH s1 details now); simpl; try done.
    + rewrite set_trackers_set_trackers. do 2 f_equal. unfold updated.
      rewrite map_map. apply map_ext. intros r. simpl.
      destruct (Nat.eqb (pk r) (pk s)) eqn:Hp; simpl; by rewrite Hp.
    + unfold updated. rewrite unique_rejects_map; [done |].
      intros r. simpl. by destruct (Nat.eqb (pk r) (pk s)).
    + unfold updated. rewrite existsb_pk_map; [done |].
      intros r. simpl. by destruct (Nat.eqb (pk r) (pk s)).
    + intros r' (r & -> & Hr)%list_elem_of_fmap. simpl.
      destruct (Nat.eqb (pk r) (pk s)) eqn:Hp; [done |].
      intros Hp'. apply Nat.eqb_neq in Hp. done.
Qed.

Lemma update_activity_tracking_no_fault request x now w :
  db_faults w = [] → logout_time x = None →
  violation_details x ≠ Malformed →
  unique_rejects (Some (pk x)) (session_key x) (session_trackers w) = false →
  existsb (λ r, Nat.eqb (pk r) (pk x)) (session_trackers w) = true →
  SessionValidationMiddleware._update_activity_tracking request x now w
  = (Ok tt,
     note_activity request now
       (set_trackers
          (updated (update_activity_set x now) write_last_activity
             (session_trackers w)) w)).
Proof.
  intros Hf Hl Hd Hu He.
  unfold SessionValidationMiddleware._update_activity_tracking.
  apply try_except_Ok. erewrite mbind_Ok.
  2:{ unfold update_activity. apply save_succeeds; try done.
      unfold clean_rejects. simpl. rewrite Hl.
      by destruct (violation_details x). }
  done.
Qed.

(** The middleware once the tracker [x] of the request has been resolved, in
    the world [w1] in which it was found or created: the session is the only
    active one of its user and is not idle beyond the timeout. *)
Lemma process_request_with_tracker settings request now w w1 x :
  let key := SessionValidationMiddleware.request_session_key request in
  let u := SessionValidationMiddleware.request_user request in
  SessionValidationMiddleware._is_exempt_url
    (SessionValidationMiddleware.path request) = false →
  is_authenticated u = true →
  SessionValidationMiddleware._get_or_create_session_tracker request now w
  = (Ok (Some x), w1) →
  db_faults w1 = [] →
  table_ok now (session_trackers w1) →
  x ∈ session_trackers w1 → status x = active →
  now - last_activity x ≤ minutes (SESSION_TIMEOUT_MINUTES settings) →
  existsb (other_active_sessions u key) (session_trackers w1) = false →
  let tags := suspicious_activities (session_trackers w1) x now in
  let x' := monitored request x tags now in
  SessionValidationMiddleware.process_request settings request now w
  = (Ok None,
     note_activity request now
       (set_trackers
          (map (λ r, if Nat.eqb (pk r) (pk x) then x' else r)
             (session_trackers w1)) w1))
  ∧ last_activity x' = now
  ∧ violation_count x' = (violation_count x + length tags)%nat
  ∧ status x' = active ∧ logout_time x' = None ∧ user x' = user x.
Proof.
  intros key u Hexempt Hauth Hget Hf Hok Hin Hact Hidle Hconc tags x'.
  destruct (table_ok_endable now _ x Hok Hin Hact) as (_ & _ & Huniq & Hex).
  destruct Hok as [Hid Hok]. destruct (Hok x Hin Hact) as (Hlogout & _ & Hdet).
  set (x1 := update_activity_set x now).
  set (details := anomaly_details request now).
  assert (Hfinal :
    x' = set_violations (violation_count x') (violation_details x') x1
    ∧ violation_count x' = (violation_count x1 + length tags)%nat)
    by apply (foldl_add_violation details now tags x1).
  destruct Hfinal as [Hx' Hcount].
  split; [| rewrite Hx'; split_and!; done].
  set (rows1 := updated x1 write_last_activity (session_trackers w1)).
  set (w2 := note_activity request now (set_trackers rows1 w1)).
  assert (Htags : suspicious_activities (session_trackers w2) x1 now = tags).
  { subst w2 rows1. simpl. unfold updated. apply suspicious_activities_ext;
      try done. intros r. by destruct (Nat.eqb (pk r) (pk x1)). }
  assert (Hrows :
    map (λ r, if Nat.eqb (pk r) (pk x1)
              then set_violations (violation_count x') (violation_details x') r
              else r) rows1
    = map (λ r, if Nat.eqb (pk r) (pk x) then x' else r) (session_trackers w1)).
  { subst rows1. unfold updated. rewrite map_map.
    apply map_ext_in. intros r Hr%list_elem_of_In. simpl.
    destruct (Nat.eqb (pk r) (pk x)) eqn:Hp; simpl; rewrite Hp; [| done].
    apply Nat.eqb_eq in Hp. rewrite (Hid r x Hr Hin (or_introl Hp)).
    by rewrite Hx' at 3. }
  unfold SessionValidationMiddleware.process_request.
  rewrite Hexempt. fold u. rewrite Hauth. cbn [negb].
  erewrite mbind_Ok; [| apply Hget].
  cbv beta iota.
  destruct (SessionValidationMiddleware._is_session_expired settings x now)
    eqn:Hexp; [apply is_session_expired_idle in Hexp; lia |].
  erewrite mbind_Ok; [| by apply has_concurrent_sessions_no_fault].
  fold key. rewrite Hconc.
  erewrite mbind_Ok; [| by apply update_activity_tracking_no_fault].
  fold x1 rows1 w2.
  erewrite mbind_Ok; [rewrite <- Hrows; reflexivity |].
  unfold SessionValidationMiddleware._monitor_suspicious_activity.
  apply try_except_Ok.
  erewrite mbind_Ok; [| by apply detect_suspicious_activity_no_fault].
  rewrite Htags. fold details.
  rewrite add_violations_rows; try done.
  - subst w2 rows1. simpl. unfold updated. rewrite unique_rejects_map; [done |].
    intros r. by destruct (Nat.eqb (pk r) (pk x1)).
  - subst w2 rows1. simpl. unfold updated. rewrite existsb_pk_map; [done |].
    intros r. by destruct (Nat.eqb (pk r) (pk x1)).
  - subst w2 rows1. simpl.
    intros r' (r & -> & Hr)%list_elem_of_fmap Hp. simpl in *.
    destruct (Nat.eqb (pk r) (pk x)) eqn:Hp'; simpl in *.
    + apply Nat.eqb_eq in Hp'. by rewrite (Hid r x Hr Hin (or_introl Hp')).
    + apply Nat.eqb_neq in Hp'. done.
Qed.

(** A request on the only active session of its user, not idle beyond the
    timeout, is let through. The tracker of the session is stored with the
    instant of the request as its last activity and with one more violation
    for each anomaly the scan reports; no other row changes, the session stays
    active, and the path of the request is noted in the cache for 300
    seconds. *)
Theorem process_request_tracks_activity (settings : Settings)
    (request : SessionValidationMiddleware.Request) (now : datetime)
    (w : World) (x : SessionTracker) :
  let key := SessionValidationMiddleware.request_session_key request in
  let u := SessionValidationMiddleware.request_user request in
  db_faults w = [] →
  table_ok now (session_trackers w) →
  SessionValidationMiddleware._is_exempt_url
    (SessionValidationMiddleware.path request) = false →
  is_authenticated u = true →
  List.filter (λ s, String.eqb (session_key s) key
                    && status_eqb (status s) active) (session_trackers w)
  = [x] →
  now - last_activity x ≤ minutes (SESSION_TIMEOUT_MINUTES settings) →
  existsb (other_active_sessions u key) (session_trackers w) = false →
  let tags := suspicious_activities (session_trackers w) x now in
  let x' := monitored request x tags now in
  SessionValidationMiddleware.process_request settings request now w
  = (Ok None,
     note_activity request now
       (set_trackers
          (map (λ r, if Nat.eqb (pk r) (pk x) then x' else r)
             (session_trackers w)) w))
  ∧ last_activity x' = now
  ∧ violation_count x' = (violation_count x + length tags)%nat
  ∧ status x' = active ∧ logout_time x' = None.
Proof.
  intros key u Hf Hok Hexempt Hauth Hres Hidle Hconc tags x'.
  assert (Hx : x ∈ session_trackers w ∧ status x = active).
  { assert (Hin : x ∈ List.filter
                        (λ s, String.eqb (session_key s) key
                              && status_eqb (status s) active)
                        (session_trackers w))
      by (rewrite Hres; apply list_elem_of_here).
    apply elem_of_filter_bool in Hin as [Hin Hq].
    apply andb_true_iff in Hq as [_ Hs%status_eqb_eq]. done. }
  destruct Hx as (Hin & Hact).
  destruct (process_request_with_tracker settings request now w w x)
    as (Heq & Hl & Hv & Hs & Ho & _); try done.
  rewrite get_or_create_session_tracker_no_fault; [| done].
  cbv zeta. fold key. by rewrite Hres.
Qed.

Lemma process_request_tracks_activity_witness :
  ∃ w',
    SessionValidationMiddleware.process_request default_settings
      (request_of alice "long_session") (13 * hour) (world_of long_session)
    = (Ok None, w')
    ∧ map (λ s, (last_activity s, violation_count s, status s))
        (session_trackers w')
      = [(13 * hour, 1%nat, active); (0, 0%nat, active)].
Proof.
  eexists. split.
  - apply (process_request_tracks_activity default_settings
             (request_of alice "long_session") (13 * hour)
             (world_of long_session)
             (set_last_activity (13 * hour - minute)
                (fresh_tracker 1 7 "long_session" 0))).
    + reflexivity.
    + change (table_ok (13 * hour) long_session). unfold long_session.
      table_ok_two.
    + reflexivity.
    + reflexivity.
    + reflexivity.
    + by vm_compute.
    + reflexivity.
  - by vm_compute.
Defined.

(** ** The session limit against a cached count *)




(** ** The middleware under the [allow] policy *)

Lemma handle_concurrent_session_attempt_allow settings u key now w :
  CONCURRENT_SESSION_POLICY settings = "allow" →
  db_faults w = [] →
  ∃ message w',
    SessionManager.handle_concurrent_session_attempt settings u key now w
    = (Ok (true, message), w')
    ∧ session_trackers w' = session_trackers w ∧ db_faults w' = []
    ∧ django_sessions w' = django_sessions w.
Proof.
  intros Hpolicy Hf.
  destruct (can_create_new_session_world settings u now w Hf)
    as (b & w' & Heq & Hrows & Hf' & Hdj & _).
  unfold SessionManager.handle_concurrent_session_attempt.
  erewrite mbind_Ok; [| apply Heq]. rewrite Hpolicy.
  destruct b; by eexists _, _.
Qed.

(** Under the [allow] policy a request of a user who has another active
    session is let through, and nothing is stored for it: the branch for
    concurrent sessions returns before the activity of the session is
    recorded, so the last activity of the tracker stays where it was. *)
Theorem process_request_allow_keeps_last_activity (settings : Settings)
    (request : SessionValidationMiddleware.Request) (now : datetime)
    (w : World) (x : SessionTracker) :
  let key := SessionValidationMiddleware.request_session_key request in
  let u := SessionValidationMiddleware.request_user request in
  CONCURRENT_SESSION_POLICY settings = "allow" →
  db_faults w = [] →
  SessionValidationMiddleware._is_exempt_url
    (SessionValidationMiddleware.path request) = false →
  is_authenticated u = true →
  List.filter (λ s, String.eqb (session_key s) key
                    && status_eqb (status s) active) (session_trackers w)
  = [x] →
  now - last_activity x ≤ minutes (SESSION_TIMEOUT_MINUTES settings) →
  existsb (other_active_sessions u key) (session_trackers w) = true →
  ∃ w',
    SessionValidationMiddleware.process_request settings request now w
    = (Ok None, w')
    ∧ session_trackers w' = session_trackers w
    ∧ django_sessions w' = django_sessions w
    ∧ db_faults w' = [].
Proof.
  intros key u Hpolicy Hf Hexempt Hauth Hres Hidle Hother.
  destruct (handle_concurrent_session_attempt_allow settings u key now w
              Hpolicy Hf) as (message & w' & Heq & Hrows & Hf' & Hdj).
  exists w'. split; [| done].
  unfold SessionValidationMiddleware.process_request.
  rewrite Hexempt. fold u. rewrite Hauth. cbn [negb].
  erewrite mbind_Ok.
  2:{ rewrite get_or_create_session_tracker_no_fault; [| done].
      cbv zeta. fold key. by rewrite Hres. }
  cbv beta iota.
  destruct (SessionValidationMiddleware._is_session_expired settings x now)
    eqn:Hexp; [apply is_session_expired_idle in Hexp; lia |].
  erewrite mbind_Ok; [| by apply has_concurrent_sessions_no_fault].
  fold key. rewrite Hother.
  unfold SessionValidationMiddleware._handle_concurrent_session.
  apply try_except_Ok. fold u key.
  by erewrite mbind_Ok; [| apply Heq].
Qed.

Lemma process_request_allow_keeps_last_activity_witness :
  ∃ w',
    SessionValidationMiddleware.process_request
      {| MAX_CONCURRENT_SESSIONS := 1; CONCURRENT_SESSION_POLICY := "allow";
         SESSION_TIMEOUT_MINUTES := 30 |}
      (request_of alice "existing_session") (minutes 29)
      (world_of two_sessions)
    = (Ok None, w')
    ∧ session_trackers w' = session_trackers (world_of two_sessions)
    ∧ django_sessions w' = django_sessions (world_of two_sessions)
    ∧ db_faults w' = [].
Proof.
  apply (process_request_allow_keeps_last_activity _
           (request_of alice "existing_session") (minutes 29)
           (world_of two_sessions) (fresh_tracker 1 7 "existing_session" 0));
    try reflexivity.
  by vm_compute.
Defined.

(** ** The deny path, row by row *)






(** ** The sweep of the session manager under database faults *)







(** ** The management command: a dry run against the real run *)









(** The run of the example: the dry run announces 2 items, the real run
    cleans 1. *)
Example dry_run_overcounts :
  (Command.handle default_settings 30 true (minutes 60)
     stale_transport_session).1
  = Ok (Command.Reported 1 0 1 2)
  ∧ (Command.handle default_settings 30 false (minutes 60)
       stale_transport_session).1
    = Ok (Command.Reported 1 1 0 1).
Proof. by vm_compute. Qed.

(** ** Ending every session of a user *)

Lemma end_pks_keeps reason now pks r :
  pk (if existsb (Nat.eqb (pk r)) pks then end_row reason now r else r) = pk r
  ∧ session_key (if existsb (Nat.eqb (pk r)) pks then end_row reason now r
                 else r) = session_key r.
Proof. by destruct (existsb _ _). Qed.

Lemma endable_end_pks now reason pks rows s :
  endable now rows s → endable now (end_pks reason now pks rows) s.
Proof.
  intros (H1 & H2 & H3 & H4). unfold end_pks. split_and!; try done.
  - rewrite unique_rejects_map; [done |]. intros r. apply end_pks_keeps.
  - rewrite existsb_pk_map; [done |]. intros r. apply end_pks_keeps.
Qed.

Lemma updated_end_session_any s reason now rows :
  updated (end_session_set s reason now) write_logout_status rows
  = end_pks reason now [pk s] rows.
Proof.
  unfold updated, end_pks. apply map_ext. intros r. simpl.
  by rewrite orb_false_r.
Qed.

Lemma end_pks_cons reason now p pks rows :
  end_pks reason now pks (end_pks reason now [p] rows)
  = end_pks reason now (p :: pks) rows.
Proof.
  unfold end_pks. rewrite map_map. apply map_ext. intros r. simpl.
  rewrite orb_false_r. destruct (Nat.eqb (pk r) p); simpl; [| done].
  by destruct (existsb _ pks).
Qed.

Lemma end_pks_nil reason now rows : end_pks reason now [] rows = rows.
Proof. unfold end_pks. simpl. apply map_id. Qed.

(** With primary keys that identify rows, ending the keys of a query set ends
    the rows of the query set. *)
Lemma end_pks_filter reason now (q : queryset) rows (l : list SessionTracker) :
  (∀ r1 r2, r1 ∈ rows → r2 ∈ rows → pk r1 = pk r2 → r1 = r2) →
  (∀ s, s ∈ l ↔ s ∈ rows ∧ q s = true) →
  end_pks reason now (map pk l) rows = end_rows reason now q rows.
Proof.
  intros Hid Hl. unfold end_pks, end_rows. apply map_ext_in.
  intros r Hr%list_elem_of_In. destruct (q r) eqn:Hq.
  - replace (existsb _ _) with true; [done |]. symmetry.
    apply existsb_exists. exists (pk r). split; [| apply Nat.eqb_refl].
    apply in_map, list_elem_of_In, Hl. done.
  - replace (existsb _ _) with false; [done |]. symmetry.
    apply not_true_is_false. intros (p & Hp & Heq)%existsb_exists.
    apply Nat.eqb_eq in Heq. apply in_map_iff in Hp as (s & <- & Hs).
    apply list_elem_of_In, Hl in Hs as [Hs Hqs].
    rewrite (Hid r s) in Hq; try done. congruence.
Qed.

Lemma end_session_cases s reason now w :
  endable now (session_trackers w) s →
  end_session s reason now w
  = match db_faults w with
    | true :: _ => (Raise DatabaseError, tick w)
    | _ => (Ok tt,
            set_trackers (end_pks reason now [pk s] (session_trackers w))
              (tick w))
    end.
Proof.
  intros (Hl & Hd & Hu & He). unfold end_session. rewrite save_cases.
  rewrite (clean_accepts_end s reason now Hl Hd).
  simpl in Hu, He |- *. rewrite Hu, He. simpl.
  by rewrite updated_end_session_any.
Qed.

Lemma delete_transport_session_pass_any key w :
  ∃ r w',
    try_except_DoesNotExist
      (django_session ← Session_get key; Session_delete django_session)
      (mret tt) w = (r, w')
    ∧ session_trackers w' = session_trackers w.
Proof.
  unfold try_except_DoesNotExist, Session_get, Session_delete, mbind, M_bind,
    bind, get_world, modify, raise, mret, M_ret, ret.
  rewrite db_cases.
  destruct (tick_fields w) as (Hrows & _).
  destruct (tick_fields (tick w)) as (Hrows' & _).
  destruct (db_faults w) as [|[] fs];
    [| eexists _, _; split; [done | done] |];
    (destruct (django_sessions (tick w) !! key);
     [ rewrite db_cases; destruct (db_faults (tick w)) as [|[] fs'];
       eexists _, _; (split; [done |]); simpl; congruence
     | eexists _, _; (split; [done |]); congruence ]).
Qed.

Lemma end_all_loop_any (l : list SessionTracker) : ∀ reason c now w,
  (∀ s, s ∈ l → endable now (session_trackers w) s) →
  ∃ r w',
    SessionManager.end_all_loop l reason c now w = (r, w')
    ∧ ∀ c', r = Ok c' →
        c' = (c + length l)%nat
        ∧ session_trackers w'
          = end_pks reason now (map pk l) (session_trackers w).
Proof.
  induction l as [|s l IH]; intros reason c now w Hl; simpl.
  - eexists _, _. split; [done |]. intros c' [= <-].
    by rewrite end_pks_nil, Nat.add_0_r.
  - unfold mbind at 1, M_bind, bind.
    rewrite (end_session_cases s reason now) by apply Hl, list_elem_of_here.
    set (w1 := set_trackers (end_pks reason now [pk s] (session_trackers w))
                 (tick w)).
    assert (Hgo : ∃ r w',
      (try_except_DoesNotExist
         (django_session ← Session_get (session_key s);
          Session_delete django_session) (mret tt) ;;
       SessionManager.end_all_loop l reason (S c) now) w1 = (r, w')
      ∧ ∀ c', r = Ok c' →
          c' = (c + S (length l))%nat
          ∧ session_trackers w'
            = end_pks reason now (pk s :: map pk l) (session_trackers w)).
    { destruct (delete_transport_session_pass_any (session_key s) w1)
        as ([[] | e] & w2 & Heq & Hrows).
      - erewrite mbind_Ok; [| apply Heq].
        destruct (IH reason (S c) now w2) as (r & w' & Heq' & Hr).
        { intros s' Hs'. rewrite Hrows. subst w1. simpl.
          apply endable_end_pks, Hl. by apply list_elem_of_further. }
        exists r, w'. split; [done |]. intros c' Hok.
        destruct (Hr c' Hok) as [-> ->]. split; [lia |].
        rewrite Hrows. subst w1. simpl. apply end_pks_cons.
      - erewrite mbind_Raise; [| apply Heq]. eexists _, _. by split. }
    destruct (db_faults w) as [|[] fs]; [done | | done].
    eexists _, _. by split.
Qed.

Lemma sessions_to_end_active u excl s :
  SessionManager.sessions_to_end u excl s = true → status s = active.
Proof.
  unfold SessionManager.sessions_to_end.
  destruct excl as [key |]; [destruct (String.eqb key EmptyString) |].
  - apply active_for_user_status.
  - intros [H _]%andb_true_iff. by apply active_for_user_status in H.
  - apply active_for_user_status.
Qed.

Lemma table_ok_sorted_query now rows (q : queryset) o w :
  table_ok now rows → (∀ s, q s = true → status s = active) →
  ∀ s, s ∈ order_by o (List.filter q rows) w → endable now rows s.
Proof.
  intros Hok Hq s Hs. apply elem_of_order_by, elem_of_filter_bool in Hs as [Hs H].
  apply table_ok_endable; auto.
Qed.

Lemma end_pks_query reason now rows (q : queryset) o w :
  table_ok now rows →
  end_pks reason now (map pk (order_by o (List.filter q rows) w)) rows
  = end_rows reason now q rows.
Proof.
  intros [Hid _]. apply end_pks_filter.
  - intros r1 r2 H1 H2 Hpk. apply Hid; auto.
  - intros s. by rewrite elem_of_order_by, elem_of_filter_bool.
Qed.

Lemma end_all_transaction u reason excl now w :
  table_ok now (session_trackers w) →
  let q := SessionManager.sessions_to_end u excl in
  ∃ r w',
    atomic (sessions ← qs_list q;
            SessionManager.end_all_loop sessions reason 0 now) w = (r, w')
    ∧ match r with
      | Ok n =>
          session_trackers w' = end_rows reason now q (session_trackers w)
          ∧ n = length (List.filter q (session_trackers w))
      | Raise _ =>
          session_trackers w' = session_trackers w
          ∧ django_sessions w' = django_sessions w
      end.
Proof.
  intros Hok q. unfold atomic, mbind at 1, M_bind, bind.
  rewrite qs_list_cases.
  set (l := order_by by_login_time_desc (List.filter q (session_trackers w)) w).
  destruct (tick_fields w) as (Hrows & _).
  destruct (end_all_loop_any l reason 0 now (tick w)) as (r & w' & Heq & Hr).
  { intros s Hs. rewrite Hrows.
    apply (table_ok_sorted_query now _ q by_login_time_desc w); try done.
    apply sessions_to_end_active. }
  assert (Hgo : ∃ r0 w0,
    match SessionManager.end_all_loop l reason 0 now (tick w) with
    | (Ok a, w'0) => (Ok a, w'0)
    | (Raise e, w'0) =>
        (Raise e,
         set_django_sessions (django_sessions w)
           (set_next_pk (next_pk w) (set_trackers (session_trackers w) w'0)))
    end = (r0, w0)
    ∧ match r0 with
      | Ok n =>
          session_trackers w0 = end_rows reason now q (session_trackers w)
          ∧ n = length (List.filter q (session_trackers w))
      | Raise _ =>
          session_trackers w0 = session_trackers w
          ∧ django_sessions w0 = django_sessions w
      end).
  { rewrite Heq. destruct r as [n | e]; eexists _, _; (split; [done |]).
    - destruct (Hr n eq_refl) as [-> Hrows']. split.
      + rewrite Hrows', Hrows. by apply (end_pks_query reason now).
      + subst l. simpl. apply length_order_by.
    - by split. }
  destruct (db_faults w) as [|[] fs]; [done | | done].
  eexists _, _. split; [done |]. by split.
Qed.

(** Ending the sessions of a query set leaves none of them active. *)
Lemma end_rows_none_active reason now (q : queryset) rows :
  List.filter (λ s, q s && get_active_sessions s) (end_rows reason now q rows)
  = [].
Proof.
  apply filter_none. intros r' (r & -> & Hr)%list_elem_of_fmap.
  destruct (q r) eqn:Hq; [| by rewrite Hq].
  unfold get_active_sessions, end_row. simpl.
  pose proof (status_of_reason_not_active reason) as Hs.
  destruct (status_of_reason reason); try done; by rewrite andb_false_r.
Qed.

Lemma end_session_endable s reason now w :
  db_faults w = [] → endable now (session_trackers w) s →
  end_session s reason now w
  = (Ok tt, set_trackers (end_pks reason now [pk s] (session_trackers w)) w).
Proof.
  intros Hf Hend. rewrite end_session_cases by done.
  by rewrite Hf, tick_no_fault.
Qed.

Lemma end_all_loop_no_fault (l : list SessionTracker) : ∀ reason c now w,
  db_faults w = [] →
  (∀ s, s ∈ l → endable now (session_trackers w) s) →
  ∃ w',
    SessionManager.end_all_loop l reason c now w = (Ok (c + length l)%nat, w')
    ∧ session_trackers w' = end_pks reason now (map pk l) (session_trackers w)
    ∧ db_faults w' = [] ∧ cache w' = cache w
    ∧ django_sessions w'
      = drop_sessions (map session_key l) (django_sessions w).
Proof.
  induction l as [|s l IH]; intros reason c now w Hf Hl; simpl.
  - exists w. rewrite end_pks_nil, Nat.add_0_r. done.
  - erewrite mbind_Ok;
      [| apply end_session_endable; [done | apply Hl, list_elem_of_here]].
    destruct (delete_transport_session_pass (session_key s)
                (set_trackers (end_pks reason now [pk s] (session_trackers w))
                   w))
      as (w1 & Heq & Hrows & Hf1 & Hc1 & Hdj1); [done |].
    erewrite mbind_Ok; [| apply Heq].
    destruct (IH reason (S c) now w1)
      as (w' & Heq' & Hrows' & Hf' & Hc' & Hdj'); [done | |].
    + intros s' Hs'. rewrite Hrows. simpl.
      apply endable_end_pks, Hl. by apply list_elem_of_further.
    + exists w'. rewrite Heq'. split_and!; try done.
      * do 2 f_equal. lia.
      * rewrite Hrows', Hrows. simpl. apply end_pks_cons.
      * by rewrite Hc', Hc1.
      * by rewrite Hdj', Hdj1.
Qed.

(** Whatever the database does, [end_all_sessions_for_user] returns, and it is
    all or nothing: either it reports 0 and the two tables are as they were,
    or it reports the number of active sessions of the user, the excluded one
    apart, and every one of them is stored ended for the reason given, with
    the instant of the call as its logout time. With a database that answers
    it is the second, and with no session excluded the user is left without
    an active session. *)
Theorem end_all_sessions_all_or_nothing (u : User) (reason : string)
    (exclude_session : option string) (now : datetime) (w : World) :
  table_ok now (session_trackers w) →
  let q := SessionManager.sessions_to_end u exclude_session in
  let ended :=
    λ n w', n = length (List.filter q (session_trackers w))
            ∧ session_trackers w' = end_rows reason now q (session_trackers w)
    in
  ∃ n w',
    SessionManager.end_all_sessions_for_user u reason exclude_session now w
    = (Ok n, w')
    ∧ ((n = 0%nat ∧ session_trackers w' = session_trackers w
        ∧ django_sessions w' = django_sessions w)
       ∨ ended n w')
    ∧ (db_faults w = [] →
       ended n w'
       ∧ (exclude_session = None → active_count u w' = 0%nat)).
Proof.
  intros Hok q ended.
  unfold SessionManager.end_all_sessions_for_user. cbv zeta. fold q.
  destruct (end_all_transaction u reason exclude_session now w Hok)
    as (r & w1 & Heq & Hr). fold q in Heq, Hr.
  destruct r as [n | e].
  - destruct Hr as [Hrows ->].
    erewrite try_except_bind_Ok; [| apply Heq].
    eexists _, _. split; [done |]. simpl.
    assert (Hended : ended (length (List.filter q (session_trackers w)))
                       w1) by done.
    split; [by right |]. intros _. split; [done |].
    intros ->. unfold active_count. simpl. rewrite Hrows. subst q. simpl.
    erewrite filter_ext;
      [by rewrite (end_rows_none_active reason now
                     (SessionManager.get_active_sessions_for_user u)) |].
    intros s. simpl. rewrite active_for_user_split.
    by destruct (Nat.eqb _ _), (get_active_sessions s).
  - destruct Hr as [Hrows Hdj].
    erewrite try_except_Raise; [| by erewrite mbind_Raise; [| apply Heq]].
    eexists _, _. split; [done |]. split; [by left |].
    intros Hf. exfalso.
    destruct (end_all_loop_no_fault
                (order_by by_login_time_desc (List.filter q (session_trackers w)) w)
                reason 0 now w Hf) as (w2 & Heq2 & _).
    { apply (table_ok_sorted_query now _ q by_login_time_desc w); try done.
      apply sessions_to_end_active. }
    unfold atomic in Heq. erewrite mbind_Ok in Heq;
      [| by apply qs_list_no_fault].
    by rewrite Heq2 in Heq.
Qed.

Lemma end_all_sessions_all_or_nothing_witness :
  ∃ n w',
    SessionManager.end_all_sessions_for_user alice "admin_action" None 30
      (world_of two_sessions)
    = (Ok n, w')
    ∧ n = 2%nat ∧ active_count alice w' = 0%nat.
Proof.
  destruct (end_all_sessions_all_or_nothing alice "admin_action" None 30
              (world_of two_sessions))
    as (n & w' & Heq & _ & Hdone).
  - change (table_ok 30 two_sessions). unfold two_sessions. table_ok_two.
  - destruct (Hdone eq_refl) as [[Hn _] Hnone].
    exists n, w'. split_and!; [exact Heq | exact Hn | by apply Hnone].
Defined.

(** ** Ending sessions without a transaction *)

Lemma delete_transport_session_quietly_any key w :
  ∃ w',
    delete_transport_session_quietly key w = (Ok tt, w')
    ∧ session_trackers w' = session_trackers w ∧ next_pk w' = next_pk w
    ∧ cache w' = cache w
    ∧ (db_faults w = [] →
       w' = set_django_sessions (delete key (django_sessions w)) w).
Proof.
  unfold delete_transport_session_quietly, try_except, Session_delete, mbind,
    M_bind, bind, modify, mret, M_ret, ret.
  rewrite db_cases. destruct (tick_fields w) as (Hrows & Hpk & _ & Hc & _).
  destruct (db_faults w) as [|[] fs] eqn:Hf; eexists; (split; [done |]);
    simpl; split_and!; try done.
  intros _. by rewrite tick_no_fault.
Qed.

(** The loop of [terminate_user_sessions] ends the sessions one by one, in
    the order of the query set, and stops at the first failure. *)
Lemma terminate_loop_any (l : list SessionTracker) : ∀ c now w,
  (∀ s, s ∈ l → endable now (session_trackers w) s) →
  ∃ r w' k,
    utils.terminate_loop l c now w = (r, w')
    ∧ (k ≤ length l)%nat
    ∧ session_trackers w'
      = end_pks "admin_action" now (map pk (take k l)) (session_trackers w)
    ∧ (∀ n, r = Ok n → n = (c + length l)%nat ∧ k = length l)
    ∧ (db_faults w = [] → r = Ok (c + length l)%nat ∧ db_faults w' = []).
Proof.
  induction l as [|s l IH]; intros c now w Hl; simpl.
  - exists (Ok c), w, 0%nat. rewrite end_pks_nil, Nat.add_0_r.
    split_and!; try done. by intros n [= <-].
  - unfold mbind at 1, M_bind, bind.
    rewrite (end_session_cases s "admin_action" now)
      by apply Hl, list_elem_of_here.
    set (w1 := set_trackers
                 (end_pks "admin_action" now [pk s] (session_trackers w))
                 (tick w)).
    assert (Hgo : ∃ r w' k,
      (delete_transport_session_quietly (session_key s) ;;
       utils.terminate_loop l (S c) now) w1 = (r, w')
      ∧ (k ≤ S (length l))%nat
      ∧ session_trackers w'
        = end_pks "admin_action" now (map pk (take k (s :: l)))
            (session_trackers w)
      ∧ (∀ n, r = Ok n → n = (c + S (length l))%nat ∧ k = S (length l))
      ∧ (db_faults w1 = [] →
         r = Ok (c + S (length l))%nat ∧ db_faults w' = [])).
    { destruct (delete_transport_session_quietly_any (session_key s) w1)
        as (w2 & Heq & Hrows & _ & _ & Hnf).
      erewrite mbind_Ok; [| apply Heq].
      destruct (IH (S c) now w2) as (r & w' & k & Heq' & Hk & Hrows' & Hr & Hf').
      { intros s' Hs'. rewrite Hrows. subst w1. simpl.
        apply endable_end_pks, Hl. by apply list_elem_of_further. }
      exists r, w', (S k). split_and!.
      - done.
      - lia.
      - rewrite Hrows', Hrows. subst w1. simpl. apply end_pks_cons.
      - intros n Hn. destruct (Hr n Hn) as [-> ->]. split; [lia | done].
      - intros Hf1. destruct Hf' as [-> Hf'].
        { rewrite (Hnf Hf1). done. }
        split; [f_equal; lia | done]. }
    destruct (tick_fields w) as (Hrows & _).
    destruct (db_faults w) as [|[] fs] eqn:Hf.
    + destruct Hgo as (r & w' & k & Heq & Hk & Hrows' & Hr & Hf').
      exists r, w', k. split_and!; try done. intros _. apply Hf'.
      subst w1. simpl. by rewrite tick_no_fault.
    + exists (Raise DatabaseError), (tick w), 0%nat. simpl.
      rewrite end_pks_nil. split_and!; try done. lia.
    + destruct Hgo as (r & w' & k & Heq & Hk & Hrows' & Hr & Hf').
      exists r, w', k. by split_and!.
Qed.

Lemma sessions_to_terminate_active u excl s :
  utils.sessions_to_terminate u excl s = true → status s = active.
Proof.
  assert (H : utils.get_user_active_sessions u s = true → status s = active)
    by apply active_for_user_status.
  unfold utils.sessions_to_terminate.
  destruct excl as [key |]; [destruct (String.eqb key EmptyString) |]; try done.
  intros [H' _]%andb_true_iff. auto.
Qed.

(** [terminate_user_sessions] never raises, and it does not undo what it has
    done: it ends the active sessions of the user one by one, in the order in
    which the database lists them (newest login first, sessions with the same
    login time as the database has them), and stops at the first failure of
    the store. It then returns 0 although the sessions it got to stay ended.
    With a database that answers it ends all of them and returns their
    number. *)
Theorem terminate_user_sessions_no_rollback (u : User)
    (exclude_session_key : option string) (now : datetime) (w : World) :
  table_ok now (session_trackers w) →
  let q := utils.sessions_to_terminate u exclude_session_key in
  let l := order_by by_login_time_desc (List.filter q (session_trackers w)) w in
  ∃ n w' k,
    utils.terminate_user_sessions u exclude_session_key now w = (Ok n, w')
    ∧ (k ≤ length l)%nat
    ∧ session_trackers w'
      = end_pks "admin_action" now (map pk (take k l)) (session_trackers w)
    ∧ (n = 0%nat ∨ n = length l ∧ k = length l)
    ∧ (db_faults w = [] →
       n = length l
       ∧ session_trackers w'
         = end_rows "admin_action" now q (session_trackers w)).
Proof.
  intros Hok q l. unfold utils.terminate_user_sessions. cbv zeta. fold q.
  unfold try_except, mbind, M_bind, bind. rewrite qs_list_cases. fold l.
  destruct (tick_fields w) as (Hrows & _).
  destruct (terminate_loop_any l 0 now (tick w))
    as (r & w' & k & Heq & Hk & Hrows' & Hr & Hnf).
  { intros s Hs. rewrite Hrows.
    apply (table_ok_sorted_query now _ q by_login_time_desc w); try done.
    apply sessions_to_terminate_active. }
  rewrite Hrows in Hrows'.
  assert (Hall : k = length l →
    end_pks "admin_action" now (map pk (take k l)) (session_trackers w)
    = end_rows "admin_action" now q (session_trackers w)).
  { intros ->. rewrite firstn_all. by apply (end_pks_query _ now). }
  destruct (db_faults w) as [|[] fs] eqn:Hf.
  - rewrite Heq. destruct Hnf as [-> Hf'].
    { by rewrite tick_no_fault. }
    destruct (Hr _ eq_refl) as [_ ->].
    exists (length l), w', (length l). split_and!; try done.
    + by right.
    + intros _. split; [done |]. rewrite Hrows'. by apply Hall.
  - exists 0%nat, (tick w), 0%nat. simpl. rewrite end_pks_nil.
    split_and!; try done; [lia | by left].
  - rewrite Heq. destruct r as [n | e].
    + destruct (Hr n eq_refl) as [-> ->].
      exists (length l), w', (length l). split_and!; try done. by right.
    + exists 0%nat, w', k. split_and!; try done. by left.
Qed.

Lemma terminate_user_sessions_no_rollback_witness :
  let w := set_db_faults [false; false; false; true] (world_of two_sessions) in
  ∃ n w' k,
    utils.terminate_user_sessions alice None 30 w = (Ok n, w')
    ∧ (k ≤ 2)%nat
    ∧ session_trackers w'
      = end_pks "admin_action" 30
          (map pk (take k (order_by by_login_time_desc two_sessions w)))
          two_sessions
    ∧ (n = 0%nat ∨ n = 2%nat ∧ k = 2%nat).
Proof.
  intros w.
  destruct (terminate_user_sessions_no_rollback alice None 30 w)
    as (n & w' & k & Heq & Hk & Hrows & Hn & _).
  - change (table_ok 30 two_sessions). unfold two_sessions. table_ok_two.
  - exists n, w', k. split_and!; [exact Heq | exact Hk | exact Hrows | exact Hn].
Defined.

(** The same failure of the store on the second save, under both ways of
    ending the sessions of a user: [terminate_user_sessions] reports 0 and has
    ended one session, [end_all_sessions_for_user] reports 0 and has ended
    none. The two sessions logged in at the same instant: which of them
    [terminate_user_sessions] got to depends on the database. *)
Example second_save_fails :
  let w := set_db_faults [false; false; false; true] (world_of two_sessions) in
  let r1 := utils.terminate_user_sessions alice None 30 w in
  let r2 := SessionManager.end_all_sessions_for_user alice "admin_action" None
              30 w in
  r1.1 = Ok 0%nat
  ∧ map status (session_trackers r1.2) = [inactive; active]
  ∧ r2.1 = Ok 0%nat
  ∧ map status (session_trackers r2.2) = [active; active]
  ∧ map status
      (session_trackers
         (utils.terminate_user_sessions alice None 30
            (set_db_ties last_row_first w)).2)
    = [active; inactive].
Proof. by vm_compute. Qed.

(** ** Logging in *)









(** ** One timeout, three tests *)

Lemma scaled_den_pos a q e : 0 < q → 0 < (scaled a q e).2.
Proof.
  intros Hq. unfold scaled. destruct (Z.leb_spec 0 e); simpl; [| done].
  assert (0 < 2 ^ e) by (apply Z.pow_pos_nonneg; lia). nia.
Qed.

(** The exponent [true_divide] settles on leaves a quotient of at least
    [2^52]: the mantissa has its 53 bits. *)
Lemma true_divide_normal (a : Z) :
  0 < a →
  let e0 := Z.log2 a - Z.log2 1000000 - 52 in
  let e := if (scaled a 1000000 e0).1 <? 2 ^ 52 * (scaled a 1000000 e0).2
           then e0 - 1 else e0 in
  2 ^ 52 * (scaled a 1000000 e).2 ≤ (scaled a 1000000 e).1.
Proof.
  intros Ha e0 e. subst e.
  destruct (Z.ltb_spec (scaled a 1000000 e0).1
              (2 ^ 52 * (scaled a 1000000 e0).2)) as [_ | Hge]; [| done].
  subst e0. change (Z.log2 1000000) with 19.
  pose proof (Z.log2_spec a Ha) as [Hlo _].
  pose proof (Z.log2_nonneg a) as Hla.
  set (la := Z.log2 a) in *. unfold scaled.
  destruct (Z.leb_spec 0 (la - 19 - 52 - 1)) as [Hk | Hk]; simpl.
  - assert (Hpow : 2 ^ la = 2 ^ 72 * 2 ^ (la - 19 - 52 - 1)).
    { rewrite <- Z.pow_add_r by lia. f_equal. lia. }
    assert (0 < 2 ^ (la - 19 - 52 - 1)) by (apply Z.pow_pos_nonneg; lia).
    change (2 ^ 72) with 4722366482869645213696 in Hpow.
    change (2 ^ 52) with 4503599627370496. nia.
  - assert (Hpow : 2 ^ la * 2 ^ (- (la - 19 - 52 - 1)) = 2 ^ 72).
    { rewrite <- Z.pow_add_r by lia. f_equal. lia. }
    assert (0 < 2 ^ (- (la - 19 - 52 - 1))) by (apply Z.pow_pos_nonneg; lia).
    change (2 ^ 72) with 4722366482869645213696 in Hpow.
    change (2 ^ 52) with 4503599627370496. nia.
Qed.

(** Rounding to the nearest mantissa moves a quotient by at most one. *)
Lemma round_cases (num den : Z) :
  0 < den →
  let qt := num / den in
  let r := num mod den in
  let m := if 2 * r <? den then qt
           else if den <? 2 * r then qt + 1
           else if Z.even qt then qt else qt + 1 in
  num = den * qt + r ∧ 0 ≤ r < den
  ∧ (m = qt ∧ 2 * r ≤ den ∨ m = qt + 1 ∧ den ≤ 2 * r).
Proof.
  intros Hden qt r m.
  pose proof (Z.div_mod num den ltac:(lia)) as Hdm.
  pose proof (Z.mod_pos_bound num den Hden) as Hr.
  split; [done |]. split; [done |]. subst m.
  destruct (Z.ltb_spec (2 * r) den); [left; lia |].
  destruct (Z.ltb_spec den (2 * r)); [right; lia |].
  destruct (Z.even qt); [left | right]; lia.
Qed.

(** For a whole number of seconds [s] below [2^33], some 272 years, the
    comparison of the float [d.total_seconds()] with [s] is the comparison of
    the microseconds of [d] with those of [s]. *)
Lemma total_seconds_gt_float (d : timedelta) (s : Z) :
  0 ≤ s < 2 ^ 33 →
  float_gt_int (total_seconds d) s = total_seconds_gt d s.
Proof.
  intros [Hs0 Hs]. unfold total_seconds, true_divide, total_seconds_gt, second.
  destruct (Z.eqb_spec d 0) as [-> | Hd0].
  { unfold float_gt_int. simpl.
    destruct (Z.ltb_spec s 0), (Z.ltb_spec (s * 1000000) 0); lia. }
  set (a := Z.abs d).
  assert (Ha : 0 < a) by (subst a; lia).
  pose proof (true_divide_normal a Ha) as Hnorm. cbv zeta in Hnorm.
  set (e := if (scaled a 1000000 (Z.log2 a - Z.log2 1000000 - 52)).1
               <? 2 ^ 52
                  * (scaled a 1000000 (Z.log2 a - Z.log2 1000000 - 52)).2
            then Z.log2 a - Z.log2 1000000 - 52 - 1
            else Z.log2 a - Z.log2 1000000 - 52) in *.
  pose proof (scaled_den_pos a 1000000 e ltac:(lia)) as Hden.
  destruct (round_cases (scaled a 1000000 e).1 (scaled a 1000000 e).2 Hden)
    as (Hdm & Hr & Hm). cbv zeta in Hm.
  set (num := (scaled a 1000000 e).1) in *.
  set (den := (scaled a 1000000 e).2) in *.
  set (qt := num / den) in *. set (r := num mod den) in *.
  set (m := if 2 * r <? den then qt
            else if den <? 2 * r then qt + 1
            else if Z.even qt then qt else qt + 1) in *.
  assert (Hqt : 2 ^ 52 ≤ qt).
  { change (2 ^ 52) with 4503599627370496 in *. nia. }
  assert (Hmq : qt ≤ m ≤ qt + 1) by lia.
  change (2 ^ 52) with 4503599627370496 in *.
  change (2 ^ 33) with 8589934592 in *.
  unfold float_gt_int. cbn [mantissa exponent].
  destruct (Z.lt_total d 0) as [Hneg | [? | Hpos]]; [| lia |].
  - (* a negative duration *)
    replace (Z.sgn d) with (-1) by lia.
    destruct (Z.leb_spec 0 e).
    + assert (0 < 2 ^ e) by (apply Z.pow_pos_nonneg; lia).
      destruct (Z.ltb_spec s (-1 * m * 2 ^ e)),
        (Z.ltb_spec (s * 1000000) d); try lia; nia.
    + assert (0 < 2 ^ (- e)) by (apply Z.pow_pos_nonneg; lia).
      destruct (Z.ltb_spec (s * 2 ^ (- e)) (-1 * m)),
        (Z.ltb_spec (s * 1000000) d); try lia; nia.
  - replace (Z.sgn d) with 1 by lia. replace a with d in * by (subst a; lia).
    subst num den. unfold scaled in *.
    destruct (Z.leb_spec 0 e) as [He | He]; cbn [fst snd] in *.
    + assert (0 < 2 ^ e) by (apply Z.pow_pos_nonneg; lia).
      destruct (Z.ltb_spec s (1 * m * 2 ^ e)),
        (Z.ltb_spec (s * 1000000) d); try lia; nia.
    + assert (HP : 0 < 2 ^ (- e)) by (apply Z.pow_pos_nonneg; lia).
      set (P := 2 ^ (- e)) in *.
      destruct (Z.ltb_spec (s * P) (1 * m)),
        (Z.ltb_spec (s * 1000000) d); try lia.
      * (* the float is above, the duration is not *)
        destruct Hm as [[Hm H2r] | [Hm H2r]]; nia.
      * (* the duration is above, the float is not *)
        destruct Hm as [[Hm H2r] | [Hm H2r]]; nia.
Qed.

(** The query of the sweeps ([last_activity] before the cutoff, compared by
    the database), the test of the middleware and the method
    [is_session_expired] of the model (both on the float
    [total_seconds()]) are written differently, and for a timeout below
    [2^33] seconds they agree: at any instant the sweeps select exactly the
    active sessions that the middleware would answer with a timeout, and on
    an active session the method of the model gives the answer of the
    middleware. [timed_out] is the test on the float as the code computes
    it. *)
Theorem due_iff_timed_out (settings : Settings) (s : SessionTracker)
    (now : datetime) :
  let m := SESSION_TIMEOUT_MINUTES settings in
  0 ≤ m * 60 < 2 ^ 33 →
  let timed_out :=
    float_gt_int (total_seconds (now - last_activity s)) (m * 60) in
  SessionValidationMiddleware._is_session_expired settings s now = timed_out
  ∧ due m now s = status_eqb (status s) active && timed_out
  ∧ (status s = active → is_session_expired s m now = timed_out).
Proof.
  intros m Hm timed_out. subst timed_out.
  rewrite total_seconds_gt_float by done.
  assert (Heq : (last_activity s <? now - minutes m)
                = total_seconds_gt (now - last_activity s) (m * 60)).
  { unfold total_seconds_gt, minutes, minute.
    destruct (Z.ltb_spec (last_activity s) (now - m * (60 * second)));
      destruct (Z.ltb_spec (m * 60 * second) (now - last_activity s));
      try done; lia. }
  split_and!.
  - done.
  - unfold due. by rewrite Heq.
  - intros Hs. unfold is_session_expired. by rewrite Hs.
Qed.

Lemma due_iff_timed_out_witness :
  let timed_out :=
    float_gt_int (total_seconds (minutes 60 - last_activity idle_45)) (30 * 60)
  in
  timed_out = true
  ∧ SessionValidationMiddleware._is_session_expired default_settings idle_45
      (minutes 60) = timed_out
  ∧ due 30 (minutes 60) idle_45 = timed_out
  ∧ is_session_expired idle_45 30 (minutes 60) = timed_out.
Proof.
  intros timed_out.
  destruct (due_iff_timed_out default_settings idle_45 (minutes 60))
    as (H1 & H2 & H3).
  - simpl. lia.
  - split; [reflexivity |]. split; [exact H1 |]. split.
    + exact H2.
    + apply H3. reflexivity.
Defined.

(** Beyond that range the float gives way. With a timeout of 300 million
    minutes, some 570 years, and a session idle for a microsecond longer, the
    query of the sweeps selects the session, and the float [total_seconds()]
    of the idle time is the float of the timeout itself, not greater. *)
Example float_timeout_out_of_range :
  let m := 300000000 in
  let now := minutes m + 1 in
  let s := idle_tracker 1 7 "k" now (minutes m + 1) in
  last_activity s = 0
  ∧ due m now s = true
  ∧ float_gt_int (total_seconds (now - last_activity s)) (m * 60) = false.
Proof. by vm_compute. Qed.

(** ** AccessControlMiddleware *)

Lemma log_access_violation_any request violation_type details now w :
  ∃ w',
    AccessControlMiddleware._log_access_violation request violation_type
      details now w = (Ok tt, w')
    ∧ next_pk w' = next_pk w ∧ django_sessions w' = django_sessions w
    ∧ cache w' = cache w
    ∧ (AccessControlMiddleware.session_tracker request = None → w' = w).
Proof.
  unfold AccessControlMiddleware._log_access_violation, try_except.
  destruct (AccessControlMiddleware.session_tracker request) as [t |];
    [| by exists w].
  unfold add_violation. rewrite save_cases.
  destruct (tick_fields w) as (_ & Hpk & Hdj & Hc & _).
  destruct (db_faults w) as [|[] fs];
    try (eexists; split; [done |]; by split_and!);
    destruct (clean_rejects _ || _);
    try (eexists; split; [done |]; by split_and!);
    destruct (existsb _ _); eexists; (split; [done |]); by split_and!.
Qed.

Lemma handle_time_restriction_violation_any request rule now w :
  ∃ w',
    AccessControlMiddleware._handle_time_restriction_violation request rule now
      w = (Ok (Some (time_restriction_response request)), w')
    ∧ next_pk w' = next_pk w ∧ django_sessions w' = django_sessions w
    ∧ cache w' = cache w
    ∧ (AccessControlMiddleware.session_tracker request = None → w' = w).
Proof.
  unfold AccessControlMiddleware._handle_time_restriction_violation.
  destruct (log_access_violation_any request "time_restriction"
              ("Access outside allowed time for role "
               ++ AccessControlMiddleware.role_name (AccessControl.role rule))
              now w) as (w' & Heq & H).
  exists w'. split; [| done].
  erewrite try_except_bind_Ok; [| apply Heq].
  unfold time_restriction_response.
  by destruct (AccessControlMiddleware.is_ajax request).
Qed.

Lemma get_user_access_rules_cases rules request now w :
  ∃ w',
    AccessControlMiddleware._get_user_access_rules rules request now w
    = (Ok (resolved_rule rules request now w), w')
    ∧ session_trackers w' = session_trackers w ∧ next_pk w' = next_pk w
    ∧ django_sessions w' = django_sessions w
    ∧ (db_faults w = [] → db_faults w' = []).
Proof.
  unfold AccessControlMiddleware._get_user_access_rules, resolved_rule,
    try_except.
  destruct (AccessControlMiddleware.profile_role request) as [role |];
    [| by exists w].
  unfold mbind at 1, M_bind, bind, get_world.
  destruct (cache_get _ _ now) as [rule |]; [by exists w |].
  unfold try_except_DoesNotExist, AccessControlMiddleware.objects_get,
    AccessControlMiddleware.cache_rule, active_rule, mbind, M_bind, bind,
    modify, raise, mret, M_ret, ret.
  rewrite db_cases.
  destruct (tick_fields w) as (Hrows & Hpk & Hdj & _ & Hft).
  destruct (db_faults w) as [|[] fs] eqn:Hf;
    try (by eexists; split; [done | split_and!]);
    destruct (List.filter _ rules) as [|x [|y l]];
    eexists; (split; [done |]); simpl; split_and!; try done;
    by rewrite Hft.
Qed.

(** The access control middleware refuses a request exactly when the rule it
    resolves for the role of the user does not allow the instant of the
    request, and the refusal is always the 403 of the time restriction. The
    lists of allowed and blocked domains of the rule are never read: the
    resource check only returns [True]. No rule is resolved for a user without
    a profile, for a role without exactly one active rule, or when the lookup
    in the database fails; the request then passes. *)
Theorem access_control_enforces_time_only (rules : list AccessControl.t)
    (request : AccessControlMiddleware.Request) (now : datetime) (w : World) :
  AccessControlMiddleware._is_exempt_url (AccessControlMiddleware.path request)
  = false →
  AccessControlMiddleware.user_is_authenticated request = true →
  let decision :=
    match resolved_rule rules request now w with
    | Some rule =>
        if AccessControl.is_time_allowed rule now then None
        else Some (time_restriction_response request)
    | None => None
    end in
  ∃ w',
    AccessControlMiddleware.process_request rules request now w
    = (Ok decision, w')
    ∧ next_pk w' = next_pk w ∧ django_sessions w' = django_sessions w
    ∧ (AccessControlMiddleware.session_tracker request = None →
       session_trackers w' = session_trackers w).
Proof.
  intros Hexempt Hauth decision. subst decision.
  unfold AccessControlMiddleware.process_request.
  rewrite Hexempt, Hauth. cbn [negb].
  destruct (get_user_access_rules_cases rules request now w)
    as (w1 & Heq & Hrows & Hpk & Hdj & _).
  erewrite mbind_Ok; [| apply Heq]. cbv beta iota.
  destruct (resolved_rule rules request now w) as [rule |];
    [| by exists w1].
  unfold AccessControlMiddleware._is_time_allowed,
    AccessControlMiddleware._is_resource_allowed.
  destruct (AccessControl.is_time_allowed rule now); cbn [negb];
    [by exists w1 |].
  destruct (handle_time_restriction_violation_any request rule now w1)
    as (w2 & Heq2 & Hpk2 & Hdj2 & _ & Hsame).
  exists w2. split_and!; try done; try congruence.
  intros Hnone. by rewrite (Hsame Hnone).
Qed.

Lemma access_control_enforces_time_only_witness :
  ∃ w',
    AccessControlMiddleware.process_request [office_hours] student_request
      saturday_10_00 empty_world
    = (Ok (Some (AccessControlMiddleware.HttpResponseForbidden
                   "Access not allowed at this time. Your role has time-based restrictions.")),
       w').
Proof.
  destruct (access_control_enforces_time_only [office_hours] student_request
              saturday_10_00 empty_world)
    as (w' & Heq & _); try reflexivity.
  by exists w'.
Defined.

(** ** The cached access rules *)

Lemma get_user_access_rules_miss rules request now w role rule :
  AccessControlMiddleware.profile_role request = Some role →
  cache_get (access_rules (cache w)) (AccessControlMiddleware.cache_key role)
    now = None →
  db_faults w = [] →
  active_rule rules role = Some rule →
  AccessControlMiddleware._get_user_access_rules rules request now w
  = (Ok (Some rule),
     set_cache
       (set_access_rules
          (cache_set (access_rules (cache w))
             (AccessControlMiddleware.cache_key role) rule
             AccessControlMiddleware.CACHE_TIMEOUT now) (cache w)) w).
Proof.
  intros Hrole Hmiss Hf Hrule.
  unfold AccessControlMiddleware._get_user_access_rules, try_except.
  rewrite Hrole. unfold mbind at 1, M_bind, bind, get_world. rewrite Hmiss.
  unfold try_except_DoesNotExist, AccessControlMiddleware.objects_get,
    AccessControlMiddleware.cache_rule, mbind, M_bind, bind, modify, raise,
    mret, M_ret, ret.
  rewrite (db_no_fault w Hf). unfold active_rule in Hrule.
  destruct (List.filter _ rules) as [|x [|y l]]; try done.
  by injection Hrule as ->.
Qed.

Lemma get_user_access_rules_hit rules request now w role rule :
  AccessControlMiddleware.profile_role request = Some role →
  cache_get (access_rules (cache w)) (AccessControlMiddleware.cache_key role)
    now = Some rule →
  AccessControlMiddleware._get_user_access_rules rules request now w
  = (Ok (Some rule), w).
Proof.
  intros Hrole Hhit.
  unfold AccessControlMiddleware._get_user_access_rules, try_except.
  rewrite Hrole. unfold mbind at 1, M_bind, bind, get_world. by rewrite Hhit.
Qed.

(** The decision on a request once its rule is known. *)
Lemma process_request_with_rule rules request now w w1 rule :
  AccessControlMiddleware._is_exempt_url (AccessControlMiddleware.path request)
  = false →
  AccessControlMiddleware.user_is_authenticated request = true →
  AccessControlMiddleware._get_user_access_rules rules request now w
  = (Ok (Some rule), w1) →
  ∃ w2,
    AccessControlMiddleware.process_request rules request now w
    = (Ok (if AccessControl.is_time_allowed rule now then None
           else Some (time_restriction_response request)), w2)
    ∧ cache w2 = cache w1.
Proof.
  intros Hexempt Hauth Heq.
  unfold AccessControlMiddleware.process_request.
  rewrite Hexempt, Hauth. cbn [negb].
  erewrite mbind_Ok; [| apply Heq]. cbv beta iota.
  unfold AccessControlMiddleware._is_time_allowed,
    AccessControlMiddleware._is_resource_allowed.
  destruct (AccessControl.is_time_allowed rule now); cbn [negb];
    [by exists w1 |].
  destruct (handle_time_restriction_violation_any request rule now w1)
    as (w2 & Heq2 & _ & _ & Hc & _).
  by exists w2.
Qed.

Lemma keeps_rules_ret {A} (a : A) : keeps_rules (mret a : M A).
Proof. by intros w. Qed.

Lemma keeps_rules_raise {A} (e : exn) : keeps_rules (raise e : M A).
Proof. by intros w. Qed.

Lemma keeps_rules_bind {A B} (m : M A) (k : A → M B) :
  keeps_rules m → (∀ a, keeps_rules (k a)) → keeps_rules (m ≫= k).
Proof.
  intros Hm Hk w. specialize (Hm w).
  unfold mbind, M_bind, bind. destruct (m w) as [[a | e] w']; simpl in *.
  - by rewrite Hk.
  - done.
Qed.

Lemma keeps_rules_try_except {A} (m : M A) (h : exn → M A) :
  keeps_rules m → (∀ e, keeps_rules (h e)) → keeps_rules (try_except m h).
Proof.
  intros Hm Hh w. specialize (Hm w).
  unfold try_except. destruct (m w) as [[a | e] w']; simpl in *.
  - done.
  - by rewrite Hh.
Qed.

Lemma keeps_rules_try_except_DoesNotExist {A} (m h : M A) :
  keeps_rules m → keeps_rules h → keeps_rules (try_except_DoesNotExist m h).
Proof.
  intros Hm Hh w. specialize (Hm w).
  unfold try_except_DoesNotExist. destruct (m w) as [[a | []] w']; simpl in *;
    try done.
  by rewrite Hh.
Qed.

(** A rollback is of the database: the cache is not part of the transaction. *)
Lemma keeps_rules_atomic {A} (m : M A) : keeps_rules m → keeps_rules (atomic m).
Proof.
  intros Hm w. specialize (Hm w).
  unfold atomic. by destruct (m w) as [[a | e] w'].
Qed.

Lemma keeps_rules_db : keeps_rules db.
Proof.
  intros w. rewrite db_cases.
  destruct (tick_fields w) as (_ & _ & _ & Hc & _).
  destruct (db_faults w) as [|[] ?]; simpl; by rewrite Hc.
Qed.

Lemma keeps_rules_get_world : keeps_rules get_world.
Proof. by intros w. Qed.

Lemma keeps_rules_modify (f : World → World) :
  (∀ w, access_rules (cache (f w)) = access_rules (cache w)) →
  keeps_rules (modify f).
Proof. intros Hf w. apply Hf. Qed.

Create HintDb keeps_rules.

#[local] Hint Resolve keeps_rules_ret keeps_rules_raise keeps_rules_db
  keeps_rules_get_world : keeps_rules.

Ltac keeps_rules_auto :=
  repeat first
    [ solve [auto 1 with keeps_rules nocore]
    | match goal with
      | |- keeps_rules (try_except_DoesNotExist _ _) =>
          apply keeps_rules_try_except_DoesNotExist
      | |- keeps_rules (try_except _ _) =>
          apply keeps_rules_try_except; [| intros ?]
      | |- keeps_rules (atomic _) => apply keeps_rules_atomic
      | |- keeps_rules (mbind _ _) => apply keeps_rules_bind; [| intros ?]
      | |- keeps_rules (modify _) =>
          apply keeps_rules_modify; intros ?; reflexivity
      | |- keeps_rules (if ?b then _ else _) => destruct b
      | |- keeps_rules (match ?x with _ => _ end) => destruct x
      end ].

Lemma keeps_rules_qs_list q : keeps_rules (qs_list q).
Proof. unfold qs_list. keeps_rules_auto. Qed.

Lemma keeps_rules_qs_count q : keeps_rules (qs_count q).
Proof. unfold qs_count. keeps_rules_auto. Qed.

Lemma keeps_rules_qs_exists q : keeps_rules (qs_exists q).
Proof. unfold qs_exists. keeps_rules_auto. Qed.

Lemma keeps_rules_qs_oldest q : keeps_rules (qs_oldest q).
Proof. unfold qs_oldest. keeps_rules_auto. Qed.

Lemma keeps_rules_objects_get q : keeps_rules (objects_get q).
Proof. unfold objects_get. keeps_rules_auto. Qed.

Lemma keeps_rules_save self write : keeps_rules (save self write).
Proof. unfold save, full_clean. keeps_rules_auto. Qed.

Lemma keeps_rules_objects_create u d key ip ua now :
  keeps_rules (objects_create u d key ip ua now).
Proof. unfold objects_create, full_clean. keeps_rules_auto. Qed.

Lemma keeps_rules_Session_get key : keeps_rules (Session_get key).
Proof. unfold Session_get. keeps_rules_auto. Qed.

Lemma keeps_rules_Session_delete key : keeps_rules (Session_delete key).
Proof. unfold Session_delete. keeps_rules_auto. Qed.

#[local] Hint Resolve keeps_rules_qs_list keeps_rules_qs_count
  keeps_rules_qs_exists keeps_rules_qs_oldest keeps_rules_objects_get
  keeps_rules_save keeps_rules_objects_create keeps_rules_Session_get
  keeps_rules_Session_delete : keeps_rules.

Lemma keeps_rules_end_session self reason now :
  keeps_rules (end_session self reason now).
Proof. apply keeps_rules_save. Qed.

Lemma keeps_rules_add_violation self ty details now :
  keeps_rules (add_violation self ty details now).
Proof. apply keeps_rules_save. Qed.

Lemma keeps_rules_update_activity self now :
  keeps_rules (update_activity self now).
Proof. apply keeps_rules_save. Qed.

#[local] Hint Resolve keeps_rules_end_session keeps_rules_add_violation
  keeps_rules_update_activity : keeps_rules.

Lemma keeps_rules_for_each {A} (l : list A) (body : A → M unit) :
  (∀ x, keeps_rules (body x)) → keeps_rules (for_each l body).
Proof.
  intros Hb. induction l as [|x l IH]; simpl; [apply keeps_rules_ret |].
  apply keeps_rules_bind; [apply Hb | by intros _].
Qed.

Lemma keeps_rules_add_violations tracker activities details now :
  keeps_rules (SessionValidationMiddleware.add_violations tracker activities
                 details now).
Proof.
  revert tracker. induction activities as [|a l IH]; intros tracker; simpl;
    keeps_rules_auto.
Qed.

Lemma keeps_rules_end_all_loop l reason c now :
  keeps_rules (SessionManager.end_all_loop l reason c now).
Proof.
  revert c. induction l as [|s l IH]; intros c; simpl; keeps_rules_auto.
Qed.

Lemma keeps_rules_delete_transport_session_quietly key :
  keeps_rules (delete_transport_session_quietly key).
Proof. unfold delete_transport_session_quietly. keeps_rules_auto. Qed.

#[local] Hint Resolve keeps_rules_add_violations keeps_rules_end_all_loop
  keeps_rules_delete_transport_session_quietly : keeps_rules.

Lemma keeps_rules_terminate_loop l c now :
  keeps_rules (utils.terminate_loop l c now).
Proof.
  revert c. induction l as [|s l IH]; intros c; simpl; keeps_rules_auto.
Qed.

Lemma keeps_rules_end_selected_loop l c now :
  keeps_rules (admin.end_selected_loop l c now).
Proof.
  revert c. induction l as [|s l IH]; intros c; simpl; keeps_rules_auto.
Qed.

#[local] Hint Resolve keeps_rules_terminate_loop
  keeps_rules_end_selected_loop : keeps_rules.

Lemma keeps_rules_process_request settings request now :
  keeps_rules
    (SessionValidationMiddleware.process_request settings request now).
Proof.
  unfold SessionValidationMiddleware.process_request,
    SessionValidationMiddleware._get_or_create_session_tracker,
    SessionValidationMiddleware._create_new_session_tracker,
    SessionValidationMiddleware._handle_session_timeout,
    SessionValidationMiddleware._has_concurrent_sessions,
    SessionValidationMiddleware._handle_concurrent_session,
    SessionValidationMiddleware._update_activity_tracking,
    SessionValidationMiddleware._monitor_suspicious_activity,
    SessionValidationMiddleware.logout,
    SessionManager.handle_concurrent_session_attempt,
    SessionManager.can_create_new_session,
    SessionManager.get_session_count_for_user,
    SessionManager.end_oldest_session_for_user,
    SessionManager._clear_user_session_cache,
    SessionManager.create_session_notification,
    SessionSecurityMonitor.detect_suspicious_activity,
    SessionSecurityMonitor._has_rapid_login_attempts,
    SessionSecurityMonitor._has_unusual_ip_pattern.
  keeps_rules_auto.
Qed.

Lemma keeps_rules_cleanup_loop l c d now :
  keeps_rules (SessionManager.cleanup_loop l c d now).
Proof.
  revert c d. induction l as [|s l IH]; intros c d; simpl; keeps_rules_auto.
Qed.

#[local] Hint Resolve keeps_rules_cleanup_loop : keeps_rules.

(** A sweep of the session manager that reports statistics has cleared the
    cache; one that reports an error has left the cached rules alone. *)
Lemma manager_cleanup_cache settings timeout now w res w' :
  SessionManager.cleanup_expired_sessions settings timeout now w = (res, w') →
  match res with
  | Ok (SessionManager.Stats _ _ _ _) => cache w' = empty_cache
  | _ => access_rules (cache w') = access_rules (cache w)
  end.
Proof.
  unfold SessionManager.cleanup_expired_sessions, try_except.
  unfold mbind at 1, M_bind, bind.
  match goal with
  | |- context [atomic ?m w] =>
      assert (Hk : keeps_rules (atomic m)) by keeps_rules_auto
  end.
  specialize (Hk w).
  destruct (atomic _ w) as [[[e0 d0] | err] w1]; simpl in Hk.
  2:{ by intros [= <- <-]. }
  unfold SessionManager._clear_all_session_caches, mbind, M_bind, bind,
    get_world, modify, mret, M_ret, ret.
  destruct (tick_fields w1) as (_ & _ & _ & Hc1 & _).
  destruct (tick_fields (tick w1)) as (_ & _ & _ & Hc2 & _).
  rewrite db_cases. destruct (db_faults w1) as [|[] fs];
    try (intros [= <- <-]; by rewrite Hc1);
    rewrite db_cases; destruct (db_faults (tick w1)) as [|[] fs'];
    intros [= <- <-]; try done; by rewrite Hc2, Hc1.
Qed.

(** A change of the rules takes up to 300 seconds to be enforced, unless the
    cache is cleared before. Once a request has made the middleware read the
    active rule of a role from the table, the rule is in the cache until 300
    seconds later; while the entry is there, every request of that role
    before that instant is decided by that rule, whatever the table holds by
    then (the rule edited, deactivated or deleted) and whatever the database
    does. The session middleware, the ways of ending the sessions of a user,
    the sweep of the model and the administration screens leave the entry
    where it is. The sweep of the session manager does not: when it reports
    statistics it has cleared the cache, and the next request reads the table
    again; when it reports an error the cached rules are as they were. *)
Theorem access_rule_is_cached (rules rules' : list AccessControl.t)
    (request request' : AccessControlMiddleware.Request) (now now' : datetime)
    (w : World) (role : AccessControl.role_choice) (rule : AccessControl.t) :
  AccessControlMiddleware._is_exempt_url (AccessControlMiddleware.path request)
  = false →
  AccessControlMiddleware._is_exempt_url (AccessControlMiddleware.path request')
  = false →
  AccessControlMiddleware.user_is_authenticated request = true →
  AccessControlMiddleware.user_is_authenticated request' = true →
  AccessControlMiddleware.profile_role request = Some role →
  AccessControlMiddleware.profile_role request' = Some role →
  db_faults w = [] →
  cache_get (access_rules (cache w)) (AccessControlMiddleware.cache_key role)
    now = None →
  active_rule rules role = Some rule →
  now' < now + 300 * second →
  let cached :=
    λ w, access_rules (cache w) !! AccessControlMiddleware.cache_key role
         = Some (rule, now + 300 * second) in
  (∃ response w1,
     AccessControlMiddleware.process_request rules request now w
     = (Ok response, w1)
     ∧ cached w1)
  ∧ (∀ w2, cached w2 →
       ∃ w3,
         AccessControlMiddleware.process_request rules' request' now' w2
         = (Ok (if AccessControl.is_time_allowed rule now' then None
                else Some (time_restriction_response request')), w3)
         ∧ cached w3)
  ∧ (∀ settings rq t u reason exclude m session_id selection,
       keeps_rules (SessionValidationMiddleware.process_request settings rq t)
       ∧ keeps_rules
           (SessionManager.end_all_sessions_for_user u reason exclude t)
       ∧ keeps_rules (utils.terminate_user_sessions u exclude t)
       ∧ keeps_rules (CustomLoginView.form_valid u t)
       ∧ keeps_rules (cleanup_expired_sessions m t)
       ∧ keeps_rules (views.end_session_view session_id t)
       ∧ keeps_rules
           (views.manage_user_sessions_end_session (user_id u) session_id t)
       ∧ keeps_rules (admin.end_selected_sessions selection t)
       ∧ keeps_rules (admin.mark_as_violation selection))
  ∧ (∀ settings timeout t w2 res w3,
       SessionManager.cleanup_expired_sessions settings timeout t w2
       = (res, w3) →
       match res with
       | Ok (SessionManager.Stats _ _ _ _) =>
           cache w3 = empty_cache
           ∧ ∀ t', resolved_rule rules' request' t' w3
                   = match db_faults w3 with
                     | true :: _ => None
                     | _ => active_rule rules' role
                     end
       | _ => access_rules (cache w3) = access_rules (cache w2)
       end).
Proof.
  intros Hexempt Hexempt' Hauth Hauth' Hrole Hrole' Hf Hmiss Hrule Hlt cached.
  split_and!.
  - destruct (process_request_with_rule rules request now w _ rule Hexempt
                Hauth (get_user_access_rules_miss _ _ _ _ _ _ Hrole Hmiss Hf
                         Hrule)) as (w1 & Heq & Hc).
    eexists _, w1. split; [apply Heq |]. unfold cached. rewrite Hc. simpl.
    unfold cache_set. by rewrite lookup_insert_eq.
  - intros w2 Hw2.
    assert (Hhit : cache_get (access_rules (cache w2))
                     (AccessControlMiddleware.cache_key role) now' = Some rule).
    { unfold cache_get. rewrite Hw2.
      by rewrite (proj2 (Z.ltb_lt _ _) Hlt). }
    destruct (process_request_with_rule rules' request' now' w2 _ rule
                Hexempt' Hauth'
                (get_user_access_rules_hit _ _ _ _ _ _ Hrole' Hhit))
      as (w3 & Heq & Hc).
    exists w3. split; [apply Heq |]. unfold cached. by rewrite Hc.
  - intros settings rq t u reason exclude m session_id selection. split_and!.
    + apply keeps_rules_process_request.
    + unfold SessionManager.end_all_sessions_for_user,
        SessionManager._clear_user_session_cache. keeps_rules_auto.
    + unfold utils.terminate_user_sessions. keeps_rules_auto.
    + unfold CustomLoginView.form_valid. keeps_rules_auto.
      apply keeps_rules_for_each. intros s. keeps_rules_auto.
    + unfold cleanup_expired_sessions. keeps_rules_auto.
      apply keeps_rules_for_each. intros s. keeps_rules_auto.
    + unfold views.end_session_view. keeps_rules_auto.
    + unfold views.manage_user_sessions_end_session. keeps_rules_auto.
    + unfold admin.end_selected_sessions. keeps_rules_auto.
    + unfold admin.mark_as_violation. keeps_rules_auto.
  - intros settings timeout t w2 res w3 Hsweep.
    apply manager_cleanup_cache in Hsweep.
    destruct res as [[] |]; try done. split; [done |].
    intros t'. unfold resolved_rule. by rewrite Hrole', Hsweep.
Qed.

Lemma access_rule_is_cached_witness :
  (∃ response w1,
     AccessControlMiddleware.process_request [office_hours] student_request
       tuesday_12_00 empty_world
     = (Ok response, w1)
     ∧ access_rules (cache w1) !! 1%nat
       = Some (office_hours, tuesday_12_00 + 300 * second))
  ∧ ∃ w3,
      AccessControlMiddleware.process_request [] student_request
        (tuesday_12_00 + 299 * second)
        (set_cache
           (set_access_rules
              {[ 1%nat := (office_hours, tuesday_12_00 + 300 * second) ]}
              empty_cache) empty_world)
      = (Ok (if AccessControl.is_time_allowed office_hours
                  (tuesday_12_00 + 299 * second)
             then None
             else Some (time_restriction_response student_request)), w3).
Proof.
  destruct (access_rule_is_cached [office_hours] [] student_request
              student_request tuesday_12_00 (tuesday_12_00 + 299 * second)
              empty_world AccessControl.student office_hours)
    as (H1 & H2 & _); try reflexivity.
  split; [exact H1 |].
  destruct (H2 (set_cache
                  (set_access_rules
                     {[ 1%nat := (office_hours, tuesday_12_00 + 300 * second) ]}
                     empty_cache) empty_world)) as (w3 & Heq & _).
  - reflexivity.
  - by exists w3.
Defined.

(** On Saturday the students are refused under [office_hours]. The rule is
    then withdrawn: a request 10 seconds later is still refused, from the
    cache; after a sweep of the session manager the same request passes. *)
Example sweep_drops_cached_rule :
  let w1 := (AccessControlMiddleware.process_request [office_hours]
               student_request saturday_10_00 empty_world).2 in
  let later := saturday_10_00 + 10 * second in
  let w2 := (SessionManager.cleanup_expired_sessions default_settings None
               later w1).2 in
  (AccessControlMiddleware.process_request [] student_request later w1).1
  = Ok (Some (time_restriction_response student_request))
  ∧ (AccessControlMiddleware.process_request [] student_request later w2).1
    = Ok None.
Proof. by vm_compute. Qed.

(** ** What no operation does to the table of trackers *)

Lemma keeps_refl r : keeps r r.
Proof. by split_and!. Qed.

Lemma keeps_trans r1 r2 r3 : keeps r1 r2 → keeps r2 r3 → keeps r1 r3.
Proof.
  intros (A1 & A2 & A3 & A4 & A5 & A6 & A7 & A8 & A9)
    (B1 & B2 & B3 & B4 & B5 & B6 & B7 & B8 & B9).
  split_and!; try congruence; auto.
Qed.

Lemma Forall2_keeps_refl rows : Forall2 keeps rows rows.
Proof. induction rows; constructor; [apply keeps_refl | done]. Qed.

Lemma Forall2_keeps_trans l1 l2 l3 :
  Forall2 keeps l1 l2 → Forall2 keeps l2 l3 → Forall2 keeps l1 l3.
Proof.
  intros H12. revert l3. induction H12; intros l3 H23; inversion H23; subst.
  - constructor.
  - constructor; [by eapply keeps_trans | auto].
Qed.

Lemma retains_same_rows w w' :
  session_trackers w' = session_trackers w → retains w w'.
Proof.
  intros H. exists (session_trackers w), []. rewrite app_nil_r.
  split_and!; [done | apply Forall2_keeps_refl | constructor].
Qed.

Lemma retains_refl w : retains w w.
Proof. by apply retains_same_rows. Qed.

Lemma retains_trans w1 w2 w3 : retains w1 w2 → retains w2 w3 → retains w1 w3.
Proof.
  intros (k1 & e1 & H1 & F1 & T1) (k2 & e2 & H2 & F2 & T2). rewrite H1 in F2.
  apply Forall2_app_inv_l in F2 as (k2a & k2b & Fa & Fb & ->).
  exists k2a, (k2b ++ e2)%list. split_and!.
  - by rewrite H2, <- app_assoc.
  - by eapply Forall2_keeps_trans.
  - apply Forall_app. split; [| done].
    clear -Fb T1. induction Fb as [|r r' l l' Hk _ IH]; [constructor |].
    inversion T1; subst. constructor; [| auto].
    destruct Hk as (_ & _ & _ & _ & _ & _ & _ & _ & Ht). auto.
Qed.

Lemma retainer_ret {A} (a : A) : retainer (mret a : M A).
Proof. intros w. apply retains_refl. Qed.

Lemma retainer_raise {A} (e : exn) : retainer (raise e : M A).
Proof. intros w. apply retains_refl. Qed.

Lemma retainer_bind {A B} (m : M A) (k : A → M B) :
  retainer m → (∀ a, retainer (k a)) → retainer (m ≫= k).
Proof.
  intros Hm Hk w. specialize (Hm w).
  unfold mbind, M_bind, bind. destruct (m w) as [[a | e] w']; simpl in *.
  - eapply retains_trans; [done | apply Hk].
  - done.
Qed.

Lemma retainer_try_except {A} (m : M A) (h : exn → M A) :
  retainer m → (∀ e, retainer (h e)) → retainer (try_except m h).
Proof.
  intros Hm Hh w. specialize (Hm w).
  unfold try_except. destruct (m w) as [[a | e] w']; simpl in *.
  - done.
  - eapply retains_trans; [done | apply Hh].
Qed.

Lemma retainer_try_except_DoesNotExist {A} (m h : M A) :
  retainer m → retainer h → retainer (try_except_DoesNotExist m h).
Proof.
  intros Hm Hh w. specialize (Hm w).
  unfold try_except_DoesNotExist. destruct (m w) as [[a | []] w']; simpl in *;
    try done.
  eapply retains_trans; [done | apply Hh].
Qed.

(** A transaction that is rolled back leaves the rows it found. *)
Lemma retainer_atomic {A} (m : M A) : retainer m → retainer (atomic m).
Proof.
  intros Hm w. specialize (Hm w).
  unfold atomic. destruct (m w) as [[a | e] w']; simpl in *; [done |].
  by apply retains_same_rows.
Qed.

Lemma retainer_db : retainer db.
Proof.
  intros w. apply retains_same_rows. rewrite db_cases.
  destruct (tick_fields w) as (H & _). by destruct (db_faults w) as [|[] ?].
Qed.

Lemma retainer_get_world : retainer get_world.
Proof. intros w. apply retains_refl. Qed.

Lemma retainer_modify (f : World → World) :
  (∀ w, session_trackers (f w) = session_trackers w) → retainer (modify f).
Proof. intros Hf w. apply retains_same_rows. simpl. apply Hf. Qed.

Create HintDb retainer.

#[local] Hint Resolve retainer_ret retainer_raise retainer_db
  retainer_get_world : retainer.

(** Walks through binds, handlers and transactions; the leaves are closed
    from the hint database. *)
Ltac retainer_auto :=
  repeat first
    [ solve [auto 1 with retainer nocore]
    | match goal with
      | |- retainer (try_except_DoesNotExist _ _) =>
          apply retainer_try_except_DoesNotExist
      | |- retainer (try_except _ _) =>
          apply retainer_try_except; [| intros ?]
      | |- retainer (atomic _) => apply retainer_atomic
      | |- retainer (mbind _ _) => apply retainer_bind; [| intros ?]
      | |- retainer (modify _) =>
          apply retainer_modify; intros ?; reflexivity
      | |- retainer (if ?b then _ else _) => destruct b
      | |- retainer (match ?x with _ => _ end) => destruct x
      end ].

Lemma retainer_qs_list q : retainer (qs_list q).
Proof. unfold qs_list. retainer_auto. Qed.

Lemma retainer_qs_count q : retainer (qs_count q).
Proof. unfold qs_count. retainer_auto. Qed.

Lemma retainer_qs_exists q : retainer (qs_exists q).
Proof. unfold qs_exists. retainer_auto. Qed.

Lemma retainer_qs_oldest q : retainer (qs_oldest q).
Proof. unfold qs_oldest. retainer_auto. Qed.

Lemma retainer_objects_get q : retainer (objects_get q).
Proof. unfold objects_get. retainer_auto. Qed.

Lemma Forall2_keeps_updated self write rows :
  (∀ r, keeps r (write self r)) → Forall2 keeps rows (updated self write rows).
Proof.
  intros Hw. unfold updated. induction rows as [|r rows IH]; simpl;
    constructor; [| done].
  destruct (Nat.eqb _ _); [apply Hw | apply keeps_refl].
Qed.

Lemma retainer_save self write :
  (∀ r, keeps r (write self r)) → retainer (save self write).
Proof.
  intros Hw w. rewrite save_cases.
  destruct (tick_fields w) as (Hrows & _).
  destruct (db_faults w) as [|[] fs]; try (by apply retains_same_rows);
    destruct (clean_rejects self || _); try (by apply retains_same_rows);
    destruct (existsb _ _); try (by apply retains_same_rows);
    (exists (updated self write (session_trackers w)), [];
     rewrite app_nil_r;
     split_and!; [done | by apply Forall2_keeps_updated | constructor]).
Qed.

Lemma retainer_end_session self reason now :
  retainer (end_session self reason now).
Proof.
  apply retainer_save. intros r. split_and!; try done; simpl.
  - intros H. by apply status_of_reason_not_active in H.
  - unfold status_of_reason.
    destruct (String.eqb reason "violation"); [done |].
    by destruct (String.eqb reason "timeout").
Qed.

Lemma retainer_add_violation self ty details now :
  retainer (add_violation self ty details now).
Proof. apply retainer_save. intros r. by split_and!. Qed.

Lemma retainer_update_activity self now : retainer (update_activity self now).
Proof. apply retainer_save. intros r. by split_and!. Qed.

Lemma retainer_objects_create u d key ip ua now :
  retainer (objects_create u d key ip ua now).
Proof.
  intros w. rewrite objects_create_cases.
  destruct (tick_fields w) as (Hrows & _).
  destruct (db_faults w) as [|[] fs]; try (by apply retains_same_rows);
    destruct (unique_rejects _ _ _); try (by apply retains_same_rows);
    (eexists (session_trackers w), [_]; split_and!;
       [done | apply Forall2_keeps_refl | by repeat constructor]).
Qed.

Lemma retainer_Session_get key : retainer (Session_get key).
Proof. unfold Session_get. retainer_auto. Qed.

Lemma retainer_Session_delete key : retainer (Session_delete key).
Proof. unfold Session_delete. retainer_auto. Qed.

#[local] Hint Resolve retainer_qs_list retainer_qs_count retainer_qs_exists
  retainer_qs_oldest retainer_objects_get retainer_end_session
  retainer_add_violation retainer_update_activity retainer_objects_create
  retainer_Session_get retainer_Session_delete : retainer.

Lemma retainer_for_each {A} (l : list A) (body : A → M unit) :
  (∀ x, retainer (body x)) → retainer (for_each l body).
Proof.
  intros Hb. induction l as [|x l IH]; simpl; [apply retainer_ret |].
  apply retainer_bind; [apply Hb | by intros _].
Qed.

Lemma retainer_add_violations tracker activities details now :
  retainer (SessionValidationMiddleware.add_violations tracker activities
              details now).
Proof.
  revert tracker. induction activities as [|a l IH]; intros tracker; simpl;
    retainer_auto.
Qed.

Lemma retainer_cleanup_loop l c d now :
  retainer (SessionManager.cleanup_loop l c d now).
Proof.
  revert c d. induction l as [|s l IH]; intros c d; simpl; retainer_auto.
Qed.

Lemma retainer_end_all_loop l reason c now :
  retainer (SessionManager.end_all_loop l reason c now).
Proof.
  revert c. induction l as [|s l IH]; intros c; simpl; retainer_auto.
Qed.

Lemma retainer_delete_transport_session_quietly key :
  retainer (delete_transport_session_quietly key).
Proof. unfold delete_transport_session_quietly. retainer_auto. Qed.

#[local] Hint Resolve retainer_add_violations retainer_cleanup_loop
  retainer_end_all_loop retainer_delete_transport_session_quietly : retainer.

Lemma retainer_terminate_loop l c now :
  retainer (utils.terminate_loop l c now).
Proof.
  revert c. induction l as [|s l IH]; intros c; simpl; retainer_auto.
Qed.

#[local] Hint Resolve retainer_terminate_loop : retainer.

Lemma retainer_process_request settings request now :
  retainer (SessionValidationMiddleware.process_request settings request now).
Proof.
  unfold SessionValidationMiddleware.process_request,
    SessionValidationMiddleware._get_or_create_session_tracker,
    SessionValidationMiddleware._create_new_session_tracker,
    SessionValidationMiddleware._handle_session_timeout,
    SessionValidationMiddleware._has_concurrent_sessions,
    SessionValidationMiddleware._handle_concurrent_session,
    SessionValidationMiddleware._update_activity_tracking,
    SessionValidationMiddleware._monitor_suspicious_activity,
    SessionValidationMiddleware.logout,
    SessionManager.handle_concurrent_session_attempt,
    SessionManager.can_create_new_session,
    SessionManager.get_session_count_for_user,
    SessionManager.end_oldest_session_for_user,
    SessionManager._clear_user_session_cache,
    SessionManager.create_session_notification,
    SessionSecurityMonitor.detect_suspicious_activity,
    SessionSecurityMonitor._has_rapid_login_attempts,
    SessionSecurityMonitor._has_unusual_ip_pattern.
  retainer_auto.
Qed.

Lemma retains_trace settings requests : ∀ w,
  Forall (retains w) (trace settings requests w).
Proof.
  induction requests as [|[request now] rest IH]; intros w; simpl;
    constructor.
  - apply retainer_process_request.
  - eapply Forall_impl; [apply IH |]. intros w' Hw'. simpl in Hw'.
    eapply retains_trans; [apply retainer_process_request | done].
Qed.

Lemma retainer_end_selected_loop l c now :
  retainer (admin.end_selected_loop l c now).
Proof.
  revert c. induction l as [|s l IH]; intros c; simpl; retainer_auto.
Qed.

Lemma Forall2_keeps_map (f : SessionTracker → SessionTracker) l :
  (∀ r, keeps r (f r)) → Forall2 keeps l (map f l).
Proof. intros Hf. induction l as [|r l IH]; simpl; by constructor. Qed.

Lemma retainer_mark_as_violation selection :
  retainer (admin.mark_as_violation selection).
Proof.
  intros w. unfold admin.mark_as_violation, mbind, M_bind, bind, get_world,
    modify, mret, M_ret, ret.
  rewrite db_cases. destruct (tick_fields w) as (Hrows & _).
  assert (Hmap : Forall2 keeps (session_trackers w)
    (map (λ r, if selection r
               then set_logout_status (logout_time r) violation r else r)
       (session_trackers w))).
  { apply Forall2_keeps_map. intros r.
    destruct (selection r); [by split_and! | apply keeps_refl]. }
  destruct (db_faults w) as [|[] fs]; try (by apply retains_same_rows);
    (eexists _, []; rewrite app_nil_r; simpl; split_and!;
       [done | by rewrite Hrows | constructor]).
Qed.

Lemma retains_not_terminated w w' :
  retains w w' →
  (∀ r, r ∈ session_trackers w → status r ≠ terminated) →
  ∀ r, r ∈ session_trackers w' → status r ≠ terminated.
Proof.
  intros (kept & extra & -> & Hk & He) Hw r' [Hr | Hr]%elem_of_app.
  - clear He. induction Hk as [|r0 r0' l l' Hk0 _ IH];
      [by apply elem_of_nil in Hr |].
    apply elem_of_cons in Hr as [-> | Hr].
    + destruct Hk0 as (_ & _ & _ & _ & _ & _ & _ & _ & Ht).
      intros H%Ht. by apply (Hw r0), H; apply list_elem_of_here.
    + apply IH; [| done]. intros r Hin. apply Hw.
      by apply list_elem_of_further.
  - by apply (proj1 (Forall_forall _ _) He).
Qed.

(** No operation of the engine removes a tracker, moves it, changes what
    identifies its session (primary key, user, device, session key, login
    time, address, user agent) or makes an ended session active again,
    whatever the database does: not the middleware on a request nor on any
    sequence of requests, not the sweeps, not the command, not the three ways
    of ending the sessions of a user, and not the administration screens.
    Rows are only ever added at the end of the table. The status
    [terminated], one of the status choices, is never stored: a table without
    it stays without it. *)
Theorem trackers_are_retained (settings : Settings) (now : datetime)
    (request : SessionValidationMiddleware.Request)
    (requests : list (SessionValidationMiddleware.Request * datetime))
    (timeout : option Z) (m : Z) (dry_run : bool) (u : User) (reason : string)
    (exclude : option string) (session_id : nat) (selection : queryset)
    (w : World) :
  retainer (SessionValidationMiddleware.process_request settings request now)
  ∧ Forall (retains w) (trace settings requests w)
  ∧ retainer (SessionManager.cleanup_expired_sessions settings timeout now)
  ∧ retainer (cleanup_expired_sessions m now)
  ∧ retainer (Command.handle settings m dry_run now)
  ∧ retainer (SessionManager.end_all_sessions_for_user u reason exclude now)
  ∧ retainer (utils.terminate_user_sessions u exclude now)
  ∧ retainer (CustomLoginView.form_valid u now)
  ∧ retainer (views.end_session_view session_id now)
  ∧ retainer (views.manage_user_sessions_end_session (user_id u) session_id
                now)
  ∧ retainer (admin.end_selected_sessions selection now)
  ∧ retainer (admin.mark_as_violation selection)
  ∧ ∀ w', retains w w' →
      (∀ r, r ∈ session_trackers w → status r ≠ terminated) →
      ∀ r, r ∈ session_trackers w' → status r ≠ terminated.
Proof.
  split_and!.
  - apply retainer_process_request.
  - apply retains_trace.
  - unfold SessionManager.cleanup_expired_sessions,
      SessionManager._clear_all_session_caches. retainer_auto.
  - unfold cleanup_expired_sessions. retainer_auto.
    apply retainer_for_each. intros s. retainer_auto.
  - unfold Command.handle, SessionManager.cleanup_expired_sessions,
      SessionManager._clear_all_session_caches. retainer_auto.
  - unfold SessionManager.end_all_sessions_for_user,
      SessionManager._clear_user_session_cache. retainer_auto.
  - unfold utils.terminate_user_sessions. retainer_auto.
  - unfold CustomLoginView.form_valid. retainer_auto.
    apply retainer_for_each. intros s. retainer_auto.
  - unfold views.end_session_view. retainer_auto.
  - unfold views.manage_user_sessions_end_session. retainer_auto.
  - unfold admin.end_selected_sessions. retainer_auto.
    apply retainer_end_selected_loop.
  - apply retainer_mark_as_violation.
  - apply retains_not_terminated.
Qed.

(** ** validate_session_security *)

Lemma validate_session_security_eq session_key is_authenticated
    session_tracker now :
  let nokey := match session_key with
               | Some key => String.eqb key EmptyString
               | None => true
               end in
  let old := match session_tracker with
             | Some t => total_seconds_gt (now - login_time t) (8 * 60 * 60)
             | None => false
             end in
  let many := match session_tracker with
              | Some t => (5 <? violation_count t)%nat
              | None => false
              end in
  utils.validate_session_security session_key is_authenticated session_tracker
    now
  = (negb nokey && is_authenticated && negb many,
     ((if nokey then ["No session key"] else [])
      ++ (if negb is_authenticated then ["User not authenticated"] else [])
      ++ (if old then ["Session too old"] else [])
      ++ (if many then ["Too many violations"] else []))%list).
Proof.
  intros nokey old many. subst nokey old many.
  unfold utils.validate_session_security. cbv zeta.
  destruct (match session_key with
            | Some key => String.eqb key EmptyString
            | None => true
            end), is_authenticated, session_tracker as [t |]; simpl;
    try destruct (total_seconds_gt _ _); simpl;
    try destruct (5 <? violation_count t)%nat; done.
Qed.

(** [validate_session_security] answers [valid] exactly when the request has a
    session key, its user is authenticated and its tracker, if it has one, has
    at most 5 violations. An invalid result always names an issue, while a
    valid one may name one too: a session older than 8 hours is reported as
    [Session too old] and stays valid. [Too many violations] is reported
    exactly when the anomaly scan reports [excessive_violations] for the
    tracker. *)
Theorem validate_session_security_spec (session_key : option string)
    (is_authenticated : bool) (session_tracker : option SessionTracker)
    (now : datetime) :
  let results :=
    utils.validate_session_security session_key is_authenticated
      session_tracker now in
  (results.1 = true
   ↔ (∃ key, session_key = Some key ∧ key ≠ EmptyString)
     ∧ is_authenticated = true
     ∧ ∀ t, session_tracker = Some t → (violation_count t ≤ 5)%nat)
  ∧ (results.1 = false → results.2 ≠ [])
  ∧ ("Session too old" ∈ results.2
     ↔ ∃ t, session_tracker = Some t ∧ 8 * hour < now - login_time t)
  ∧ ∀ t rows, session_tracker = Some t →
      ("Too many violations" ∈ results.2
       ↔ "excessive_violations" ∈ suspicious_activities rows t now).
Proof.
  intros results. subst results. rewrite validate_session_security_eq.
  cbv zeta. cbn [fst snd].
  set (nokey := match session_key with
                | Some key => String.eqb key EmptyString
                | None => true
                end).
  assert (Hkey : nokey = false
                 ↔ ∃ key, session_key = Some key ∧ key ≠ EmptyString).
  { subst nokey. destruct session_key as [key |].
    - rewrite String.eqb_neq.
      split; [by exists key | by intros (? & [= <-] & ?)].
    - split; [done | by intros (? & ? & ?)]. }
  assert (Hold : ∀ t, total_seconds_gt (now - login_time t) (8 * 60 * 60) = true
                      ↔ 8 * hour < now - login_time t).
  { intros t. unfold total_seconds_gt, hour, minute. rewrite Z.ltb_lt. lia. }
  split_and!.
  - rewrite !andb_true_iff, !negb_true_iff, Hkey.
    assert (Hmany : match session_tracker with
                    | Some t => (5 <? violation_count t)%nat
                    | None => false
                    end = false
                    ↔ ∀ t, session_tracker = Some t
                           → (violation_count t ≤ 5)%nat).
    { destruct session_tracker as [t |].
      - rewrite Nat.ltb_ge. split; [by intros ? ? [= <-] | auto].
      - split; [done | done]. }
    rewrite Hmany. tauto.
  - rewrite !andb_false_iff, !negb_false_iff.
    intros [[H | H] | H] Hnil; rewrite H in Hnil;
      apply (f_equal length) in Hnil; rewrite ?length_app in Hnil;
      simpl in Hnil; lia.
  - rewrite !elem_of_app, !elem_of_tag.
    destruct session_tracker as [t |].
    + rewrite Hold. split.
      * intros [[_ [=]] | [[_ [=]] | [[H _] | [_ [=]]]]]. by exists t.
      * intros (t' & [= <-] & H). right; right; left. done.
    + split.
      * intros [[_ [=]] | [[_ [=]] | [[[=] _] | [_ [=]]]]].
      * by intros (t' & ? & _).
  - intros t rows ->.
    unfold suspicious_activities,
      SessionSecurityMonitor.detect_suspicious_activity.
    erewrite mbind_Ok; [| apply has_rapid_login_attempts_cases].
    erewrite mbind_Ok; [| apply has_unusual_ip_pattern_cases].
    cbn [fst mret M_ret ret].
    rewrite !elem_of_app, !elem_of_tag.
    split.
    + intros [[_ [=]] | [[_ [=]] | [[_ [=]] | [H _]]]]. by do 3 right.
    + intros [[_ [=]] | [[_ [=]] | [[_ [=]] | [H _]]]]. by do 3 right.
Qed.

(** ** Ending a session from the administration screens *)

Lemma end_pks_key_ended reason now rows x s' :
  table_ok now rows → x ∈ rows →
  s' ∈ end_pks reason now [pk x] rows → session_key s' = session_key x →
  status s' ≠ active.
Proof.
  intros [Hid _] Hx (s & -> & Hs)%list_elem_of_fmap Hk. simpl in *.
  rewrite orb_false_r in *.
  destruct (Nat.eqb (pk s) (pk x)) eqn:Hp.
  - simpl. apply status_of_reason_not_active.
  - apply Nat.eqb_neq in Hp. destruct Hp. f_equal. apply Hid; auto.
Qed.

Lemma filter_singleton_elem (q : queryset) rows x :
  List.filter q rows = [x] → x ∈ rows ∧ q x = true.
Proof.
  intros H. apply elem_of_filter_bool. rewrite H. apply list_elem_of_here.
Qed.

(** Ending a session from the session monitor stores the tracker as
    [inactive] and leaves the transport session of the user in place. The
    user is not logged out: every later request of that session is passed on
    by the middleware, untracked. A second click on the same session is
    answered with a warning and changes nothing. *)
Theorem end_session_view_leaves_user_in (session_id : nat) (now : datetime)
    (w : World) (x : SessionTracker) :
  db_faults w = [] →
  table_ok now (session_trackers w) →
  List.filter (λ s, Nat.eqb (pk s) session_id) (session_trackers w) = [x] →
  status x = active →
  ∃ w1,
    views.end_session_view session_id now w = (Ok views.success, w1)
    ∧ session_trackers w1
      = end_pks "admin_action" now [pk x] (session_trackers w)
    ∧ django_sessions w1 = django_sessions w
    ∧ (∀ settings request later,
         SessionValidationMiddleware.request_session_key request
         = session_key x →
         ∃ w2,
           SessionValidationMiddleware.process_request settings request later
             w1 = (Ok None, w2)
           ∧ same_tables w1 w2)
    ∧ ∀ later, views.end_session_view session_id later w1
               = (Ok views.warning, w1).
Proof.
  intros Hf Hok Hres Hact.
  destruct (filter_singleton_elem _ _ _ Hres) as [Hin Hid%Nat.eqb_eq].
  subst session_id.
  pose proof (table_ok_endable now _ x Hok Hin Hact) as Hend.
  destruct Hok as [Huniq Hrows].
  destruct (Hrows x Hin Hact) as (Hlogout & _).
  set (rows1 := end_pks "admin_action" now [pk x] (session_trackers w)).
  exists (set_trackers rows1 w). split_and!; try done.
  - unfold views.end_session_view.
    erewrite mbind_Ok; [| rewrite objects_get_no_fault by done; by rewrite Hres].
    unfold is_active. rewrite Hact, Hlogout. simpl.
    by erewrite mbind_Ok; [| by apply end_session_endable].
  - intros settings request later Hkey.
    apply process_request_untracked; simpl; rewrite Hkey.
    + apply filter_none. intros s Hs.
      destruct (String.eqb_spec (session_key s) (session_key x)) as [Hk | Hk];
        [| done].
      pose proof (end_pks_key_ended "admin_action" now (session_trackers w) x s
                    (conj Huniq Hrows) Hin Hs Hk) as Hne.
      by destruct (status s).
    + unfold unique_rejects. apply existsb_exists.
      exists (end_row "admin_action" now x). split.
      * apply in_map_iff. exists x. split; [| by apply list_elem_of_In].
        simpl. by rewrite Nat.eqb_refl.
      * simpl. by rewrite String.eqb_refl.
  - intros later. unfold views.end_session_view.
    erewrite mbind_Ok.
    2:{ rewrite objects_get_no_fault by done. simpl. unfold rows1, end_pks.
        rewrite filter_map_preserve.
        2:{ intros r. by destruct (existsb _ _). }
        rewrite Hres. simpl. by rewrite Nat.eqb_refl. }
    done.
Qed.

Lemma end_session_view_leaves_user_in_witness :
  let w := with_transport_sessions (world_of two_sessions) in
  ∃ w1,
    views.end_session_view 1 30 w = (Ok views.success, w1)
    ∧ django_sessions w1 = django_sessions w
    ∧ ∃ w2,
        SessionValidationMiddleware.process_request default_settings
          (request_of alice "existing_session") 40 w1 = (Ok None, w2)
        ∧ same_tables w1 w2.
Proof.
  intros w.
  destruct (end_session_view_leaves_user_in 1 30 w
              (fresh_tracker 1 7 "existing_session" 0))
    as (w1 & Heq & _ & Hdj & Hlater & _); try reflexivity.
  - change (table_ok 30 two_sessions). unfold two_sessions. table_ok_two.
  - exists w1. split_and!; [exact Heq | exact Hdj |].
    apply (Hlater default_settings (request_of alice "existing_session") 40).
    reflexivity.
Defined.

(** The admin action [mark_as_violation] writes the status past [save]: an
    active session that is marked keeps an empty logout time, which no
    operation of the model produces. The session is then never closed by the
    engine: the transport session of the user stays, the requests of the
    session are passed on untracked, the session monitor answers that the
    session is already inactive, and none of the queries of the sweeps and of
    the operations that end sessions selects the row. *)
Theorem mark_as_violation_never_closes (selection : queryset) (now : datetime)
    (w : World) (x : SessionTracker) :
  db_faults w = [] →
  table_ok now (session_trackers w) →
  List.filter (λ s, Nat.eqb (pk s) (pk x)) (session_trackers w) = [x] →
  selection x = true → status x = active →
  ∃ w1,
    admin.mark_as_violation selection w
    = (Ok (length (List.filter selection (session_trackers w))), w1)
    ∧ session_trackers w1
      = map (λ r, if selection r then marked r else r) (session_trackers w)
    ∧ django_sessions w1 = django_sessions w
    ∧ status (marked x) = violation ∧ logout_time (marked x) = None
    ∧ ¬ tracker_invariant (marked x)
    ∧ (∀ settings request later,
         SessionValidationMiddleware.request_session_key request
         = session_key x →
         ∃ w2,
           SessionValidationMiddleware.process_request settings request later
             w1 = (Ok None, w2)
           ∧ same_tables w1 w2)
    ∧ (∀ later, views.end_session_view (pk x) later w1
                = (Ok views.warning, w1))
    ∧ ∀ m later u exclude (chosen : queryset),
        due m later (marked x) = false
        ∧ SessionManager.sessions_to_end u exclude (marked x) = false
        ∧ utils.sessions_to_terminate u exclude (marked x) = false
        ∧ chosen (marked x) && status_eqb (status (marked x)) active = false.
Proof.
  intros Hf Hok Hres Hsel Hact.
  destruct (filter_singleton_elem _ _ _ Hres) as [Hin _].
  destruct Hok as [Huniq Hrows].
  destruct (Hrows x Hin Hact) as (Hlogout & _).
  set (rows1 := map (λ r, if selection r then marked r else r)
                  (session_trackers w)).
  exists (set_trackers rows1 w). split_and!; try done.
  - unfold admin.mark_as_violation.
    erewrite mbind_Ok; [| by apply db_no_fault]. done.
  - intros (Hiff & _). destruct Hiff as [Hiff _].
    by specialize (Hiff Hlogout).
  - intros settings request later Hkey.
    apply process_request_untracked; simpl; rewrite Hkey.
    + apply filter_none. intros s' (s & -> & Hs)%list_elem_of_fmap.
      destruct (String.eqb_spec
                  (session_key (if selection s then marked s else s))
                  (session_key x)) as [Hk | Hk]; [| done].
      assert (s = x) as ->.
      { apply Huniq; try done. right. by destruct (selection s). }
      by rewrite Hsel.
    + unfold unique_rejects. apply existsb_exists.
      exists (marked x). split.
      * apply in_map_iff. exists x. rewrite Hsel.
        split; [done | by apply list_elem_of_In].
      * simpl. by rewrite String.eqb_refl.
  - intros later. unfold views.end_session_view.
    erewrite mbind_Ok.
    2:{ rewrite objects_get_no_fault by done. simpl. unfold rows1.
        rewrite filter_map_preserve.
        2:{ intros r. by destruct (selection r). }
        rewrite Hres. simpl. by rewrite Hsel. }
    done.
  - intros m later u exclude chosen. split_and!.
    + done.
    + destruct (SessionManager.sessions_to_end u exclude (marked x)) eqn:E;
        [| done]. by apply sessions_to_end_active in E.
    + destruct (utils.sessions_to_terminate u exclude (marked x)) eqn:E;
        [| done]. by apply sessions_to_terminate_active in E.
    + simpl. apply andb_false_r.
Qed.

Lemma mark_as_violation_never_closes_witness :
  let w := with_transport_sessions (world_of two_sessions) in
  ∃ w1,
    admin.mark_as_violation (λ s, Nat.eqb (pk s) 1) w = (Ok 1%nat, w1)
    ∧ map (λ s, (status s, logout_time s)) (session_trackers w1)
      = [(violation, None); (active, None)]
    ∧ django_sessions w1 = django_sessions w
    ∧ views.end_session_view 1 40 w1 = (Ok views.warning, w1).
Proof.
  intros w.
  destruct (mark_as_violation_never_closes (λ s, Nat.eqb (pk s) 1) 30 w
              (fresh_tracker 1 7 "existing_session" 0))
    as (w1 & Heq & Hrows & Hdj & _ & _ & _ & _ & Hview & _);
    try reflexivity.
  - change (table_ok 30 two_sessions). unfold two_sessions. table_ok_two.
  - exists w1. split_and!; [exact Heq | by rewrite Hrows | exact Hdj |].
    apply (Hview 40).
Defined.

(** ** Saving an access rule *)

Lemma role_eqb_eq a b : AccessControlMiddleware.role_eqb a b = true ↔ a = b.
Proof.
  unfold AccessControlMiddleware.role_eqb. rewrite Nat.eqb_eq.
  destruct a, b; simpl; split; congruence.
Qed.

Lemma existsb_false_elem {A} (q : A → bool) (l : list A) x :
  existsb q l = false → x ∈ l → q x = false.
Proof.
  intros H Hx. apply not_true_is_false. intros Hq.
  assert (existsb q l = true); [| congruence].
  apply existsb_exists. exists x. split; [by apply list_elem_of_In | done].
Qed.

Lemma deactivate_others_id self_pk self table :
  existsb (AccessControlTable.other_of_role self_pk (AccessControl.role self))
    table = false →
  AccessControlTable.deactivate_others self_pk self table = table.
Proof.
  intros H. unfold AccessControlTable.deactivate_others.
  rewrite <- (map_id table) at 2. apply map_ext_in.
  intros row Hrow%list_elem_of_In.
  by rewrite (existsb_false_elem _ _ _ H Hrow).
Qed.

Lemma clean_raises_validation_error self e :
  AccessControlTable.clean self = Raise e → e = ValidationError.
Proof.
  unfold AccessControlTable.clean.
  destruct (AccessControlTable.validate_json_list _); [| congruence].
  destruct (AccessControlTable.validate_json_list _); [| congruence].
  destruct (AccessControlTable.validate_time_restrictions _); congruence.
Qed.

(** [save] accepts an access rule only when no other row is for its role,
    whether the rule is active or not: a role never has a second rule, and
    the step of [save] that deactivates the other active rules of the role
    never finds one. A rule that is accepted has fields that parse and a time
    window with both bounds or none, so that the evaluator ignores no bound
    of it. *)
Theorem save_keeps_one_rule_per_role (self_pk : option nat)
    (self : AccessControl.t) (next_id : nat)
    (table : list AccessControlTable.Row) :
  one_rule_per_role table →
  (∀ i j r1 r2, table !! i = Some r1 → table !! j = Some r2 →
                AccessControlTable.id r1 = AccessControlTable.id r2 → i = j) →
  (∀ row, row ∈ table →
          AccessControlTable.other_of_role self_pk (AccessControl.role self)
            row = true →
          AccessControlTable.save self_pk self next_id table
          = Raise ValidationError)
  ∧ ∀ table' next_id',
      AccessControlTable.save self_pk self next_id table
      = Ok (table', next_id') →
      one_rule_per_role table'
      ∧ (table', next_id')
        = AccessControlTable.write self_pk self next_id table
      ∧ AccessControl.allowed_domains self ≠ Malformed
      ∧ AccessControl.blocked_domains self ≠ Malformed
      ∧ AccessControl.time_restrictions self ≠ Malformed
      ∧ (AccessControl.start_time (AccessControl.get_time_restrictions self)
         = None
         ↔ AccessControl.end_time (AccessControl.get_time_restrictions self)
           = None).
Proof.
  intros Hroles Hids. split.
  - intros row Hrow Hother. unfold AccessControlTable.save,
      AccessControlTable.full_clean.
    destruct (AccessControlTable.clean self) as [[] | e] eqn:Hclean;
      [| by rewrite (clean_raises_validation_error self e)].
    replace (existsb _ table) with true; [done |]. symmetry.
    apply existsb_exists. exists row. split; [by apply list_elem_of_In | done].
  - intros table' next_id'. unfold AccessControlTable.save,
      AccessControlTable.full_clean.
    destruct (AccessControlTable.clean self) eqn:Hclean; [| done].
    destruct (existsb _ table) eqn:Hnone; [done |].
    assert (Hsame :
      (if AccessControl.is_active self
       then AccessControlTable.deactivate_others self_pk self table
       else table) = table).
    { destruct (AccessControl.is_active self); [| done].
      by apply deactivate_others_id. }
    rewrite Hsame. intros [= Hw]. split_and!.
    + assert (Hfree : ∀ i r, table !! i = Some r →
                AccessControl.role (AccessControlTable.rule r)
                = AccessControl.role self →
                ∃ p, self_pk = Some p ∧ AccessControlTable.id r = p).
      { intros i r Hi Hr.
        pose proof (existsb_false_elem _ _ r Hnone
                      (list_elem_of_lookup_2 _ _ _ Hi)) as Hq.
        unfold AccessControlTable.other_of_role in Hq.
        rewrite (proj2 (role_eqb_eq _ _) Hr) in Hq. simpl in Hq.
        destruct self_pk as [p |]; [| done]. exists p. split; [done |].
        by apply negb_false_iff, Nat.eqb_eq in Hq. }
      unfold AccessControlTable.write in Hw.
      destruct self_pk as [p |].
      * revert Hw.
        destruct (existsb (λ row, Nat.eqb (AccessControlTable.id row) p) table)
          eqn:Hex; intros [= <- <-].
        -- intros i j r1 r2 H1 H2 Hr.
           rewrite list_lookup_fmap in H1, H2.
           destruct (table !! i) as [ra |] eqn:Ha; [| done].
           destruct (table !! j) as [rb |] eqn:Hb; [| done].
           simpl in H1, H2. injection H1 as <-. injection H2 as <-.
           destruct (Nat.eqb_spec (AccessControlTable.id ra) p) as [Ea | Ea];
             destruct (Nat.eqb_spec (AccessControlTable.id rb) p) as [Eb | Eb];
             simpl in Hr.
           ++ apply (Hids i j ra rb); congruence.
           ++ destruct (Hfree j rb Hb) as (? & [= <-] & ?); done.
           ++ destruct (Hfree i ra Ha) as (? & [= <-] & ?); done.
           ++ by apply (Hroles i j ra rb).
        -- intros i j r1 r2 H1 H2 Hr.
           apply lookup_app_Some in H1 as [H1 | [Hi H1]];
             apply lookup_app_Some in H2 as [H2 | [Hj H2]].
           ++ by apply (Hroles i j r1 r2).
           ++ apply list_lookup_singleton_Some in H2 as [_ <-]. simpl in Hr.
              destruct (Hfree i r1 H1 Hr) as (? & [= <-] & Hid).
              assert (existsb (λ row, Nat.eqb (AccessControlTable.id row) p)
                        table = true); [| congruence].
              apply existsb_exists. exists r1.
              split; [eapply list_elem_of_In, list_elem_of_lookup_2; done |].
              by apply Nat.eqb_eq.
           ++ apply list_lookup_singleton_Some in H1 as [_ <-]. simpl in Hr.
              destruct (Hfree j r2 H2 (eq_sym Hr)) as (? & [= <-] & Hid).
              assert (existsb (λ row, Nat.eqb (AccessControlTable.id row) p)
                        table = true); [| congruence].
              apply existsb_exists. exists r2.
              split; [eapply list_elem_of_In, list_elem_of_lookup_2; done |].
              by apply Nat.eqb_eq.
           ++ apply list_lookup_singleton_Some in H1 as [H1 _].
              apply list_lookup_singleton_Some in H2 as [H2 _]. lia.
      * injection Hw as <- <-. intros i j r1 r2 H1 H2 Hr.
        apply lookup_app_Some in H1 as [H1 | [Hi H1]];
          apply lookup_app_Some in H2 as [H2 | [Hj H2]].
        -- by apply (Hroles i j r1 r2).
        -- apply list_lookup_singleton_Some in H2 as [_ <-]. simpl in Hr.
           by destruct (Hfree i r1 H1 Hr) as (? & ? & _).
        -- apply list_lookup_singleton_Some in H1 as [_ <-]. simpl in Hr.
           by destruct (Hfree j r2 H2 (eq_sym Hr)) as (? & ? & _).
        -- apply list_lookup_singleton_Some in H1 as [H1 _].
           apply list_lookup_singleton_Some in H2 as [H2 _]. lia.
    + done.
    + unfold AccessControlTable.clean in Hclean.
      by destruct (AccessControl.allowed_domains self).
    + unfold AccessControlTable.clean in Hclean.
      destruct (AccessControlTable.validate_json_list
                  (AccessControl.allowed_domains self)); [| done].
      by destruct (AccessControl.blocked_domains self).
    + unfold AccessControlTable.clean in Hclean.
      destruct (AccessControlTable.validate_json_list
                  (AccessControl.allowed_domains self)); [| done].
      destruct (AccessControlTable.validate_json_list
                  (AccessControl.blocked_domains self)); [| done].
      by destruct (AccessControl.time_restrictions self).
    + unfold AccessControlTable.clean in Hclean.
      destruct (AccessControlTable.validate_json_list
                  (AccessControl.allowed_domains self)); [| done].
      destruct (AccessControlTable.validate_json_list
                  (AccessControl.blocked_domains self)); [| done].
      unfold AccessControl.get_time_restrictions.
      destruct (AccessControl.time_restrictions self) as [| data |];
        simpl in *; [done | | done].
      destruct (AccessControl.start_time data), (AccessControl.end_time data);
        simpl in Hclean; try done.
Qed.

Lemma save_keeps_one_rule_per_role_witness :
  AccessControlTable.save None (domain_rule [] ["x.com"]) 2 students_rule_only
  = Raise ValidationError
  ∧ one_rule_per_role
      (students_rule_only
       ++ [{| AccessControlTable.id := 2;
              AccessControlTable.rule := night_hours |}])%list.
Proof.
  assert (Hone : ∀ i j (r1 r2 : AccessControlTable.Row),
            students_rule_only !! i = Some r1 →
            students_rule_only !! j = Some r2 → i = j).
  { intros i j r1 r2 [-> _]%list_lookup_singleton_Some
      [-> _]%list_lookup_singleton_Some. done. }
  split.
  - destruct (save_keeps_one_rule_per_role None (domain_rule [] ["x.com"]) 2
                students_rule_only) as [Hrefused _].
    + intros i j r1 r2 H1 H2 _. by apply (Hone i j r1 r2).
    + intros i j r1 r2 H1 H2 _. by apply (Hone i j r1 r2).
    + apply (Hrefused {| AccessControlTable.id := 1;
                         AccessControlTable.rule := office_hours |}).
      * apply list_elem_of_here.
      * reflexivity.
  - destruct (save_keeps_one_rule_per_role None night_hours 2
                students_rule_only) as [_ Hsaved].
    + intros i j r1 r2 H1 H2 _. by apply (Hone i j r1 r2).
    + intros i j r1 r2 H1 H2 _. by apply (Hone i j r1 r2).
    + by destruct (Hsaved _ 3%nat eq_refl) as [H _].
Defined.

(** ** The session limit counts the session of the request *)



(** Under a limit of 2 the second session of a user is denied, under a limit
    of 3 it is admitted. *)
Example second_session_under_limit_2_and_3 :
  let w := world_of [fresh_tracker 1 7 "existing_session" 0] in
  let r2 := SessionValidationMiddleware.process_request limit_2_settings
              (request_of alice "new_session") 10 w in
  let r3 := SessionValidationMiddleware.process_request limit_3_settings
              (request_of alice "new_session") 10 w in
  r2.1 = Ok (Some SessionValidationMiddleware.redirect_login)
  ∧ map status (session_trackers r2.2) = [active; violation]
  ∧ r3.1 = Ok None
  ∧ map status (session_trackers r3.2) = [active; active].
Proof. by vm_compute. Qed.

(** ** The scan for addresses *)

Lemma length_remove_dups_NoDup {A} `{EqDecision A} (l : list A) :
  NoDup l → length (remove_dups l) = length l.
Proof.
  induction 1 as [|x l Hx _ IH]; simpl; [done |].
  destruct (decide_rel elem_of x l); [done |]. simpl. by rewrite IH.
Qed.

Lemma NoDup_map_pair {A B C} (f : A → B) (g : A → C) (l : list A) :
  NoDup (map g l) → NoDup (map (λ x, (f x, g x)) l).
Proof.
  induction l as [|x l IH]; simpl; [constructor |].
  intros [Hx Hl]%NoDup_cons. apply NoDup_cons. split; [| auto].
  intros (y & [= _ Hg] & Hy)%list_elem_of_fmap. apply Hx.
  rewrite Hg. apply list_elem_of_fmap. by exists y.
Qed.

(** With a database that answers, [unusual_ip_pattern] is reported exactly
    when the logins of the user during the last 24 hours show more than 3
    distinct pairs of address and login time: [distinct()] works on the rows
    selected, and the login time by which the model is ordered is selected
    with the address. Logins at different instants are different rows however
    few addresses they come from, so that more than 3 logins a day at
    different instants are reported, also from one address. *)
Theorem unusual_ip_pattern_counts_logins (t : SessionTracker) (now : datetime)
    (w : World) :
  db_faults w = [] →
  let recent := recent_logins t now (session_trackers w) in
  ∃ tags,
    SessionSecurityMonitor.detect_suspicious_activity t now w = (Ok tags, w)
    ∧ ("unusual_ip_pattern" ∈ tags
       ↔ Nat.lt 3
           (length (remove_dups
                      (map (λ r, (ip_address r, login_time r)) recent))))
    ∧ (NoDup (map login_time recent) →
       ("unusual_ip_pattern" ∈ tags ↔ Nat.lt 3 (length recent))).
Proof.
  intros Hf recent. eexists. split.
  { unfold SessionSecurityMonitor.detect_suspicious_activity.
    erewrite mbind_Ok; [| apply has_rapid_login_attempts_cases].
    erewrite mbind_Ok; [| apply has_unusual_ip_pattern_cases].
    rewrite !(tick_no_fault w), Hf by done. done. }
  assert (Hmem :
    "unusual_ip_pattern"
    ∈ ((if Nat.ltb 5
             (length
                (List.filter
                   (λ s, Nat.eqb (user s) (user t)
                         && (now - minutes 10 <=? login_time s))
                   (session_trackers w)))
        then ["rapid_login_attempts"] else [])
       ++ (if Nat.ltb 3
                (length
                   (SessionSecurityMonitor.distinct_ip_address
                      (List.filter
                         (λ s, Nat.eqb (user s) (user t)
                               && (now - 24 * hour <=? login_time s))
                         (session_trackers w))))
           then ["unusual_ip_pattern"] else [])
       ++ (if SessionSecurityMonitor._has_unusual_session_duration t now
           then ["unusual_session_duration"] else [])
       ++ (if Nat.ltb 5 (violation_count t)
           then ["excessive_violations"] else []))%list
    ↔ Nat.lt 3
        (length (remove_dups
                   (map (λ r, (ip_address r, login_time r)) recent)))).
  { rewrite !elem_of_app, !elem_of_tag.
    unfold SessionSecurityMonitor.distinct_ip_address. rewrite length_map.
    fold (recent_logins t now (session_trackers w)). fold recent.
    unfold Nat.lt. rewrite <- (Nat.ltb_lt 3). intuition congruence. }
  split; [exact Hmem |].
  intros Hnodup. rewrite Hmem.
  rewrite (length_remove_dups_NoDup _
             (NoDup_map_pair ip_address login_time _ Hnodup)).
  by rewrite length_map.
Qed.

Lemma unusual_ip_pattern_counts_logins_witness :
  let t := fresh_tracker 4 7 "login_4" (3 * minute) in
  let w := world_of four_logins_one_address in
  length (remove_dups (map ip_address (session_trackers w))) = 1%nat
  ∧ ∃ tags,
      SessionSecurityMonitor.detect_suspicious_activity t (4 * minute) w
      = (Ok tags, w)
      ∧ "unusual_ip_pattern" ∈ tags.
Proof.
  intros t w. split; [reflexivity |].
  destruct (unusual_ip_pattern_counts_logins t (4 * minute) w)
    as (tags & Heq & Hiff & _); [reflexivity |].
  exists tags. split; [exact Heq |]. apply Hiff. vm_compute. lia.
Defined.

(** ** What the sweep of the model returns *)



(** ** The thresholds of the code and the float *)

(** At the thresholds the code compares a duration with (the 12 hours of the
    anomaly scan, the 8 hours of [validate_session_security], the 30 minutes
    of the default timeout) the rounding of the float [total_seconds()] never
    changes the answer: each of these tests is the test on the float as the
    code computes it, for every instant and every record. *)
Theorem duration_tests_on_the_float (t : SessionTracker) (now : datetime)
    (session_key : option string) (is_authenticated : bool) :
  let longer_than :=
    λ since s, float_gt_int (total_seconds (now - since)) s in
  SessionSecurityMonitor._has_unusual_session_duration t now
  = status_eqb (status t) active && longer_than (login_time t) (12 * 3600)
  ∧ ("Session too old"
     ∈ (utils.validate_session_security session_key is_authenticated (Some t)
          now).2
     ↔ longer_than (login_time t) (8 * 60 * 60) = true)
  ∧ SessionValidationMiddleware._is_session_expired default_settings t now
    = longer_than (last_activity t) (30 * 60)
  ∧ is_session_expired t 30 now
    = negb (status_eqb (status t) active)
      || longer_than (last_activity t) (30 * 60).
Proof.
  intros longer_than. subst longer_than. cbv beta.
  rewrite !total_seconds_gt_float by (change (2 ^ 33) with 8589934592; lia).
  split_and!.
  - unfold SessionSecurityMonitor._has_unusual_session_duration.
    by destruct (status_eqb (status t) active).
  - rewrite validate_session_security_eq. cbn [snd].
    rewrite !elem_of_app, !elem_of_tag. intuition congruence.
  - done.
  - unfold is_session_expired, time_since_last_activity.
    by destruct (status_eqb (status t) active).
Qed.
